(** * Garden orchestrator: a shallow embedding of [garden.ts]

    The [Garden] class of the garden service (provider resolution, module
    configuration registry, graph resolution with plugin augmentation,
    version resolution and the configuration dump) is embedded as
    state-passing functions over a record holding the fields of the class.

    Conventions.
    - A JavaScript object used as a dictionary whose [Object.values] order is
      observed is the association list of its own properties in the order of
      their creation ([Obj]); [objValues] and [objKeys] list them the way
      [Object.values] and [Object.keys] do, array indices first. Dictionaries
      that are only looked up are [gmap]s.
    - The registries of module and workflow configs are object literals, and
      the code reads them by property access, which also finds what an object
      literal inherits from [Object.prototype] ([objRead]). The other lookups
      (plugins, providers and modules by name) are embedded as lookups of own
      properties: they follow the code for every name that is not the name of
      a property of [Object.prototype], and the statements that depend on it
      say so.
    - An [async] method is a computation in the monad [M] (state of the
      orchestrator plus an exception).  [Bluebird.map] starts every mapper in
      list order and rejects with the first rejection; it is embedded as
      [bluebirdMap], which runs the mappers one after the other.
    - Strings are compared the way [Array.prototype.sort] and lodash's
      [sortBy] compare them, code unit by code unit ([String.le]).
    - [chalk] colouring is the identity (no colour support) and the
      [this.log] calls, which only write to the logger, are left out.
    - Everything imported from modules other than [garden.ts] is a field of
      the class [Collaborators], except for a few helpers that are modelled
      from the specification and say so. *)

From stdpp Require Import gmap strings list sorting.

(** ** JavaScript helpers *)

(** [Array.prototype.join] *)
Fixpoint join (sep : string) (l : list string) : string :=
  match l with
  | [] => ""
  | [x] => x
  | x :: rest => x +:+ sep +:+ join sep rest
  end.

(** An object used as a dictionary: its own properties, in the order in
    which they were created. *)
Definition Obj (V : Type) : Type := list (string * V).

(** The own property [k] of [o]. *)
Fixpoint objGet {V} (o : Obj V) (k : string) : option V :=
  match o with
  | [] => None
  | (k', v) :: rest => if decide (k' = k) then Some v else objGet rest k
  end.

(** The properties that an object literal inherits from [Object.prototype]. *)
Definition objectPrototypeKeys : list string :=
  ["constructor"; "__defineGetter__"; "__defineSetter__"; "hasOwnProperty";
   "__lookupGetter__"; "__lookupSetter__"; "isPrototypeOf";
   "propertyIsEnumerable"; "toString"; "valueOf"; "__proto__";
   "toLocaleString"].

(** What the property access [o[k]] finds on an object literal: an own
    property, else a property of [Object.prototype] (a function or an object,
    truthy, with no [path]), else [undefined]. *)
Inductive Property (V : Type) : Type :=
  | Own (v : V)
  | Inherited
  | Undefined.
Arguments Own {V} v.
Arguments Inherited {V}.
Arguments Undefined {V}.

Definition objRead {V} (o : Obj V) (k : string) : Property V :=
  match objGet o k with
  | Some v => Own v
  | None => if decide (k ∈ objectPrototypeKeys) then Inherited else Undefined
  end.

(** [o[k] = v]: an existing key keeps its position, a new key goes last. *)
Fixpoint objSet {V} (o : Obj V) (k : string) (v : V) : Obj V :=
  match o with
  | [] => [(k, v)]
  | (k', v') :: rest =>
      if decide (k' = k) then (k', v) :: rest else (k', v') :: objSet rest k v
  end.

(** The value of a decimal digit. *)
Definition digit (c : Ascii.ascii) : option N :=
  let n := Ascii.N_of_ascii c in
  if ((48 <=? n) && (n <=? 57))%N then Some (n - 48)%N else None.

Fixpoint digits (s : string) (acc : N) : option N :=
  match s with
  | EmptyString => Some acc
  | String c rest =>
      match digit c with
      | Some d => digits rest (10 * acc + d)%N
      | None => None
      end
  end.

(** A property key is an array index when it is the canonical decimal
    numeral of an integer below [2^32 - 1]. *)
Definition arrayIndex (k : string) : option N :=
  match k with
  | EmptyString => None
  | String c rest =>
      if decide (c = Ascii.ascii_of_nat 48 ∧ rest ≠ EmptyString) then None
      else match digits k 0 with
           | Some n => if (n <? 4294967295)%N then Some n else None
           | None => None
           end
  end.

Fixpoint insertIndex {V} (x : N * (string * V)) (l : list (N * (string * V)))
  : list (N * (string * V)) :=
  match l with
  | [] => [x]
  | y :: rest =>
      if (x.1 <=? y.1)%N then x :: y :: rest else y :: insertIndex x rest
  end.

(** The own properties in the order of [Object.keys], [Object.values] and
    [for ... in]: array indices first, in ascending numeric order, then the
    other keys in the order of their creation. *)
Definition ownEntries {V} (o : Obj V) : list (string * V) :=
  map snd (foldr insertIndex []
             (omap (fun kv => (fun n => (n, kv)) <$> arrayIndex kv.1) o))
  ++ filter (fun kv => arrayIndex kv.1 = None) o.

Definition objValues {V} (o : Obj V) : list V := map snd (ownEntries o).
Definition objKeys {V} (o : Obj V) : list string := map fst (ownEntries o).

(** lodash [keyBy(l, "name")] *)
Definition keyBy {V} (name : V → string) (l : list V) : Obj V :=
  fold_left (fun o v => objSet o (name v) v) l [].

(** lodash [fromPairs] *)
Definition fromPairs {V} (l : list (string * V)) : Obj V :=
  fold_left (fun o kv => objSet o kv.1 kv.2) l [].

(** Stable sort by a string key: [Array.prototype.sort] on strings with
    [key := id], lodash's [sortBy(l, "name")] with [key := name]. *)
Fixpoint insertBy {A} (key : A → string) (x : A) (l : list A) : list A :=
  match l with
  | [] => [x]
  | y :: rest =>
      if String.leb (key x) (key y) then x :: y :: rest
      else y :: insertBy key x rest
  end.

Definition sortBy {A} (key : A → string) (l : list A) : list A :=
  foldr (insertBy key) [] l.

Definition sort (l : list string) : list string := sortBy id l.

(** The line feed of the template strings. *)
Definition nl : string := String (Ascii.ascii_of_nat 10) "".

(** The full stop that separates the parts of a task key. *)
Definition dot : Ascii.ascii := Ascii.ascii_of_nat 46.

(** [s.split(sep)] for a one-character separator. *)
Fixpoint split (sep : Ascii.ascii) (s : string) : list string :=
  match s with
  | EmptyString => [""]
  | String c rest =>
      if decide (c = sep) then "" :: split sep rest
      else match split sep rest with
           | [] => [String c ""]
           | w :: ws => String c w :: ws
           end
  end.

(** ** Data model *)

Module BuildDependencyConfig.
Record t := mk { name : string; plugin : option string; copy : list string }.
End BuildDependencyConfig.

Module ServiceConfig.
Record t := mk { name : string; dependencies : list string }.
End ServiceConfig.

Module TaskConfig.
Record t := mk { name : string; dependencies : list string }.
End TaskConfig.

Module ModuleConfig.
Record t := mk {
  name : string;
  plugin : option string;
  path : string;
  buildDependencies : list BuildDependencyConfig.t; (* build.dependencies *)
  serviceConfigs : list ServiceConfig.t;
  taskConfigs : list TaskConfig.t;
  disabled : bool;
}.
End ModuleConfig.

Module ModuleVersion.
Record t := mk {
  versionString : string;
  dependencyVersions : list (string * string);
  files : list string;
}.
End ModuleVersion.

(** A resolved module: the fields of its config, its version, and the build
    dependencies as references (positions in the list of resolved modules,
    which is where the objects they alias live). [_config] is the config the
    module was resolved from. *)
Module Module.
Record t := mk {
  config : ModuleConfig.t;
  version : ModuleVersion.t;
  buildDependencies : Obj nat;
  _config : ModuleConfig.t;
}.
Definition name (m : t) : string := ModuleConfig.name (config m).
End Module.

Module WorkflowConfig.
Record t := mk { name : string; path : string; steps : list string }.
End WorkflowConfig.

Module GardenPlugin.
Record t := mk { name : string; dependencies : list string }.
End GardenPlugin.

Module ProviderConfig.
Record t := mk { name : string; dependencies : list string }.
End ProviderConfig.

Module Provider.
Record status_t := mkStatus { ready : bool; cached : bool }.
Record t := mk {
  name : string;
  dependencies : list string;
  moduleConfigs : list ModuleConfig.t;
  config : ProviderConfig.t;
  status : status_t;
  tools : list string;
}.
(** [Omit<Provider, "tools">] *)
Record dump_t := mkDump {
  d_name : string;
  d_dependencies : list string;
  d_moduleConfigs : list ModuleConfig.t;
  d_config : ProviderConfig.t;
  d_status : status_t;
}.
End Provider.

(** lodash [omit(p, ["tools"])] *)
Definition omitTools (p : Provider.t) : Provider.dump_t :=
  Provider.mkDump (Provider.name p) (Provider.dependencies p)
    (Provider.moduleConfigs p) (Provider.config p) (Provider.status p).

(** ** Task results *)

Module TaskResult.
Record t (O : Type) := mk {
  name : string;
  output : option O;
  error : option string; (* the [message] of the error, when there is one *)
}.
Arguments mk {O}.
Arguments name {O}.
Arguments output {O}.
Arguments error {O}.
End TaskResult.

(** [TaskResults]: result key to [TaskResult | null]. *)
Definition TaskResults (O : Type) : Type := Obj (option (TaskResult.t O)).

(** ** Exceptions *)

(** The free-form [detail] payloads attached by [garden.ts]; the entries
    that repeat whole objects of the run (the task results, the provider)
    are left out. *)
Inductive Detail :=
| DetailNone
| DetailPaths (pathA pathB : string)
| DetailCircular (description : string)
| DetailMessages (rawConfigs : list ProviderConfig.t) (messages : list string)
| DetailCycles (cycles : list (list (list (option string))))
| DetailErrors (errors : list string)
| DetailOverlap
    (overlappingModules : list ((string * string) * list (string * string)))
| DetailDependency (provider : string) (by_ on : string)
| DetailDependencyName (dependencyName : string)
| DetailProvider (name : string) (providers : list string).

(** [ConfigurationError] and [PluginError] are the two classes thrown by
    [garden.ts]; [OtherError] is whatever a collaborator (or the JavaScript
    runtime: a [TypeError]) throws, with the [type] and [cycles] properties
    [getConfigGraph] reads from it. *)
Inductive Exception :=
| ConfigurationError (message : string) (detail : Detail)
| PluginError (message : string) (detail : Detail)
| OtherError (type : string) (message : string)
    (cycles : list (list (list string))).

Definition TypeError (message : string) : Exception :=
  OtherError "TypeError" message [].

Definition isConfigurationError (e : Exception) : bool :=
  match e with ConfigurationError _ _ => true | _ => false end.

Definition isPluginError (e : Exception) : bool :=
  match e with PluginError _ _ => true | _ => false end.

Definition message (e : Exception) : string :=
  match e with
  | ConfigurationError m _ | PluginError m _ | OtherError _ m _ => m
  end.

Inductive Result (A : Type) :=
| Return (a : A)
| Throw (e : Exception).
Arguments Return {A}.
Arguments Throw {A}.

(** ** The orchestrator state *)

(** Calls made to the two services whose work is observable from outside:
    a run of the task graph (with the names of the tasks handed over) and a
    version computation by the VCS handler. *)
Inductive Effect :=
| ProcessTasks (type : string) (names : list string)
| VcsResolveVersion (moduleName : string) (dependencies : list string).

(** Modelled from the spec: [TreeCache] is not among the sources. Section 6
    gives its contract as [get(key) -> value?] and
    [set(key, value, ...contexts)]; a key is a list of strings, and the entry
    keeps the contexts it was stored under. *)
Abbreviation TreeCache :=
  (gmap (list string) (ModuleVersion.t * list (list string))).

Definition cacheGet (c : TreeCache) (key : list string)
  : option ModuleVersion.t :=
  fst <$> c !! key.

Definition cacheSet (c : TreeCache) (key : list string)
    (value : ModuleVersion.t) (contexts : list (list string)) : TreeCache :=
  <[key := (value, contexts)]> c.

Record Garden := mkGarden {
  loadedPlugins : option (list GardenPlugin.t);
  moduleConfigs : Obj ModuleConfig.t;
  workflowConfigs : Obj WorkflowConfig.t;
  pluginModuleConfigs : list ModuleConfig.t;
  resolvedProviders : gmap string Provider.t;
  configsScanned : bool;
  registeredPlugins : Obj GardenPlugin.t;
  cache : TreeCache;
  projectId : option string;
  projectRoot : string;
  environmentName : string;
  namespace : option string;
  variables : list (string * string);
  secrets : list (string * string);
  providerConfigs : list ProviderConfig.t;
  version : ModuleVersion.t;
  forceRefresh : bool;
  effects : list Effect;
}.

Definition setLoadedPlugins (v : option (list GardenPlugin.t)) (g : Garden) :=
  mkGarden v (moduleConfigs g) (workflowConfigs g) (pluginModuleConfigs g)
    (resolvedProviders g) (configsScanned g) (registeredPlugins g) (cache g)
    (projectId g) (projectRoot g) (environmentName g) (namespace g)
    (variables g) (secrets g) (providerConfigs g) (version g) (forceRefresh g)
    (effects g).

Definition setModuleConfigs (v : Obj ModuleConfig.t) (g : Garden) :=
  mkGarden (loadedPlugins g) v (workflowConfigs g) (pluginModuleConfigs g)
    (resolvedProviders g) (configsScanned g) (registeredPlugins g) (cache g)
    (projectId g) (projectRoot g) (environmentName g) (namespace g)
    (variables g) (secrets g) (providerConfigs g) (version g) (forceRefresh g)
    (effects g).

Definition setWorkflowConfigs (v : Obj WorkflowConfig.t) (g : Garden) :=
  mkGarden (loadedPlugins g) (moduleConfigs g) v (pluginModuleConfigs g)
    (resolvedProviders g) (configsScanned g) (registeredPlugins g) (cache g)
    (projectId g) (projectRoot g) (environmentName g) (namespace g)
    (variables g) (secrets g) (providerConfigs g) (version g) (forceRefresh g)
    (effects g).

Definition setResolvedProviders (v : gmap string Provider.t) (g : Garden) :=
  mkGarden (loadedPlugins g) (moduleConfigs g) (workflowConfigs g)
    (pluginModuleConfigs g) v (configsScanned g) (registeredPlugins g)
    (cache g) (projectId g) (projectRoot g) (environmentName g) (namespace g)
    (variables g) (secrets g) (providerConfigs g) (version g) (forceRefresh g)
    (effects g).

Definition setConfigsScanned (v : bool) (g : Garden) :=
  mkGarden (loadedPlugins g) (moduleConfigs g) (workflowConfigs g)
    (pluginModuleConfigs g) (resolvedProviders g) v (registeredPlugins g)
    (cache g) (projectId g) (projectRoot g) (environmentName g) (namespace g)
    (variables g) (secrets g) (providerConfigs g) (version g) (forceRefresh g)
    (effects g).

Definition setCache (v : TreeCache) (g : Garden) :=
  mkGarden (loadedPlugins g) (moduleConfigs g) (workflowConfigs g)
    (pluginModuleConfigs g) (resolvedProviders g) (configsScanned g)
    (registeredPlugins g) v (projectId g) (projectRoot g) (environmentName g)
    (namespace g) (variables g) (secrets g) (providerConfigs g) (version g)
    (forceRefresh g) (effects g).

Definition setEffects (v : list Effect) (g : Garden) :=
  mkGarden (loadedPlugins g) (moduleConfigs g) (workflowConfigs g)
    (pluginModuleConfigs g) (resolvedProviders g) (configsScanned g)
    (registeredPlugins g) (cache g) (projectId g) (projectRoot g)
    (environmentName g) (namespace g) (variables g) (secrets g)
    (providerConfigs g) (version g) (forceRefresh g) v.

(** ** The monad of [async] methods *)

Definition M (A : Type) : Type := Garden → Result A * Garden.

Definition ret {A} (a : A) : M A := fun g => (Return a, g).
Definition throw {A} (e : Exception) : M A := fun g => (Throw e, g).
Definition bind {A B} (m : M A) (k : A → M B) : M B :=
  fun g =>
    match m g with
    | (Return a, g') => k a g'
    | (Throw e, g') => (Throw e, g')
    end.
Definition get : M Garden := fun g => (Return g, g).
Definition modify (f : Garden → Garden) : M unit := fun g => (Return (), f g).
Definition lift {A} (r : Result A) : M A := fun g => (r, g).
Definition perform (e : Effect) : M unit :=
  modify (fun g => setEffects (effects g ++ [e]) g).

Declare Scope garden_scope.
Delimit Scope garden_scope with garden.
Notation "'let!' x ':=' m 'in' k" := (bind m (fun x => k))
  (at level 10, x pattern, m at level 100, k at level 200) : garden_scope.
Notation "m ';;;' k" := (bind m (fun _ => k))
  (at level 100, k at level 200, right associativity) : garden_scope.
Local Open Scope garden_scope.

(** [try { m } catch (err) { h err }] *)
Definition tryCatch {A} (m : M A) (h : Exception → M A) : M A :=
  fun g =>
    match m g with
    | (Return a, g') => (Return a, g')
    | (Throw e, g') => h e g'
    end.

(** [Bluebird.map(l, f)]: every mapper runs, in list order, on the state the
    previous ones left; the outcome is the list of their values, or the first
    rejection. *)
Fixpoint bluebirdMap {A B} (f : A → M B) (l : list A) : M (list B) :=
  match l with
  | [] => ret []
  | x :: rest =>
      fun g =>
        match f x g with
        | (Return b, g1) =>
            match bluebirdMap f rest g1 with
            | (Return bs, g2) => (Return (b :: bs), g2)
            | (Throw e, g2) => (Throw e, g2)
            end
        | (Throw e, g1) => (Throw e, (bluebirdMap f rest g1).2)
        end
  end.

(** A [for ... of] loop with an [async] body: it stops at the first throw. *)
Fixpoint forOf {A} (f : A → M unit) (l : list A) : M unit :=
  match l with
  | [] => ret ()
  | x :: rest => f x ;;; forOf f rest
  end.

(** ** Collaborators *)

Module ModuleOverlap.
Record t := mk { module : Module.t; overlaps : list Module.t }.
End ModuleOverlap.

(** What [loadConfig] yields: a resource tagged by its [kind]. *)
Inductive Resource :=
| ModuleResource (c : ModuleConfig.t)
| WorkflowResource (c : WorkflowConfig.t)
| OtherResource (kind : string).

Module Dependency.
Record t := mk { by_ : string; on : string }.
End Dependency.

Module AddModuleSpec.
Record t := mk { name : string; path : option string }.
End AddModuleSpec.

Module AugmentGraphResult.
Record t := mk {
  addBuildDependencies : list Dependency.t;
  addRuntimeDependencies : list Dependency.t;
  addModules : list AddModuleSpec.t;
}.
End AugmentGraphResult.

Module ResolveProviderTask.
Record t := mk {
  plugin : option GardenPlugin.t; (* [plugins[config.name]] *)
  config : ProviderConfig.t;
  version : ModuleVersion.t;
  forceRefresh : bool;
  forceInit : bool;
}.
End ResolveProviderTask.

Module ResolveModuleTask.
Record t := mk {
  moduleConfig : ModuleConfig.t;
  resolvedProviders : Obj Provider.t;
}.
End ResolveModuleTask.

(** Modelled from the spec: [DependencyValidationGraph] is not among the
    sources. Section 4.2 gives [addNode(id)] and
    [addDependency(id, dependsOnId)]; the graph is the nodes and the edges
    added so far. Cycle detection and rendering are collaborators. *)
Module DependencyValidationGraph.
Record t := mk { nodes : list string; edges : list (string * string) }.
Definition empty : t := mk [] [].
Definition addNode (g : t) (id : string) : t :=
  if decide (id ∈ nodes g) then g else mk (nodes g ++ [id]) (edges g).
Definition addDependency (g : t) (id dependsOn : string) : t :=
  mk (nodes g) (edges g ++ [(id, dependsOn)]).
End DependencyValidationGraph.

(** Everything [garden.ts] imports from the other modules of the service.
    The ones that can throw return a [Result]; the ones that inspect the
    orchestrator take it as an argument. *)
Class Collaborators := {
  (* ./types/module *)
  getModuleKey : string → option string → string;
  getModuleCacheContext : ModuleConfig.t → list string;
  (* path, ./util/fs *)
  relative : string → string → string;
  resolve : string → string → string;
  getConfigFilePath : string → string;
  detectModuleOverlap : list Module.t → list ModuleOverlap.t;
  (* the scan of the project root and of the external sources, up to and
     including [loadConfig] on every config path found *)
  loadScannedResources : Garden → Result (list Resource);
  (* ./util/util, ./util/string *)
  findByNames :
    list string → list ProviderConfig.t → Result (list ProviderConfig.t);
  pickKeys : ∀ V : Type, Obj V → list string → string → Result (Obj V);
  naturalList : list string → string;
  (* ./template-string *)
  throwOnMissingSecretKeys :
    ∀ V : Type, Obj V → list (string * string) → string → Result ();
  (* ./plugins *)
  ModuleTypeMap : Type;
  loadPlugins :
    Obj GardenPlugin.t → list ProviderConfig.t → Result (list GardenPlugin.t);
  getDependencyOrder :
    list Provider.t → Obj GardenPlugin.t → list Provider.t;
  getModuleTypes : list GardenPlugin.t → ModuleTypeMap;
  (* ./config/provider *)
  getAllProviderDependencyNames :
    GardenPlugin.t → ProviderConfig.t → Result (list string);
  defaultProvider : Provider.t;
  (* ./util/validate-dependencies *)
  detectCircularDependencies :
    DependencyValidationGraph.t → list (list string);
  cyclesToString : list (list string) → string;
  (* ./task-graph, ./tasks/resolve-module *)
  processProviderTasks :
    list ResolveProviderTask.t → Garden → Result (TaskResults Provider.t);
  processModuleTasks :
    list ResolveModuleTask.t → Garden → Result (TaskResults Module.t);
  getResolvedModules : TaskResults Module.t → list Module.t;
  (* ./actions *)
  hasAugmentGraphHandler : string → Garden → Result bool;
  augmentGraph :
    string → Obj Provider.t → list Module.t → Garden →
    Result AugmentGraphResult.t;
  (* ./config/base, ./resolve-module, ./types/module: from a spec added by
     a plugin to a resolved module *)
  moduleFromSpec :
    AddModuleSpec.t → string → list Module.t → Garden → Result Module.t;
  (* ./config-graph *)
  ConfigGraph : Type;
  newConfigGraph : list Module.t → ModuleTypeMap → Result ConfigGraph;
  (* the graph refers to the module objects it was built from: [getModules]
     reads them in the state they are in when it is called *)
  getModules : ConfigGraph → list Module.t → bool → list Module.t;
  (* ./vcs/vcs *)
  vcsResolveVersion :
    ModuleConfig.t → list ModuleConfig.t → Result ModuleVersion.t;
  (* ./config/workflow *)
  resolveWorkflowConfig :
    Garden → Obj Provider.t → WorkflowConfig.t → Result WorkflowConfig.t;
}.

(** Modelled from the spec: [findByName] and [getNames] of [./util/util] are
    not among the sources. [findByName] is the lookup behind "[by] must
    already exist" of section 4.5: the first entry with that name, here its
    position, since the caller updates the entry it gets in place. *)
Fixpoint findByName {A} (name : A → string) (l : list A) (n : string)
  : option nat :=
  match l with
  | [] => None
  | x :: rest =>
      if decide (name x = n) then Some 0 else S <$> findByName name rest n
  end.

Definition getNames {A} (name : A → string) (l : list A) : list string :=
  map name l.

Section Garden.
Context `{Collaborators}.

(** *** Plugins and raw provider configs *)

Definition getRawProviderConfigs (names : option (list string))
  : M (list ProviderConfig.t) :=
  let! g := get in
  match names with
  | Some names => lift (findByNames names (providerConfigs g))
  | None => ret (providerConfigs g)
  end.

Definition getPlugins : M (list GardenPlugin.t) :=
  let! g := get in
  match loadedPlugins g with
  | Some plugins => ret plugins
  | None =>
      let! rawConfigs := getRawProviderConfigs None in
      let! plugins := lift (loadPlugins (registeredPlugins g) rawConfigs) in
      modify (setLoadedPlugins (Some plugins)) ;;;
      ret plugins
  end.

Definition getModuleTypesM : M ModuleTypeMap :=
  let! plugins := getPlugins in
  let! rawConfigs := getRawProviderConfigs None in
  let configNames := keyBy ProviderConfig.name rawConfigs in
  let configuredPlugins :=
    filter (fun p => is_Some (objGet configNames (GardenPlugin.name p)))
      plugins in
  ret (getModuleTypes configuredPlugins).

Definition processTasks {T O} (type : string) (name : T → string)
    (process : list T → Garden → Result (TaskResults O)) (tasks : list T)
  : M (TaskResults O) :=
  perform (ProcessTasks type (map name tasks)) ;;;
  let! g := get in
  lift (process tasks g).

(** *** Registering module and workflow configs *)

Definition relativeConfigPath (g : Garden) (path : string) : string :=
  relative (projectRoot g) (getConfigFilePath path).

Definition declaredTwice (what key pathA pathB : string) : string :=
  what +:+ " " +:+ key +:+ " is declared multiple times (in '" +:+ pathA
    +:+ "' and '" +:+ pathB +:+ "')".

Definition duplicateError (g : Garden) (what key path1 path2 : string)
  : Exception :=
  match sort (map (relativeConfigPath g) [path1; path2]) with
  | [pathA; pathB] =>
      ConfigurationError (declaredTwice what key pathA pathB)
        (DetailPaths pathA pathB)
  | _ => TypeError "undefined is not iterable"
  end.

(** What the duplicate branch of [addModule] and [addWorkflow] throws when
    the registry, an object literal, holds no config under the key but
    inherits a property of that name: the [path] of the inherited value is
    [undefined], and the path functions under [getConfigFilePath] reject an
    argument that is not a string. *)
Definition undefinedPathError : Exception :=
  TypeError "The 'path' argument must be of type string. Received undefined".

Definition addModule (config : ModuleConfig.t) : M () :=
  let key := getModuleKey (ModuleConfig.name config)
               (ModuleConfig.plugin config) in
  let! g := get in
  match objRead (moduleConfigs g) key with
  | Own existing =>
      throw (duplicateError g "Module" key (ModuleConfig.path existing)
               (ModuleConfig.path config))
  | Inherited => throw undefinedPathError
  | Undefined => modify (fun g => setModuleConfigs
                                    (objSet (moduleConfigs g) key config) g)
  end.

Definition addWorkflow (config : WorkflowConfig.t) : M () :=
  let key := WorkflowConfig.name config in
  let! g := get in
  match objRead (workflowConfigs g) key with
  | Own existing =>
      throw (duplicateError g "Workflow" key (WorkflowConfig.path existing)
               (WorkflowConfig.path config))
  | Inherited => throw undefinedPathError
  | Undefined => modify (fun g => setWorkflowConfigs
                                    (objSet (workflowConfigs g) key config) g)
  end.

Definition moduleResources (l : list Resource) : list ModuleConfig.t :=
  omap (fun r => match r with ModuleResource c => Some c | _ => None end) l.

Definition workflowResources (l : list Resource) : list WorkflowConfig.t :=
  omap (fun r => match r with WorkflowResource c => Some c | _ => None end)
    l.

(** [Bluebird.all([p, q])] of two already started operations. *)
Definition bluebirdAll2 {A B} (p : M A) (q : M B) : M (A * B) :=
  fun g =>
    match p g with
    | (Return a, g1) =>
        match q g1 with
        | (Return b, g2) => (Return (a, b), g2)
        | (Throw e, g2) => (Throw e, g2)
        end
    | (Throw e, g1) => (Throw e, (q g1).2)
    end.

Definition scanAndAddConfigs (force : bool) : M () :=
  let! g := get in
  if configsScanned g && negb force then ret ()
  else
    let! resources := lift (loadScannedResources g) in
    let rawModuleConfigs :=
      pluginModuleConfigs g ++ moduleResources resources in
    let rawWorkflowConfigs := workflowResources resources in
    lift (throwOnMissingSecretKeys _
            (fromPairs (map (fun c => (ModuleConfig.name c, c))
                          rawModuleConfigs))
            (secrets g) "Module") ;;;
    lift (throwOnMissingSecretKeys _
            (fromPairs (map (fun c => (WorkflowConfig.name c, c))
                          rawWorkflowConfigs))
            (secrets g) "Workflow") ;;;
    bluebirdAll2 (bluebirdMap addModule rawModuleConfigs)
      (bluebirdMap addWorkflow rawWorkflowConfigs) ;;;
    modify (setConfigsScanned true).

Definition getRawModuleConfigs (keys : option (list string))
  : M (list ModuleConfig.t) :=
  let! g := get in
  (if configsScanned g then ret () else scanAndAddConfigs false) ;;;
  let! g := get in
  match keys with
  | Some keys =>
      let! picked :=
        lift (pickKeys _ (moduleConfigs g) keys "module config") in
      ret (objValues picked)
  | None => ret (objValues (moduleConfigs g))
  end.

Definition getRawWorkflowConfigs (names : option (list string))
  : M (list WorkflowConfig.t) :=
  let! g := get in
  match names with
  | Some names =>
      let! picked := lift (pickKeys _ (workflowConfigs g) names "workflow") in
      ret (objValues picked)
  | None => ret (objValues (workflowConfigs g))
  end.

(** *** Provider resolution *)

(** The mappers over the provider configs are all started before any of them
    is resumed: each one looks up its plugin and adds the node of the plugin
    first (the first missing plugin throws), and the dependencies are added
    when the mappers are resumed, again in the order of the configs. *)
Fixpoint addProviderNodes (plugins : Obj GardenPlugin.t)
    (graph : DependencyValidationGraph.t) (rawConfigs : list ProviderConfig.t)
  : Result (DependencyValidationGraph.t
            * list (GardenPlugin.t * ProviderConfig.t)) :=
  match rawConfigs with
  | [] => Return (graph, [])
  | config :: rest =>
      match objGet plugins (ProviderConfig.name config) with
      | None => Throw (TypeError "Cannot read property 'name' of undefined")
      | Some plugin =>
          match addProviderNodes plugins
                  (DependencyValidationGraph.addNode graph
                     (GardenPlugin.name plugin)) rest with
          | Throw e => Throw e
          | Return (graph, started) => Return (graph, (plugin, config) :: started)
          end
      end
  end.

Definition addProviderToGraph (graph : DependencyValidationGraph.t)
    (plugin : GardenPlugin.t) (config : ProviderConfig.t)
  : Result DependencyValidationGraph.t :=
  let name := GardenPlugin.name plugin in
  match getAllProviderDependencyNames plugin config with
  | Throw e => Throw e
  | Return deps =>
      Return
        (fold_left
           (fun gr dep =>
              DependencyValidationGraph.addDependency
                (DependencyValidationGraph.addNode gr dep) name dep)
           deps graph)
  end.

Fixpoint addProviderDependencies (graph : DependencyValidationGraph.t)
    (started : list (GardenPlugin.t * ProviderConfig.t))
  : Result DependencyValidationGraph.t :=
  match started with
  | [] => Return graph
  | (plugin, config) :: rest =>
      match addProviderToGraph graph plugin config with
      | Throw e => Throw e
      | Return graph => addProviderDependencies graph rest
      end
  end.

Definition buildValidationGraph (plugins : Obj GardenPlugin.t)
    (graph : DependencyValidationGraph.t) (rawConfigs : list ProviderConfig.t)
  : Result DependencyValidationGraph.t :=
  match addProviderNodes plugins graph rawConfigs with
  | Throw e => Throw e
  | Return (graph, started) => addProviderDependencies graph started
  end.

(** [Object.values(results).filter((r) => r && r.error)] *)
Definition failedResults {O} (results : TaskResults O)
  : list (TaskResult.t O) :=
  omap (fun r =>
          match r with
          | Some r => if TaskResult.error r is Some _ then Some r else None
          | None => None
          end)
    (objValues results).

Definition errorMessage {O} (r : TaskResult.t O) : string :=
  default "" (TaskResult.error r).

(** [Object.values(taskResults).map((result) => result!.output)]: reading
    [output] from a [null] result throws, a result without output gives
    [undefined]. *)
Fixpoint outputs {O} (values : list (option (TaskResult.t O)))
  : Result (list (option O)) :=
  match values with
  | [] => Return []
  | None :: _ => Throw (TypeError "Cannot read property 'output' of null")
  | Some r :: rest =>
      match outputs rest with
      | Return os => Return (TaskResult.output r :: os)
      | Throw e => Throw e
      end
  end.

(** [!!providers.find((p) => p.status.cached)]: the search stops at the
    first cached provider, and throws on an [undefined] it meets before. *)
Fixpoint gotCachedResult (providers : list (option Provider.t)) : Result bool :=
  match providers with
  | [] => Return false
  | None :: _ =>
      Throw (TypeError "Cannot read property 'status' of undefined")
  | Some p :: rest =>
      if Provider.cached (Provider.status p) then Return true
      else gotCachedResult rest
  end.

(** [moduleConfig.plugin = provider.name], on every module config of the
    provider. *)
Definition scopeToPlugin (p : Provider.t) : Provider.t :=
  Provider.mk (Provider.name p) (Provider.dependencies p)
    (map (fun c =>
            ModuleConfig.mk (ModuleConfig.name c) (Some (Provider.name p))
              (ModuleConfig.path c) (ModuleConfig.buildDependencies c)
              (ModuleConfig.serviceConfigs c) (ModuleConfig.taskConfigs c)
              (ModuleConfig.disabled c))
       (Provider.moduleConfigs p))
    (Provider.config p) (Provider.status p) (Provider.tools p).

Definition circularProvidersError (description : string) : Exception :=
  PluginError
    ("One or more circular dependencies found between providers or their "
       +:+ "configurations:" +:+ nl +:+ nl +:+ description)
    (DetailCircular description).

Definition failedProvidersError (rawConfigs : list ProviderConfig.t)
    (failed : list (TaskResult.t Provider.t)) : Exception :=
  let messages :=
    map (fun r => "- " +:+ TaskResult.name r +:+ ": " +:+ errorMessage r)
      failed in
  let failedNames := map TaskResult.name failed in
  PluginError
    ("Failed resolving one or more providers:" +:+ nl +:+ "- "
       +:+ join (nl +:+ "- ") failedNames)
    (DetailMessages rawConfigs messages).

Definition resolveProviderTasks (g : Garden) (plugins : Obj GardenPlugin.t)
    (forceInit : bool) (rawConfigs : list ProviderConfig.t)
  : list ResolveProviderTask.t :=
  map (fun config =>
         ResolveProviderTask.mk (objGet plugins (ProviderConfig.name config))
           config (version g) (forceRefresh g) forceInit)
    rawConfigs.

Definition providerTaskName (t : ResolveProviderTask.t) : string :=
  ProviderConfig.name (ResolveProviderTask.config t).

Definition resolveProviders (forceInit : bool) (names : option (list string))
  : M (Obj Provider.t) :=
  let! rawConfigs := getRawProviderConfigs names in
  let names := match names with
               | Some names => names
               | None => getNames ProviderConfig.name rawConfigs
               end in
  let! g := get in
  lift (throwOnMissingSecretKeys _
          (fromPairs (map (fun c => (ProviderConfig.name c, c)) rawConfigs))
          (secrets g) "Provider") ;;;
  let alreadyResolvedProviders :=
    omap (fun name => resolvedProviders g !! name) names in
  if decide (length alreadyResolvedProviders = length names)
  then ret (keyBy Provider.name alreadyResolvedProviders)
  else
    let! loaded := getPlugins in
    let plugins := keyBy GardenPlugin.name loaded in
    let! validationGraph :=
      lift (buildValidationGraph plugins DependencyValidationGraph.empty
              rawConfigs) in
    let cycles := detectCircularDependencies validationGraph in
    if decide (0 < length cycles)
    then throw (circularProvidersError (cyclesToString cycles))
    else
      let! g := get in
      let tasks := resolveProviderTasks g plugins forceInit rawConfigs in
      let! taskResults :=
        processTasks "resolve-provider" providerTaskName
          processProviderTasks tasks in
      let failed := failedResults taskResults in
      if decide (0 < length failed)
      then throw (failedProvidersError rawConfigs failed)
      else
        let! providers := lift (outputs (objValues taskResults)) in
        lift (gotCachedResult providers) ;;;
        bluebirdMap
          (fun provider =>
             match provider with
             | Some provider =>
                 bluebirdMap addModule
                   (Provider.moduleConfigs (scopeToPlugin provider))
             | None =>
                 throw (TypeError
                          "Cannot read property 'moduleConfigs' of undefined")
             end)
          providers ;;;
        (* every provider is defined once the registration above is through *)
        let providers := map scopeToPlugin (omap id providers) in
        modify (fun g =>
                  setResolvedProviders
                    (fold_left (fun m p => <[Provider.name p := p]> m)
                       providers (resolvedProviders g))
                    g) ;;;
        ret (keyBy Provider.name providers).

(** For a name that is not the name of a property of [Object.prototype]:
    the registry of resolved providers is an object literal too, and such a
    name finds the inherited property, which is returned for the provider. *)
Definition resolveProvider (name : string) : M Provider.t :=
  if decide (name = "_default") then ret defaultProvider
  else
    let! g := get in
    match resolvedProviders g !! name with
    | Some provider => ret provider
    | None =>
        let! providers := resolveProviders false (Some [name]) in
        match objGet providers name with
        | Some provider => ret provider
        | None =>
            let providerNames := objKeys providers in
            let! g := get in
            throw
              (PluginError
                 ("Could not find provider '" +:+ name
                    +:+ "' in environment '" +:+ environmentName g
                    +:+ "' (configured providers: "
                    +:+ join ", " providerNames +:+ ")")
                 (DetailProvider name providerNames))
        end
    end.

(** [l.map(f)] with an [f] that can throw. *)
Fixpoint mapResult {A B} (f : A → Result B) (l : list A) : Result (list B) :=
  match l with
  | [] => Return []
  | x :: rest =>
      match f x with
      | Throw e => Throw e
      | Return y =>
          match mapResult f rest with
          | Throw e => Throw e
          | Return ys => Return (y :: ys)
          end
      end
  end.

Definition getWorkflowConfigs (names : option (list string))
  : M (list WorkflowConfig.t) :=
  let! providers := resolveProviders false None in
  let! configs := getRawWorkflowConfigs names in
  let! g := get in
  lift (mapResult (resolveWorkflowConfig g providers) configs).

(** *** Version resolution *)

(** [(Module | BuildDependencyConfig)[]] *)
Inductive ModuleDependency :=
| DepModule (m : Module.t)
| DepConfig (d : BuildDependencyConfig.t).

Definition depName (d : ModuleDependency) : string :=
  match d with
  | DepModule m => Module.name m
  | DepConfig d => BuildDependencyConfig.name d
  end.

Definition depPlugin (d : ModuleDependency) : option string :=
  match d with
  | DepModule m => ModuleConfig.plugin (Module.config m)
  | DepConfig d => BuildDependencyConfig.plugin d
  end.

Definition versionCacheKey (moduleConfig : ModuleConfig.t)
    (moduleDependencies : list ModuleDependency) : list string :=
  let moduleName := ModuleConfig.name moduleConfig in
  let depModuleNames := sort (map depName moduleDependencies) in
  "moduleVersions" :: moduleName :: depModuleNames.

Definition resolveVersion (moduleConfig : ModuleConfig.t)
    (moduleDependencies : list ModuleDependency) (force : bool)
  : M ModuleVersion.t :=
  let moduleName := ModuleConfig.name moduleConfig in
  let cacheKey := versionCacheKey moduleConfig moduleDependencies in
  let! g := get in
  match (if force then None else cacheGet (cache g) cacheKey) with
  | Some cached => ret cached
  | None =>
      let dependencyKeys :=
        map (fun dep => getModuleKey (depName dep) (depPlugin dep))
          moduleDependencies in
      let! dependencies := getRawModuleConfigs (Some dependencyKeys) in
      let cacheContexts :=
        map getModuleCacheContext (dependencies ++ [moduleConfig]) in
      perform (VcsResolveVersion moduleName
                 (map ModuleConfig.name dependencies)) ;;;
      let! version := lift (vcsResolveVersion moduleConfig dependencies) in
      modify (fun g =>
                setCache (cacheSet (cache g) cacheKey version cacheContexts)
                  g) ;;;
      ret version
  end.

(** *** Graph resolution *)

(** [key.split(".")[1]] *)
Definition moduleNameOfKey (key : string) : option string :=
  split dot key !! 1.

(** [Array.prototype.toString] on the nested arrays of names, as the
    template string applies it through [cycles.join]: an [undefined]
    prints as the empty string. *)
Definition cycleToString (c : list (list (option string))) : string :=
  join "," (map (fun cycle => join "," (map (default "") cycle)) c).

Definition circularModulesError (cycles : list (list (list string)))
  : Exception :=
  let cycles := map (map (map moduleNameOfKey)) cycles in
  ConfigurationError
    ("Detected one or more circular dependencies between module "
       +:+ "configurations:" +:+ nl +:+ nl
       +:+ join nl (map cycleToString cycles))
    (DetailCycles cycles).

Definition failedModulesError (failed : list (TaskResult.t Module.t))
  : Exception :=
  let errors :=
    map (fun r => TaskResult.name r +:+ ": " +:+ errorMessage r) failed in
  ConfigurationError
    ("Failed resolving one or more modules:" +:+ nl +:+ nl
       +:+ join nl errors)
    (DetailErrors errors).

Definition modulePath (m : Module.t) : string :=
  ModuleConfig.path (Module.config m).

Definition makeOverlapError (g : Garden)
    (moduleOverlaps : list ModuleOverlap.t) : Exception :=
  let overlapList :=
    join (nl +:+ nl)
      (map (fun o =>
              let module := ModuleOverlap.module o in
              let formatted :=
                map (fun o' =>
                       let detail :=
                         if decide (modulePath o' = modulePath module)
                         then "same path" else "nested" in
                       Module.name o' +:+ " (" +:+ detail +:+ ")")
                  (ModuleOverlap.overlaps o) in
              "Module " +:+ Module.name module
                +:+ " overlaps with module(s) " +:+ naturalList formatted
                +:+ ".")
         moduleOverlaps) in
  let message :=
    "Missing include and/or exclude directives on modules with overlapping "
      +:+ "paths." +:+ nl
      +:+ "Setting includes/excludes is required when modules have the same "
      +:+ "path (i.e. are in the same garden.yml file)," +:+ nl
      +:+ "or when one module is nested within another." +:+ nl +:+ nl
      +:+ overlapList in
  let sanitize (m : Module.t) :=
    (Module.name m, resolve (projectRoot g) (modulePath m)) in
  ConfigurationError message
    (DetailOverlap
       (map (fun o =>
               (sanitize (ModuleOverlap.module o),
                map sanitize (ModuleOverlap.overlaps o)))
          moduleOverlaps)).

(** [m.build.dependencies.push(d)] *)
Definition pushBuildDependency (d : BuildDependencyConfig.t) (m : Module.t)
  : Module.t :=
  let c := Module.config m in
  Module.mk
    (ModuleConfig.mk (ModuleConfig.name c) (ModuleConfig.plugin c)
       (ModuleConfig.path c) (ModuleConfig.buildDependencies c ++ [d])
       (ModuleConfig.serviceConfigs c) (ModuleConfig.taskConfigs c)
       (ModuleConfig.disabled c))
    (Module.version m) (Module.buildDependencies m) (Module._config m).

Definition missingByError (provider : string) (dependency : Dependency.t)
  : Exception :=
  let by_ := Dependency.by_ dependency in
  let on := Dependency.on dependency in
  PluginError
    ("Provider '" +:+ provider +:+ "' added a build dependency by module '"
       +:+ by_ +:+ "' on '" +:+ on +:+ "' but module '" +:+ by_
       +:+ "' could not be found.")
    (DetailDependency provider by_ on).

Definition addBuildDependency (provider : string)
    (resolvedModules : list Module.t) (dependency : Dependency.t)
  : Result (list Module.t) :=
  match findByName Module.name resolvedModules (Dependency.by_ dependency)
  with
  | None => Throw (missingByError provider dependency)
  | Some i =>
      Return
        (alter
           (pushBuildDependency
              (BuildDependencyConfig.mk (Dependency.on dependency) None []))
           i resolvedModules)
  end.

(** The loop over [addBuildDependencies], on the list of resolved
    modules. *)
Fixpoint addBuildDependencies (provider : string)
    (resolvedModules : list Module.t) (dependencies : list Dependency.t)
  : Result (list Module.t) :=
  match dependencies with
  | [] => Return resolvedModules
  | dependency :: rest =>
      match addBuildDependency provider resolvedModules dependency with
      | Throw e => Throw e
      | Return resolvedModules =>
          addBuildDependencies provider resolvedModules rest
      end
  end.

Definition pushServiceDependency (dependency : Dependency.t)
    (s : ServiceConfig.t) : ServiceConfig.t :=
  if decide (ServiceConfig.name s = Dependency.by_ dependency)
  then ServiceConfig.mk (ServiceConfig.name s)
         (ServiceConfig.dependencies s ++ [Dependency.on dependency])
  else s.

Definition pushTaskDependency (dependency : Dependency.t)
    (t : TaskConfig.t) : TaskConfig.t :=
  if decide (TaskConfig.name t = Dependency.by_ dependency)
  then TaskConfig.mk (TaskConfig.name t)
         (TaskConfig.dependencies t ++ [Dependency.on dependency])
  else t.

Definition pushRuntimeDependency (dependency : Dependency.t) (m : Module.t)
  : Module.t :=
  let c := Module.config m in
  Module.mk
    (ModuleConfig.mk (ModuleConfig.name c) (ModuleConfig.plugin c)
       (ModuleConfig.path c) (ModuleConfig.buildDependencies c)
       (map (pushServiceDependency dependency) (ModuleConfig.serviceConfigs c))
       (map (pushTaskDependency dependency) (ModuleConfig.taskConfigs c))
       (ModuleConfig.disabled c))
    (Module.version m) (Module.buildDependencies m) (Module._config m).

Definition hasRuntimeEntity (by_ : string) (m : Module.t) : bool :=
  let c := Module.config m in
  existsb (fun s => bool_decide (ServiceConfig.name s = by_))
    (ModuleConfig.serviceConfigs c)
  || existsb (fun t => bool_decide (TaskConfig.name t = by_))
       (ModuleConfig.taskConfigs c).

Definition missingRuntimeByError (provider : string)
    (dependency : Dependency.t) : Exception :=
  let by_ := Dependency.by_ dependency in
  let on := Dependency.on dependency in
  PluginError
    ("Provider '" +:+ provider +:+ "' added a runtime dependency by '"
       +:+ by_ +:+ "' on '" +:+ on +:+ "' but service or task '" +:+ by_
       +:+ "' could not be found.")
    (DetailDependency provider by_ on).

Fixpoint addRuntimeDependencies (provider : string)
    (resolvedModules : list Module.t) (dependencies : list Dependency.t)
  : Result (list Module.t) :=
  match dependencies with
  | [] => Return resolvedModules
  | dependency :: rest =>
      if existsb (hasRuntimeEntity (Dependency.by_ dependency))
           resolvedModules
      then addRuntimeDependencies provider
             (map (pushRuntimeDependency dependency) resolvedModules) rest
      else Throw (missingRuntimeByError provider dependency)
  end.

(** The modules resolved from the specs a plugin adds, appended one by
    one. *)
Fixpoint addModules (g : Garden) (resolvedModules : list Module.t)
    (specs : list AddModuleSpec.t) : Result (list Module.t) :=
  match specs with
  | [] => Return resolvedModules
  | spec :: rest =>
      let path := match AddModuleSpec.path spec with
                  | Some p => if decide (p = "") then projectRoot g else p
                  | None => projectRoot g
                  end in
      match moduleFromSpec spec path resolvedModules g with
      | Throw e => Throw e
      | Return m => addModules g (resolvedModules ++ [m]) rest
      end
  end.

(** One turn of the walk over the providers: [resolvedModules] and
    [graph] are the two local variables the loop updates. *)
Definition augment (providers : Obj Provider.t) (moduleTypes : ModuleTypeMap)
    (vars : list Module.t * option ConfigGraph) (provider : Provider.t)
  : M (list Module.t * option ConfigGraph) :=
  let '(resolvedModules, graph) := vars in
  let name := Provider.name provider in
  let! g := get in
  let! handler := lift (hasAugmentGraphHandler name g) in
  if negb handler then ret vars
  else
    let! graph :=
      match graph with
      | Some graph => ret (Some graph)
      | None =>
          let! graph := lift (newConfigGraph resolvedModules moduleTypes) in
          ret (Some graph)
      end in
    let! added := lift (augmentGraph name providers resolvedModules g) in
    let specs := AugmentGraphResult.addModules added in
    let! resolvedModules := lift (addModules g resolvedModules specs) in
    let graph := if specs is [] then graph else None in
    let buildDeps := AugmentGraphResult.addBuildDependencies added in
    let! resolvedModules :=
      lift (addBuildDependencies name resolvedModules buildDeps) in
    let graph := if buildDeps is [] then graph else None in
    let runtimeDeps := AugmentGraphResult.addRuntimeDependencies added in
    let! resolvedModules :=
      lift (addRuntimeDependencies name resolvedModules runtimeDeps) in
    let graph := if runtimeDeps is [] then graph else None in
    ret (resolvedModules, graph).

Fixpoint augmentAll (providers : Obj Provider.t) (moduleTypes : ModuleTypeMap)
    (vars : list Module.t * option ConfigGraph) (order : list Provider.t)
  : M (list Module.t * option ConfigGraph) :=
  match order with
  | [] => ret vars
  | provider :: rest =>
      let! vars := augment providers moduleTypes vars provider in
      augmentAll providers moduleTypes vars rest
  end.

(** [keyBy(resolvedModules, "name")]: each name refers to a module object,
    given here with its position in [resolvedModules]. *)
Definition modulesByName (resolvedModules : list Module.t)
  : Obj (nat * Module.t) :=
  fromPairs (imap (fun i m => (Module.name m, (i, m))) resolvedModules).

Definition missingBuildDependencyError (moduleName key : string)
  : Exception :=
  ConfigurationError
    ("Module " +:+ moduleName +:+ " specifies build dependency " +:+ key
       +:+ " which cannot be found.")
    (DetailDependencyName key).

Definition moduleKey (m : Module.t) : string :=
  getModuleKey (Module.name m) (ModuleConfig.plugin (Module.config m)).

(** [modulesByName[key]], for a key that is not the name of a property of
    [Object.prototype]: on the object [keyBy] builds such a key finds the
    inherited property, and the pass goes on with it in place of a module. *)
Definition resolveBuildDependency (byName : Obj (nat * Module.t))
    (module : Module.t) (d : BuildDependencyConfig.t)
  : Result (nat * Module.t) :=
  let key := getModuleKey (BuildDependencyConfig.name d)
               (BuildDependencyConfig.plugin d) in
  match objGet byName key with
  | None => Throw (missingBuildDependencyError (Module.name module) key)
  | Some depModule => Return depModule
  end.

(** The last pass of [getConfigGraph] on one module: its build dependency
    modules and its version. *)
Definition updateModule (byName : Obj (nat * Module.t)) (module : Module.t)
  : M Module.t :=
  let! buildDeps :=
    lift (mapResult (resolveBuildDependency byName module)
            (ModuleConfig.buildDependencies (Module.config module))) in
  let buildDependencies :=
    fromPairs (map (fun d => (moduleKey d.2, d.1)) buildDeps) in
  let module :=
    Module.mk (Module.config module) (Module.version module)
      buildDependencies (Module._config module) in
  let! version :=
    resolveVersion (Module.config module)
      (map (fun d => DepModule d.2) buildDeps) false in
  ret (Module.mk (Module.config module) version buildDependencies
         (Module._config module)).

(** The router itself is a collaborator; building it loads the plugins and
    the module types. The copy kept in [actionHelper] is left out: once a
    router has been built the plugins are loaded, and loading them again
    does nothing. *)
Definition getActionRouter : M () :=
  getPlugins ;;; getModuleTypesM ;;; ret ().

Definition moduleTaskName (t : ResolveModuleTask.t) : string :=
  ModuleConfig.name (ResolveModuleTask.moduleConfig t).

(** The graph is returned together with the module objects it was built
    from, in the state the last pass leaves them in. *)
Definition getConfigGraph : M (ConfigGraph * list Module.t) :=
  let! providers := resolveProviders false None in
  let! configs := getRawModuleConfigs None in
  let tasks :=
    map (fun moduleConfig => ResolveModuleTask.mk moduleConfig providers)
      configs in
  let! results :=
    tryCatch
      (processTasks "resolve-module" moduleTaskName processModuleTasks tasks)
      (fun err =>
         match err with
         | OtherError type _ cycles =>
             if decide (type = "circular-dependencies")
             then throw (circularModulesError cycles)
             else throw err
         | _ => throw err
         end) in
  let failed := failedResults results in
  if decide (0 < length failed) then throw (failedModulesError failed)
  else
    let resolvedModules := getResolvedModules results in
    getActionRouter ;;;
    let! moduleTypes := getModuleTypesM in
    let overlaps := detectModuleOverlap resolvedModules in
    let! g := get in
    if decide (0 < length overlaps) then throw (makeOverlapError g overlaps)
    else
      let order :=
        getDependencyOrder (objValues providers) (registeredPlugins g) in
      let! vars :=
        augmentAll providers moduleTypes (resolvedModules, None) order in
      let resolvedModules := vars.1 in
      let! graph := lift (newConfigGraph resolvedModules moduleTypes) in
      let! resolvedModules :=
        bluebirdMap (updateModule (modulesByName resolvedModules))
          resolvedModules in
      ret (graph, resolvedModules).

(** *** Configuration dump *)

Record ConfigDump := mkConfigDump {
  dump_environmentName : string;
  dump_namespace : option string;
  dump_providers : list Provider.dump_t;
  dump_variables : list (string * string);
  dump_moduleConfigs : list ModuleConfig.t;
  dump_workflowConfigs : list WorkflowConfig.t;
  dump_projectRoot : string;
  dump_projectId : option string;
}.

Definition dumpConfig (includeDisabled : bool) : M ConfigDump :=
  let! graph := getConfigGraph in
  let modules := getModules graph.1 graph.2 includeDisabled in
  let! workflowConfigs := getWorkflowConfigs None in
  let! providers := resolveProviders false None in
  let! g := get in
  ret {|
    dump_environmentName := environmentName g;
    dump_namespace := namespace g;
    dump_providers := map omitTools (objValues providers);
    dump_variables := variables g;
    dump_moduleConfigs := sortBy ModuleConfig.name (map Module._config modules);
    dump_workflowConfigs := sortBy WorkflowConfig.name workflowConfigs;
    dump_projectRoot := projectRoot g;
    dump_projectId := projectId g;
  |}.

End Garden.

(** * Properties *)

(** ** Sorting *)

Definition leBy {A} (key : A → string) (x y : A) : Prop :=
  String.le (key x) (key y).

Lemma insertBy_Permutation {A} (key : A → string) x l :
  insertBy key x l ≡ₚ x :: l.
Proof.
  induction l as [|y l IH]; simpl; [done|].
  destruct (String.leb (key x) (key y)); [done|].
  rewrite IH. apply perm_swap.
Qed.

Lemma sortBy_Permutation {A} (key : A → string) l : sortBy key l ≡ₚ l.
Proof.
  induction l as [|x l IH]; simpl; [done|].
  rewrite insertBy_Permutation. by f_equiv.
Qed.

Lemma leb_false_le s1 s2 : String.leb s1 s2 = false → String.le s2 s1.
Proof.
  intros Hf. destruct (String.le_total s1 s2) as [Hle|Hle]; [|done].
  unfold String.le in Hle. rewrite Hf in Hle. done.
Qed.

Lemma insertBy_Sorted {A} (key : A → string) x l :
  Sorted (leBy key) l → Sorted (leBy key) (insertBy key x l).
Proof.
  induction 1 as [|y l Hs IH Hhd]; simpl.
  - by repeat constructor.
  - destruct (String.leb (key x) (key y)) eqn:E.
    + constructor; [by constructor|]. constructor.
      unfold leBy, String.le. by rewrite E.
    + constructor; [done|].
      apply leb_false_le in E.
      destruct Hhd as [|z l' Hyz]; simpl.
      * by constructor.
      * destruct (String.leb (key x) (key z)); by constructor.
Qed.

Lemma sortBy_Sorted {A} (key : A → string) l :
  Sorted (leBy key) (sortBy key l).
Proof.
  induction l as [|x l IH]; simpl; [constructor|].
  by apply insertBy_Sorted.
Qed.

Lemma sort_Sorted l : Sorted String.le (sort l).
Proof. apply (sortBy_Sorted id). Qed.

Lemma sort_Permutation l : sort l ≡ₚ l.
Proof. apply sortBy_Permutation. Qed.

(** Sorting strings forgets the order they came in. *)
Lemma sort_order_independent l1 l2 : l1 ≡ₚ l2 → sort l1 = sort l2.
Proof.
  intros Hp. apply (Sorted_unique String.le); try apply sort_Sorted.
  by rewrite !sort_Permutation.
Qed.

(** ** Splitting a task key *)

Fixpoint hasDot (s : string) : bool :=
  match s with
  | EmptyString => false
  | String c rest => bool_decide (c = dot) || hasDot rest
  end.

Lemma split_no_dot s : hasDot s = false → split dot s = [s].
Proof.
  induction s as [|c s IH]; simpl; [done|].
  intros [Hc Hs]%orb_false_elim.
  apply bool_decide_eq_false in Hc.
  rewrite decide_False by done. by rewrite IH.
Qed.

Lemma split_key type name :
  hasDot type = false → hasDot name = false →
  split dot (type +:+ "." +:+ name) = [type; name].
Proof.
  intros Ht Hn. induction type as [|c s IH]; simpl.
  - by rewrite split_no_dot.
  - simpl in Ht. apply orb_false_elim in Ht as [Hc Hs].
    apply bool_decide_eq_false in Hc.
    rewrite decide_False by done. by rewrite IH.
Qed.

(** ** Frame properties

    [Preserves π m]: running [m] leaves the part [π] of the orchestrator as
    it was, whether [m] returns or throws. The lemmas are stated for any
    [π] that the setters a method uses do not touch. *)

Definition Preserves {X A} (π : Garden → X) (m : M A) : Prop :=
  ∀ g, π (m g).2 = π g.

Create HintDb frame discriminated.

Section Frame.
Context `{Collaborators} {X : Type} (π : Garden → X).

Lemma preserves_ret {A} (a : A) : Preserves π (ret a).
Proof. done. Qed.

Lemma preserves_throw {A} e : Preserves π (throw (A := A) e).
Proof. done. Qed.

Lemma preserves_lift {A} (r : Result A) : Preserves π (lift r).
Proof. done. Qed.

Lemma preserves_get : Preserves π get.
Proof. done. Qed.

Lemma preserves_modify f : (∀ g, π (f g) = π g) → Preserves π (modify f).
Proof. intros Hf g. apply Hf. Qed.

Lemma preserves_bind {A B} (m : M A) (k : A → M B) :
  Preserves π m → (∀ a, Preserves π (k a)) → Preserves π (bind m k).
Proof.
  intros Hm Hk g. unfold bind. specialize (Hm g).
  destruct (m g) as [[a|e] g']; simpl in *; [|done].
  by rewrite Hk.
Qed.

Lemma preserves_tryCatch {A} (m : M A) h :
  Preserves π m → (∀ e, Preserves π (h e)) → Preserves π (tryCatch m h).
Proof.
  intros Hm Hh g. unfold tryCatch. specialize (Hm g).
  destruct (m g) as [[a|e] g']; simpl in *; [done|].
  by rewrite Hh.
Qed.

Lemma preserves_bluebirdMap {A B} (f : A → M B) l :
  (∀ x, Preserves π (f x)) → Preserves π (bluebirdMap f l).
Proof.
  intros Hf. induction l as [|x l IH]; intros g; simpl; [done|].
  specialize (Hf x g). destruct (f x g) as [[b|e] g1]; simpl in *.
  - specialize (IH g1).
    destruct (bluebirdMap f l g1) as [[bs|e] g2]; simpl in *; congruence.
  - rewrite IH. done.
Qed.

Lemma preserves_bluebirdAll2 {A B} (p : M A) (q : M B) :
  Preserves π p → Preserves π q → Preserves π (bluebirdAll2 p q).
Proof.
  intros Hp Hq g. unfold bluebirdAll2. specialize (Hp g).
  destruct (p g) as [[a|e] g1]; simpl in *.
  - specialize (Hq g1). destruct (q g1) as [[b|e] g2]; simpl in *; congruence.
  - rewrite Hq. done.
Qed.

End Frame.

#[export] Hint Resolve preserves_ret preserves_throw preserves_lift
  preserves_get : frame.

(** Splits a computation along its binds and branches. *)
Ltac frame_step :=
  first
    [ solve [eauto with frame]
    | progress cbv zeta
    | apply preserves_ret | apply preserves_throw | apply preserves_lift
    | apply preserves_get
    | apply preserves_bind; [|intros ?]
    | apply preserves_tryCatch; [|intros ?]
    | apply preserves_bluebirdAll2
    | apply preserves_bluebirdMap; intros ?
    | apply preserves_modify; intros ?; solve [eauto]
    | match goal with
      | |- Preserves _ (match ?x with _ => _ end) => destruct x
      | |- Preserves _ (let (_, _) := ?x in _) => destruct x
      end
    | solve [eauto with frame] ].

Ltac frame := repeat frame_step.

Section FrameMethods.
Context `{Collaborators} {X : Type} (π : Garden → X).
Hypothesis π_loadedPlugins : ∀ v g, π (setLoadedPlugins v g) = π g.
Hypothesis π_moduleConfigs : ∀ v g, π (setModuleConfigs v g) = π g.
Hypothesis π_workflowConfigs : ∀ v g, π (setWorkflowConfigs v g) = π g.
Hypothesis π_configsScanned : ∀ v g, π (setConfigsScanned v g) = π g.

Lemma getRawProviderConfigs_preserves names :
  Preserves π (getRawProviderConfigs names).
Proof. unfold getRawProviderConfigs. frame. Qed.
Hint Resolve getRawProviderConfigs_preserves : frame.

Lemma getPlugins_preserves : Preserves π getPlugins.
Proof. unfold getPlugins. frame. Qed.
Hint Resolve getPlugins_preserves : frame.

Lemma getModuleTypesM_preserves : Preserves π getModuleTypesM.
Proof. unfold getModuleTypesM. frame. Qed.
Hint Resolve getModuleTypesM_preserves : frame.

Lemma getActionRouter_preserves : Preserves π getActionRouter.
Proof. unfold getActionRouter. frame. Qed.

Lemma addModule_preserves config : Preserves π (addModule config).
Proof. unfold addModule. frame. Qed.
Hint Resolve addModule_preserves : frame.

Lemma addWorkflow_preserves config : Preserves π (addWorkflow config).
Proof. unfold addWorkflow. frame. Qed.
Hint Resolve addWorkflow_preserves : frame.

Lemma scanAndAddConfigs_preserves force :
  Preserves π (scanAndAddConfigs force).
Proof. unfold scanAndAddConfigs. frame. Qed.
Hint Resolve scanAndAddConfigs_preserves : frame.

Lemma getRawModuleConfigs_preserves keys :
  Preserves π (getRawModuleConfigs keys).
Proof. unfold getRawModuleConfigs. frame. Qed.

Lemma getRawWorkflowConfigs_preserves names :
  Preserves π (getRawWorkflowConfigs names).
Proof. unfold getRawWorkflowConfigs. frame. Qed.

End FrameMethods.

#[export] Hint Resolve getRawProviderConfigs_preserves getPlugins_preserves
  getModuleTypesM_preserves getActionRouter_preserves addModule_preserves
  addWorkflow_preserves scanAndAddConfigs_preserves
  getRawModuleConfigs_preserves getRawWorkflowConfigs_preserves : frame.

(** ** The default provider *)

Section DefaultProvider.
Context `{Collaborators}.

(** C10. [resolveProvider] called with the reserved name "_default"
    returns the built-in default provider at once: the result is the same
    in every state of the orchestrator (the registry of resolved providers
    is not consulted), and the state it leaves is the state it was called
    in (no provider resolution is run, no task is processed, nothing is
    registered). *)
Theorem resolveProvider_default (g : Garden) :
  resolveProvider "_default" g = (Return defaultProvider, g).
Proof. reflexivity. Qed.

End DefaultProvider.

(** ** Duplicate module declarations *)

Section Duplicates.
Context `{Collaborators}.

Definition configKey (c : ModuleConfig.t) : string :=
  getModuleKey (ModuleConfig.name c) (ModuleConfig.plugin c).

Lemma sort_pair a b :
  ∃ x y, sort [a; b] = [x; y] ∧ String.le x y ∧ [x; y] ≡ₚ [a; b].
Proof.
  unfold sort, sortBy; simpl. destruct (String.leb a b) eqn:E.
  - exists a, b. split_and!; [done| |done].
    unfold String.le. by rewrite E.
  - exists b, a. split_and!; [done| |apply perm_swap].
    by apply leb_false_le.
Qed.

Lemma duplicateError_spec g what key path1 path2 :
  ∃ pathA pathB,
    duplicateError g what key path1 path2
    = ConfigurationError (declaredTwice what key pathA pathB)
        (DetailPaths pathA pathB)
    ∧ String.le pathA pathB
    ∧ [pathA; pathB]
      ≡ₚ [relativeConfigPath g path1; relativeConfigPath g path2].
Proof.
  unfold duplicateError. simpl map.
  destruct (sort_pair (relativeConfigPath g path1)
              (relativeConfigPath g path2)) as (x & y & -> & Hle & Hp).
  by exists x, y.
Qed.

Lemma objRead_own {V} (o : Obj V) k v :
  objGet o k = Some v → objRead o k = Own v.
Proof. unfold objRead. by intros ->. Qed.

Lemma objRead_undefined {V} (o : Obj V) k :
  objGet o k = None → k ∉ objectPrototypeKeys → objRead o k = Undefined.
Proof. unfold objRead. intros -> Hk. by rewrite decide_False. Qed.

Lemma objRead_inherited {V} (o : Obj V) k :
  objGet o k = None → k ∈ objectPrototypeKeys → objRead o k = Inherited.
Proof. unfold objRead. intros -> Hk. by rewrite decide_True. Qed.

Lemma addModule_existing g c existing :
  objGet (moduleConfigs g) (configKey c) = Some existing →
  addModule c g
  = (Throw (duplicateError g "Module" (configKey c)
              (ModuleConfig.path existing) (ModuleConfig.path c)), g).
Proof.
  intros Hget. unfold addModule, bind, get. fold (configKey c).
  by rewrite (objRead_own _ _ _ Hget).
Qed.

Lemma addModule_inherited g c :
  objGet (moduleConfigs g) (configKey c) = None →
  configKey c ∈ objectPrototypeKeys →
  addModule c g = (Throw undefinedPathError, g).
Proof.
  intros Hget Hk. unfold addModule, bind, get. fold (configKey c).
  by rewrite (objRead_inherited _ _ Hget Hk).
Qed.

Lemma objGet_objSet {V} (o : Obj V) k v : objGet (objSet o k v) k = Some v.
Proof.
  induction o as [|[k' v'] o IH]; simpl.
  - by rewrite decide_True.
  - destruct (decide (k' = k)) as [->|Hne]; simpl.
    + by rewrite decide_True.
    + by rewrite decide_False.
Qed.

Lemma objGet_objSet_is_Some {V} (o : Obj V) k k' v :
  is_Some (objGet o k') → is_Some (objGet (objSet o k v) k').
Proof.
  induction o as [|[k0 v0] o IH]; simpl; [by intros [? ?]|].
  destruct (decide (k0 = k)) as [->|Hne]; simpl;
    destruct (decide (_ = k')); eauto.
Qed.

Lemma addModule_fresh g c :
  objGet (moduleConfigs g) (configKey c) = None →
  configKey c ∉ objectPrototypeKeys →
  addModule c g
  = (Return (),
     setModuleConfigs (objSet (moduleConfigs g) (configKey c) c) g).
Proof.
  intros Hget Hk. unfold addModule, bind, get, modify. fold (configKey c).
  by rewrite (objRead_undefined _ _ Hget Hk).
Qed.

Lemma duplicateError_isConfigurationError g what key path1 path2 :
  isConfigurationError (duplicateError g what key path1 path2) = true.
Proof.
  by destruct (duplicateError_spec g what key path1 path2)
    as (pA & pB & -> & _).
Qed.

(** A batch that contains a config whose key is already registered is
    rejected. *)
Lemma bluebirdMap_addModule_registered l g c :
  Forall (fun c => configKey c ∉ objectPrototypeKeys) l →
  c ∈ l → is_Some (objGet (moduleConfigs g) (configKey c)) →
  ∃ e, (bluebirdMap addModule l g).1 = Throw e
       ∧ isConfigurationError e = true.
Proof.
  revert g. induction l as [|x l IH]; intros g Hplain Hin Hsome.
  { by apply elem_of_nil in Hin. }
  apply Forall_cons in Hplain as [Hx Hplain]. simpl.
  destruct (objGet (moduleConfigs g) (configKey x)) as [existing|] eqn:Hget.
  { rewrite (addModule_existing _ _ _ Hget). eexists. split; [done|].
    apply duplicateError_isConfigurationError. }
  rewrite (addModule_fresh _ _ Hget Hx).
  apply elem_of_cons in Hin as [->|Hin].
  { rewrite Hget in Hsome. by destruct Hsome. }
  destruct (IH (setModuleConfigs (objSet (moduleConfigs g) (configKey x) x) g)
              Hplain Hin) as (e & He & Hk).
  { simpl. by apply objGet_objSet_is_Some. }
  exists e. destruct (bluebirdMap addModule l _) as [[bs|e'] g2];
    simpl in *; [discriminate|]. by simplify_eq.
Qed.

(** A batch in which two configs share a key is rejected, whatever was
    registered before. *)
Lemma bluebirdMap_addModule_duplicate l g i j c1 c2 :
  Forall (fun c => configKey c ∉ objectPrototypeKeys) l →
  i < j → l !! i = Some c1 → l !! j = Some c2 →
  configKey c1 = configKey c2 →
  ∃ e, (bluebirdMap addModule l g).1 = Throw e
       ∧ isConfigurationError e = true.
Proof.
  revert g i j. induction l as [|x l IH]; intros g i j Hplain Hij Hi Hj Hkey.
  { done. }
  apply Forall_cons in Hplain as [Hx Hplain]. simpl.
  destruct (objGet (moduleConfigs g) (configKey x)) as [existing|] eqn:Hget.
  { rewrite (addModule_existing _ _ _ Hget). eexists. split; [done|].
    apply duplicateError_isConfigurationError. }
  rewrite (addModule_fresh _ _ Hget Hx).
  set (g1 := setModuleConfigs _ g).
  assert (∃ e, (bluebirdMap addModule l g1).1 = Throw e
               ∧ isConfigurationError e = true) as (e & He & Hk).
  { destruct j as [|j]; [lia|]. simpl in Hj.
    destruct i as [|i]; simpl in Hi.
    - simplify_eq. apply (bluebirdMap_addModule_registered l g1 c2).
      + done.
      + by eapply list_elem_of_lookup_2.
      + subst g1. simpl. rewrite <- Hkey, objGet_objSet. eauto.
    - apply (IH g1 i j); [done|lia|done..]. }
  exists e. destruct (bluebirdMap addModule l g1) as [[bs|e'] g2];
    simpl in *; [discriminate|]. by simplify_eq.
Qed.

Lemma bluebirdMap_addModule_configsScanned l g :
  configsScanned (bluebirdMap addModule l g).2 = configsScanned g.
Proof. apply (preserves_bluebirdMap configsScanned). intros c.
       apply addModule_preserves. done. Qed.

(** X20. When the key of a module config is held by the registry for
    another config, adding it fails with a [ConfigurationError]; the message and
    the detail name the config file paths of the two, relative to the
    project root, in sorted order, and nothing is registered. It is fatal
    to the operation it is part of: a scan whose module configs include
    two with the same key, and whose module keys and workflow names are not
    names of properties of [Object.prototype], throws a
    [ConfigurationError] and does not mark the configs as scanned. *)
Theorem addModule_duplicate (g : Garden) (c1 c2 : ModuleConfig.t) :
  objGet (moduleConfigs g) (configKey c2) = Some c1 →
  (∃ pathA pathB,
     addModule c2 g
     = (Throw (ConfigurationError
                 ("Module " +:+ configKey c2
                    +:+ " is declared multiple times (in '" +:+ pathA
                    +:+ "' and '" +:+ pathB +:+ "')")
                 (DetailPaths pathA pathB)), g)
     ∧ String.le pathA pathB
     ∧ [pathA; pathB]
       ≡ₚ [relative (projectRoot g) (getConfigFilePath (ModuleConfig.path c1));
            relative (projectRoot g) (getConfigFilePath (ModuleConfig.path c2))])
  ∧ (∀ g0 force resources i j d1 d2,
       configsScanned g0 && negb force = false →
       loadScannedResources g0 = Return resources →
       let raw := pluginModuleConfigs g0 ++ moduleResources resources in
       throwOnMissingSecretKeys _
         (fromPairs (map (fun c => (ModuleConfig.name c, c)) raw))
         (secrets g0) "Module" = Return () →
       throwOnMissingSecretKeys _
         (fromPairs (map (fun c => (WorkflowConfig.name c, c))
                       (workflowResources resources)))
         (secrets g0) "Workflow" = Return () →
       Forall (fun c => configKey c ∉ objectPrototypeKeys) raw →
       Forall (fun w => WorkflowConfig.name w ∉ objectPrototypeKeys)
         (workflowResources resources) →
       i < j → raw !! i = Some d1 → raw !! j = Some d2 →
       configKey d1 = configKey d2 →
       ∃ e g', scanAndAddConfigs force g0 = (Throw e, g')
               ∧ isConfigurationError e = true
               ∧ configsScanned g' = configsScanned g0).
Proof.
  intros Hget. split.
  - rewrite (addModule_existing _ _ _ Hget).
    destruct (duplicateError_spec g "Module" (configKey c2)
                (ModuleConfig.path c1) (ModuleConfig.path c2))
      as (pA & pB & -> & Hle & Hp).
    exists pA, pB. done.
  - intros g0 force resources i j d1 d2 Hscan Hload raw Hs1 Hs2 Hplain _
      Hij Hi Hj Hk.
    destruct (bluebirdMap_addModule_duplicate raw g0 i j d1 d2 Hplain Hij Hi
                Hj Hk) as (e & He & Hce).
    unfold scanAndAddConfigs, bind, get, lift, bluebirdAll2.
    rewrite Hscan, Hload. fold raw. rewrite Hs1, Hs2.
    pose proof (bluebirdMap_addModule_configsScanned raw g0) as Hcs.
    destruct (bluebirdMap addModule raw g0) as [[bs|e'] g1];
      simpl in *; [discriminate|]. simplify_eq.
    eexists _, _. split; [done|]. split; [done|].
    rewrite <- Hcs.
    apply (preserves_bluebirdMap configsScanned). intros c.
    apply addWorkflow_preserves. done.
Qed.

(** C3. The duplicate check reads the registry, an object literal, by
    property access, and so finds the properties the registry inherits from
    [Object.prototype]: two module configs that share a key of such a name
    ([constructor], say), added to a registry that holds no config under
    that key, are both rejected with a [TypeError] that names no path, the
    first as well as the second; neither is registered, and no
    [ConfigurationError] is thrown for the pair. *)
Theorem addModule_inherited_key (g : Garden) (c1 c2 : ModuleConfig.t) :
  configKey c1 = configKey c2 →
  configKey c1 ∈ objectPrototypeKeys →
  objGet (moduleConfigs g) (configKey c1) = None →
  ∃ msg,
    addModule c1 g = (Throw (TypeError msg), g)
    ∧ addModule c2 g = (Throw (TypeError msg), g)
    ∧ isConfigurationError (TypeError msg) = false
    ∧ (bluebirdMap addModule [c1; c2] g).1 = Throw (TypeError msg)
    ∧ moduleConfigs (bluebirdMap addModule [c1; c2] g).2 = moduleConfigs g.
Proof.
  intros Hkey Hk Hget. eexists.
  assert (addModule c1 g = (Throw undefinedPathError, g)) as H1
    by by apply addModule_inherited.
  assert (addModule c2 g = (Throw undefinedPathError, g)) as H2.
  { apply addModule_inherited; by rewrite <- Hkey. }
  split_and!; [exact H1|exact H2|done|..].
  - simpl. by rewrite H1.
  - simpl. rewrite H1. simpl. by rewrite H2.
Qed.

End Duplicates.

(** ** A small project to run the orchestrator on

    Concrete collaborators, simple enough to evaluate: they are what the
    examples below run the methods with. *)

Module Demo.

Record Scenario := mkScenario {
  (* what the scan of the project finds *)
  scannedResources : list Resource;
  (* providers whose resolution task fails, with the message of the error *)
  failingProviders : Obj string;
  (* the cycles the task graph reports among the module tasks *)
  taskCycles : list (list (list string));
  (* the providers with an [augmentGraph] handler, and what it adds *)
  augmentations : Obj AugmentGraphResult.t;
  (* whether the config graph rejects unknown build dependency targets *)
  strictGraph : bool;
  (* the modules with uncommitted changes *)
  dirtyModules : list string;
}.

(** Modelled from the spec: [getModuleKey] is not among the sources. Section
    3: "plugin-qualified if [plugin] set, else bare name". *)
Definition moduleKeyOf (name : string) (plugin : option string) : string :=
  match plugin with
  | Some plugin => plugin +:+ "--" +:+ name
  | None => name
  end.

Definition successors (g : DependencyValidationGraph.t) (n : string)
  : list string :=
  omap (fun e => if decide (e.1 = n) then Some e.2 else None)
    (DependencyValidationGraph.edges g).

(** The simple cycles through [start] that stay within [allowed]. *)
Fixpoint cyclesFrom (fuel : nat) (g : DependencyValidationGraph.t)
    (start : string) (allowed path : list string) (cur : string)
  : list (list string) :=
  match fuel with
  | 0 => []
  | S fuel =>
      flat_map
        (fun next =>
           if decide (next = start) then [reverse (cur :: path)]
           else if decide (next ∈ allowed ∧ next ∉ cur :: path)
                then cyclesFrom fuel g start allowed (cur :: path) next
                else [])
        (successors g cur)
  end.

Fixpoint cyclesOver (g : DependencyValidationGraph.t) (nodes : list string)
  : list (list string) :=
  match nodes with
  | [] => []
  | n :: rest =>
      cyclesFrom (S (length rest)) g n rest [] n ++ cyclesOver g rest
  end.

(** Modelled from the spec: [detectCircularDependencies] is not among the
    sources. Section 4.2: every distinct cycle, of any length, self-loops
    included, each an ordered sequence of node ids; here each cycle starts
    at the node of it that was added first. *)
Definition detectCycles (g : DependencyValidationGraph.t)
  : list (list string) :=
  cyclesOver g (DependencyValidationGraph.nodes g).

Definition renderCycles (cycles : list (list string)) : string :=
  join "; " (map (join " <- ") cycles).

Definition lookupAll {V} (desc : string) (o : Obj V) (keys : list string)
  : Result (Obj V) :=
  mapResult
    (fun k =>
       match objGet o k with
       | Some v => Return (k, v)
       | None =>
           Throw (OtherError "parameter"
                    ("Could not find " +:+ desc +:+ ": " +:+ k) [])
       end)
    keys.

Definition providerOf (c : ProviderConfig.t) : Provider.t :=
  Provider.mk (ProviderConfig.name c) (ProviderConfig.dependencies c) [] c
    (Provider.mkStatus true false) ["kubectl"].

Definition providerResult (s : Scenario) (t : ResolveProviderTask.t)
  : string * option (TaskResult.t Provider.t) :=
  let c := ResolveProviderTask.config t in
  let name := ProviderConfig.name c in
  ("resolve-provider." +:+ name,
   Some match objGet (failingProviders s) name with
        | Some msg => TaskResult.mk name None (Some msg)
        | None => TaskResult.mk name (Some (providerOf c)) None
        end).

Definition versionOf (s : Scenario) (c : ModuleConfig.t)
    (dependencies : list ModuleConfig.t) : ModuleVersion.t :=
  let name := ModuleConfig.name c in
  ModuleVersion.mk
    ((if decide (name ∈ dirtyModules s) then "dirty-" else "v-") +:+ name)
    (map (fun d => (ModuleConfig.name d, "v-" +:+ ModuleConfig.name d))
       dependencies)
    [].

Definition moduleOf (s : Scenario) (c : ModuleConfig.t) : Module.t :=
  Module.mk c (versionOf s c []) [] c.

Definition moduleResult (s : Scenario) (t : ResolveModuleTask.t)
  : string * option (TaskResult.t Module.t) :=
  let c := ResolveModuleTask.moduleConfig t in
  ("resolve-module." +:+ ModuleConfig.name c,
   Some (TaskResult.mk (ModuleConfig.name c) (Some (moduleOf s c)) None)).

Definition unknownTargets (modules : list Module.t) : list string :=
  flat_map
    (fun m =>
       omap (fun d =>
               let key := moduleKeyOf (BuildDependencyConfig.name d)
                            (BuildDependencyConfig.plugin d) in
               if decide (key ∈ map Module.name modules) then None
               else Some key)
         (ModuleConfig.buildDependencies (Module.config m)))
    modules.

Definition graphOf (s : Scenario) (modules : list Module.t)
  : Result (list Module.t) :=
  if strictGraph s && negb (bool_decide (unknownTargets modules = []))
  then Throw (ConfigurationError
                ("Unknown module(s) in build dependencies: "
                   +:+ join ", " (unknownTargets modules))
                DetailNone)
  else Return modules.

Definition collaborators (s : Scenario) : Collaborators := {|
  getModuleKey := moduleKeyOf;
  getModuleCacheContext := fun c => ["modules"; ModuleConfig.name c];
  relative := fun _ path => path;
  resolve := fun root path => root +:+ "/" +:+ path;
  getConfigFilePath := fun path => path +:+ "/garden.yml";
  detectModuleOverlap := fun _ => [];
  loadScannedResources := fun _ => Return (scannedResources s);
  findByNames := fun names configs =>
    match lookupAll "provider(s)" (keyBy ProviderConfig.name configs) names with
    | Throw e => Throw e
    | Return _ =>
        Return (filter (fun c => ProviderConfig.name c ∈ names) configs)
    end;
  pickKeys := fun V o keys desc => lookupAll desc o keys;
  naturalList := join ", ";
  throwOnMissingSecretKeys := fun _ _ _ _ => Return ();
  ModuleTypeMap := ();
  loadPlugins := fun registered rawConfigs =>
    Return (map (fun c =>
                   default (GardenPlugin.mk (ProviderConfig.name c) [])
                     (objGet registered (ProviderConfig.name c)))
              rawConfigs);
  getDependencyOrder := fun providers _ => providers;
  getModuleTypes := fun _ => ();
  getAllProviderDependencyNames := fun plugin config =>
    Return (GardenPlugin.dependencies plugin
              ++ ProviderConfig.dependencies config);
  defaultProvider :=
    Provider.mk "_default" [] [] (ProviderConfig.mk "_default" [])
      (Provider.mkStatus true false) [];
  detectCircularDependencies := detectCycles;
  cyclesToString := renderCycles;
  processProviderTasks := fun tasks _ => Return (map (providerResult s) tasks);
  processModuleTasks := fun tasks _ =>
    match taskCycles s with
    | [] => Return (map (moduleResult s) tasks)
    | cycles =>
        Throw (OtherError "circular-dependencies"
                 "Circular task dependencies detected" cycles)
    end;
  getResolvedModules := fun results =>
    omap (fun r => r ≫= TaskResult.output) (objValues results);
  hasAugmentGraphHandler := fun name _ =>
    Return (bool_decide (is_Some (objGet (augmentations s) name)));
  augmentGraph := fun name _ _ _ =>
    Return (default (AugmentGraphResult.mk [] [] [])
              (objGet (augmentations s) name));
  moduleFromSpec := fun spec path _ _ =>
    Return (moduleOf s (ModuleConfig.mk (AddModuleSpec.name spec) None path
                          [] [] [] false));
  ConfigGraph := list Module.t;
  newConfigGraph := fun modules _ => graphOf s modules;
  getModules := fun _ modules includeDisabled =>
    filter (fun m => includeDisabled
                     || negb (ModuleConfig.disabled (Module.config m)))
      modules;
  vcsResolveVersion := fun c dependencies =>
    Return (versionOf s c dependencies);
  resolveWorkflowConfig := fun _ _ c => Return c;
|}.

(** A freshly constructed orchestrator for the given provider configs. *)
Definition garden (plugins : list GardenPlugin.t)
    (configs : list ProviderConfig.t) : Garden := {|
  loadedPlugins := None;
  moduleConfigs := [];
  workflowConfigs := [];
  pluginModuleConfigs := [];
  resolvedProviders := ∅;
  configsScanned := false;
  registeredPlugins := keyBy GardenPlugin.name plugins;
  cache := ∅;
  projectId := Some "project-1";
  projectRoot := "/project";
  environmentName := "local";
  namespace := None;
  variables := [("region", "eu")];
  secrets := [];
  providerConfigs := configs;
  version := ModuleVersion.mk "0.12.0" [] [];
  forceRefresh := false;
  effects := [];
|}.

Definition moduleConfig (name path : string)
    (dependencies : list string) : ModuleConfig.t :=
  ModuleConfig.mk name None path
    (map (fun d => BuildDependencyConfig.mk d None []) dependencies)
    [] [] false.

End Demo.

Section DuplicateExample.

Definition registeredWeb : Garden :=
  setModuleConfigs [("web", Demo.moduleConfig "web" "services/web" [])]
    (Demo.garden [] []).

(** A second "web", declared under [apps/web], is rejected with both config
    files named, the one under [apps] first. *)
Lemma addModule_duplicate_witness :
  ∃ pathA pathB,
    addModule (H := Demo.collaborators (Demo.mkScenario [] [] [] [] false []))
      (Demo.moduleConfig "web" "apps/web" []) registeredWeb
    = (Throw (ConfigurationError
                ("Module web is declared multiple times (in '" +:+ pathA
                   +:+ "' and '" +:+ pathB +:+ "')")
                (DetailPaths pathA pathB)), registeredWeb)
    ∧ String.le pathA pathB
    ∧ [pathA; pathB] ≡ₚ ["services/web/garden.yml"; "apps/web/garden.yml"].
Proof.
  apply (addModule_duplicate
           (H := Demo.collaborators (Demo.mkScenario [] [] [] [] false []))
           registeredWeb (Demo.moduleConfig "web" "services/web" [])
           (Demo.moduleConfig "web" "apps/web" [])).
  reflexivity.
Defined.

(** Two modules named [constructor], declared under [services/a] and
    [services/b], in a project that has no module yet: each is rejected with
    the [TypeError], also when they are added as one batch, and the registry
    stays empty. *)
Lemma addModule_inherited_key_witness :
  ∃ msg,
    addModule (H := Demo.collaborators (Demo.mkScenario [] [] [] [] false []))
      (Demo.moduleConfig "constructor" "services/a" []) (Demo.garden [] [])
    = (Throw (TypeError msg), Demo.garden [] [])
    ∧ addModule
        (H := Demo.collaborators (Demo.mkScenario [] [] [] [] false []))
        (Demo.moduleConfig "constructor" "services/b" []) (Demo.garden [] [])
      = (Throw (TypeError msg), Demo.garden [] [])
    ∧ isConfigurationError (TypeError msg) = false
    ∧ (bluebirdMap
         (addModule
            (H := Demo.collaborators (Demo.mkScenario [] [] [] [] false [])))
         [Demo.moduleConfig "constructor" "services/a" [];
          Demo.moduleConfig "constructor" "services/b" []]
         (Demo.garden [] [])).1 = Throw (TypeError msg)
    ∧ moduleConfigs
        (bluebirdMap
           (addModule
              (H := Demo.collaborators (Demo.mkScenario [] [] [] [] false [])))
           [Demo.moduleConfig "constructor" "services/a" [];
            Demo.moduleConfig "constructor" "services/b" []]
           (Demo.garden [] [])).2 = [].
Proof.
  apply (addModule_inherited_key
           (H := Demo.collaborators (Demo.mkScenario [] [] [] [] false []))
           (Demo.garden [] [])
           (Demo.moduleConfig "constructor" "services/a" [])
           (Demo.moduleConfig "constructor" "services/b" [])).
  - reflexivity.
  - apply list_elem_of_here.
  - reflexivity.
Defined.

End DuplicateExample.

(** ** Version resolution *)

Section Versions.
Context `{Collaborators}.

Lemma cacheGet_cacheSet c key v contexts :
  cacheGet (cacheSet c key v contexts) key = Some v.
Proof. unfold cacheGet, cacheSet. by rewrite lookup_insert_eq. Qed.

(** The cache key does not depend on the order of the dependencies. *)
Lemma versionCacheKey_order_independent m deps1 deps2 :
  deps1 ≡ₚ deps2 → versionCacheKey m deps1 = versionCacheKey m deps2.
Proof.
  intros Hp. unfold versionCacheKey. do 2 f_equal.
  apply sort_order_independent. by apply Permutation_map.
Qed.

Definition dependencyKeys (deps : list ModuleDependency) : list string :=
  map (fun dep => getModuleKey (depName dep) (depPlugin dep)) deps.

(** The state [resolveVersion] leaves after a computation by the VCS
    handler: the call is on record and the version is in the cache. *)
Definition afterResolve (g : Garden) (m : ModuleConfig.t)
    (deps : list ModuleDependency) (dependencies : list ModuleConfig.t)
    (v : ModuleVersion.t) : Garden :=
  let g := setEffects
             (effects g ++ [VcsResolveVersion (ModuleConfig.name m)
                              (map ModuleConfig.name dependencies)]) g in
  setCache
    (cacheSet (cache g) (versionCacheKey m deps) v
       (map getModuleCacheContext (dependencies ++ [m])))
    g.

Lemma resolveVersion_hit g m deps cached :
  cacheGet (cache g) (versionCacheKey m deps) = Some cached →
  resolveVersion m deps false g = (Return cached, g).
Proof. intros Hc. unfold resolveVersion, bind, get. by rewrite Hc. Qed.

Lemma resolveVersion_compute g m deps force dependencies g' v :
  force = true ∨ cacheGet (cache g) (versionCacheKey m deps) = None →
  getRawModuleConfigs (Some (dependencyKeys deps)) g
  = (Return dependencies, g') →
  vcsResolveVersion m dependencies = Return v →
  resolveVersion m deps force g
  = (Return v, afterResolve g' m deps dependencies v).
Proof.
  intros Hmiss Hraw Hvcs. unfold resolveVersion, bind, get.
  assert ((if force then None else cacheGet (cache g) (versionCacheKey m deps))
          = None) as ->.
  { destruct Hmiss as [-> | ->]; [done|by destruct force]. }
  fold (dependencyKeys deps). rewrite Hraw. simpl.
  unfold lift. by rewrite Hvcs.
Qed.

(** Every way [resolveVersion] can return. *)
Lemma resolveVersion_returns g m deps force v g1 :
  resolveVersion m deps force g = (Return v, g1) →
  (force = false ∧ cacheGet (cache g) (versionCacheKey m deps) = Some v
   ∧ g1 = g)
  ∨ (∃ dependencies g',
       getRawModuleConfigs (Some (dependencyKeys deps)) g
       = (Return dependencies, g')
       ∧ vcsResolveVersion m dependencies = Return v
       ∧ g1 = afterResolve g' m deps dependencies v).
Proof.
  unfold resolveVersion, bind, get. fold (dependencyKeys deps).
  destruct (if force then None else cacheGet (cache g) (versionCacheKey m deps))
    as [cached|] eqn:Hc.
  - intros [= <- <-]. left. by destruct force.
  - destruct (getRawModuleConfigs _ g) as [[dependencies|e] g'] eqn:Hraw;
      simpl; [|done].
    unfold lift.
    destruct (vcsResolveVersion m dependencies) as [v'|e] eqn:Hvcs;
      simpl; [|done].
    intros [= <- <-]. right. eauto.
Qed.

(** C2, as the code has it. The version cache is bypassed by the [force]
    argument only. Without [force], a version cached under the key is
    returned as it is, the VCS handler is not called and the state is left
    as it was, whatever the handler would report about uncommitted changes.
    With [force], or with nothing cached under the key, the version is the
    one the VCS handler computes, and it is stored under the key. *)
Theorem resolveVersion_cache_bypass (g : Garden) (m : ModuleConfig.t)
    (deps : list ModuleDependency) (cached : ModuleVersion.t) :
  cacheGet (cache g) (versionCacheKey m deps) = Some cached →
  resolveVersion m deps false g = (Return cached, g)
  ∧ (∀ dependencies g' v,
       getRawModuleConfigs (Some (dependencyKeys deps)) g
       = (Return dependencies, g') →
       vcsResolveVersion m dependencies = Return v →
       resolveVersion m deps true g
       = (Return v, afterResolve g' m deps dependencies v)
       ∧ cacheGet (cache (afterResolve g' m deps dependencies v))
           (versionCacheKey m deps) = Some v)
  ∧ (∀ g0 dependencies g' v force,
       cacheGet (cache g0) (versionCacheKey m deps) = None →
       getRawModuleConfigs (Some (dependencyKeys deps)) g0
       = (Return dependencies, g') →
       vcsResolveVersion m dependencies = Return v →
       resolveVersion m deps force g0
       = (Return v, afterResolve g' m deps dependencies v)).
Proof.
  intros Hc. split_and!.
  - by apply resolveVersion_hit.
  - intros dependencies g' v Hraw Hvcs. split.
    + apply resolveVersion_compute; auto.
    + apply cacheGet_cacheSet.
  - intros g0 dependencies g' v force Hnone Hraw Hvcs.
    apply resolveVersion_compute; auto.
Qed.

Lemma insertIndex_Permutation {V} (x : N * (string * V)) l :
  insertIndex x l ≡ₚ x :: l.
Proof.
  induction l as [|y l IH]; simpl; [done|].
  destruct (x.1 <=? y.1)%N; [done|].
  rewrite IH. apply perm_swap.
Qed.

(** [Object.values] lists every own property once. *)
Lemma ownEntries_Permutation {V} (o : Obj V) : ownEntries o ≡ₚ o.
Proof.
  unfold ownEntries, Obj in *. induction o as [|[k v] o IH]; [done|].
  rewrite filter_cons. simpl. destruct (arrayIndex k) as [n|] eqn:Hk; simpl.
  - etrans.
    { apply Permutation_app;
        [apply Permutation_map, insertIndex_Permutation|reflexivity]. }
    simpl. constructor. exact IH.
  - etrans; [symmetry; apply Permutation_middle|]. constructor. exact IH.
Qed.

Lemma objValues_Permutation {V} (o1 o2 : Obj V) :
  o1 ≡ₚ o2 → objValues o1 ≡ₚ objValues o2.
Proof.
  intros Hp. unfold objValues.
  apply Permutation_map. by rewrite !ownEntries_Permutation.
Qed.

(** The lookup of the raw module configs of a list of keys does not depend
    on the order of the keys, up to the order of the configs it returns. *)
Definition PickInsensitive : Prop :=
  ∀ (o : Obj ModuleConfig.t) keys1 keys2 picked1,
    keys1 ≡ₚ keys2 →
    pickKeys _ o keys1 "module config" = Return picked1 →
    ∃ picked2,
      pickKeys _ o keys2 "module config" = Return picked2
      ∧ objValues picked1 ≡ₚ objValues picked2.

(** The VCS handler computes the version of [m] from the set of its
    dependencies: their order does not matter to it. *)
Definition HashInsensitive (m : ModuleConfig.t) : Prop :=
  ∀ dependencies1 dependencies2,
    dependencies1 ≡ₚ dependencies2 →
    vcsResolveVersion m dependencies1 = vcsResolveVersion m dependencies2.

Lemma getRawModuleConfigs_Permutation keys1 keys2 g dependencies1 g' :
  PickInsensitive → keys1 ≡ₚ keys2 →
  getRawModuleConfigs (Some keys1) g = (Return dependencies1, g') →
  ∃ dependencies2,
    getRawModuleConfigs (Some keys2) g = (Return dependencies2, g')
    ∧ dependencies1 ≡ₚ dependencies2.
Proof.
  intros Hpick Hp. unfold getRawModuleConfigs, bind, get, lift.
  destruct ((if configsScanned g then ret () else scanAndAddConfigs false) g)
    as [[[]|e] gs]; [|done].
  unfold ret.
  destruct (pickKeys _ (moduleConfigs gs) keys1 _) as [picked1|e] eqn:H1;
    [|done].
  intros [= <- <-].
  destruct (Hpick _ _ _ _ Hp H1) as (picked2 & -> & Hv). eauto.
Qed.


End Versions.

Section VersionExamples.

Definition webConfig : ModuleConfig.t := Demo.moduleConfig "web" "web" [].
Definition apiConfig : ModuleConfig.t := Demo.moduleConfig "api" "api" [].
Definition appConfig : ModuleConfig.t :=
  Demo.moduleConfig "app" "app" ["web"; "api"].

(** A project of three modules in which "web" has uncommitted changes. *)
Definition dirtyWeb : Demo.Scenario :=
  Demo.mkScenario
    [ModuleResource webConfig; ModuleResource apiConfig;
     ModuleResource appConfig]
    [] [] [] false ["web"].

Definition webDependency : ModuleDependency :=
  DepConfig (BuildDependencyConfig.mk "web" None []).
Definition apiDependency : ModuleDependency :=
  DepConfig (BuildDependencyConfig.mk "api" None []).

(** The state after the version of "web" has been resolved once. *)
Definition resolvedOnce : Garden :=
  (resolveVersion (H := Demo.collaborators dirtyWeb) webConfig [] false
     (Demo.garden [] [])).2.

(** C2 fails on the code: "web" is dirty, as the version the VCS handler
    gives it says, and yet the second call for it returns the cached
    version; the VCS handler was called once, by the first call. *)
Lemma resolveVersion_dirty_served_from_cache :
  resolveVersion (H := Demo.collaborators dirtyWeb) webConfig [] false
    (Demo.garden [] [])
  = (Return (ModuleVersion.mk "dirty-web" [] []), resolvedOnce)
  ∧ resolveVersion (H := Demo.collaborators dirtyWeb) webConfig [] false
      resolvedOnce
    = (Return (ModuleVersion.mk "dirty-web" [] []), resolvedOnce)
  ∧ effects resolvedOnce = [VcsResolveVersion "web" []].
Proof. split_and!; vm_compute; reflexivity. Qed.

Lemma resolveVersion_cache_bypass_witness :
  resolveVersion (H := Demo.collaborators dirtyWeb) webConfig [] false
    resolvedOnce
  = (Return (ModuleVersion.mk "dirty-web" [] []), resolvedOnce).
Proof.
  refine (proj1 (resolveVersion_cache_bypass
                   (H := Demo.collaborators dirtyWeb) resolvedOnce webConfig []
                   (ModuleVersion.mk "dirty-web" [] []) _)).
  vm_compute. reflexivity.
Defined.

(** The collaborators of [Demo] with a VCS handler that hashes the
    dependencies in the order of their names. *)
Definition hashing (s : Demo.Scenario) : Collaborators :=
  let C := Demo.collaborators s in {|
  getModuleKey := @getModuleKey C;
  getModuleCacheContext := @getModuleCacheContext C;
  relative := @relative C;
  resolve := @resolve C;
  getConfigFilePath := @getConfigFilePath C;
  detectModuleOverlap := @detectModuleOverlap C;
  loadScannedResources := @loadScannedResources C;
  findByNames := @findByNames C;
  pickKeys := @pickKeys C;
  naturalList := @naturalList C;
  throwOnMissingSecretKeys := @throwOnMissingSecretKeys C;
  ModuleTypeMap := @ModuleTypeMap C;
  loadPlugins := @loadPlugins C;
  getDependencyOrder := @getDependencyOrder C;
  getModuleTypes := @getModuleTypes C;
  getAllProviderDependencyNames := @getAllProviderDependencyNames C;
  defaultProvider := @defaultProvider C;
  detectCircularDependencies := @detectCircularDependencies C;
  cyclesToString := @cyclesToString C;
  processProviderTasks := @processProviderTasks C;
  processModuleTasks := @processModuleTasks C;
  getResolvedModules := @getResolvedModules C;
  hasAugmentGraphHandler := @hasAugmentGraphHandler C;
  augmentGraph := @augmentGraph C;
  moduleFromSpec := @moduleFromSpec C;
  ConfigGraph := @ConfigGraph C;
  newConfigGraph := @newConfigGraph C;
  getModules := @getModules C;
  vcsResolveVersion := fun c dependencies =>
    Return (ModuleVersion.mk ("v-" +:+ ModuleConfig.name c)
              (map (fun name => (name, "v-" +:+ name))
                 (sort (map ModuleConfig.name dependencies)))
              []);
  resolveWorkflowConfig := @resolveWorkflowConfig C;
|}.

Lemma hashing_HashInsensitive s m : HashInsensitive (H := hashing s) m.
Proof.
  intros d1 d2 Hp. simpl. do 3 f_equal.
  apply sort_order_independent. by apply Permutation_map.
Qed.

Lemma mapResult_Permutation {A B} (f : A → Result B) l1 l2 r1 :
  l1 ≡ₚ l2 → mapResult f l1 = Return r1 →
  ∃ r2, mapResult f l2 = Return r2 ∧ r1 ≡ₚ r2.
Proof.
  intros Hp. revert r1.
  induction Hp as [|x l1 l2 Hp IH|x y l|l1 l2 l3 Hp1 IH1 Hp2 IH2];
    intros r1; simpl.
  - intros [= <-]. eauto.
  - destruct (f x) as [b|e]; [|done].
    destruct (mapResult f l1) as [bs|e]; [|done]. intros [= <-].
    destruct (IH bs eq_refl) as (r2 & -> & Hr). eexists. split; [done|].
    by constructor.
  - destruct (f y) as [b|e]; [|done]. destruct (f x) as [a|e]; [|done].
    destruct (mapResult f l) as [bs|e]; [|done]. intros [= <-].
    eexists. split; [done|]. apply perm_swap.
  - intros H1. destruct (IH1 _ H1) as (r2 & H2 & Hr12).
    destruct (IH2 _ H2) as (r3 & H3 & Hr23). exists r3. split; [done|].
    by etrans.
Qed.

Lemma hashing_PickInsensitive s : PickInsensitive (H := hashing s).
Proof.
  intros o keys1 keys2 picked1 Hp Hpick. simpl in *.
  destruct (mapResult_Permutation _ _ _ _ Hp Hpick) as (picked2 & H2 & Hr).
  exists picked2. split; [done|]. by apply objValues_Permutation.
Qed.

Definition threeModulesFound : Garden :=
  (scanAndAddConfigs (H := hashing dirtyWeb) false (Demo.garden [] [])).2.

Definition appResolved : Garden :=
  (resolveVersion (H := hashing dirtyWeb) appConfig
     [webDependency; apiDependency] true threeModulesFound).2.


End VersionExamples.

(** ** Provider resolution *)

Section Providers.
Context `{Collaborators}.

Definition requestedNames (names : option (list string))
    (rawConfigs : list ProviderConfig.t) : list string :=
  match names with
  | Some names => names
  | None => getNames ProviderConfig.name rawConfigs
  end.

(** The run of [resolveProviders names] from [g] gets as far as the cycle
    check: the raw configs are [rawConfigs], no secret is missing, some
    requested provider is not resolved yet, the plugins load (leaving the
    state [g1]) and the validation graph built from them is [vg]. *)
Definition ReachesCycleCheck (names : option (list string)) (g : Garden)
    (rawConfigs : list ProviderConfig.t) (loaded : list GardenPlugin.t)
    (g1 : Garden) (vg : DependencyValidationGraph.t) : Prop :=
  getRawProviderConfigs names g = (Return rawConfigs, g)
  ∧ throwOnMissingSecretKeys _
      (fromPairs (map (fun c => (ProviderConfig.name c, c)) rawConfigs))
      (secrets g) "Provider" = Return ()
  ∧ length (omap (fun name => resolvedProviders g !! name)
              (requestedNames names rawConfigs))
    ≠ length (requestedNames names rawConfigs)
  ∧ getPlugins g = (Return loaded, g1)
  ∧ buildValidationGraph (keyBy GardenPlugin.name loaded)
      DependencyValidationGraph.empty rawConfigs = Return vg.

(** The state in which the provider tasks are processed. *)
Definition processing (g1 : Garden) (rawConfigs : list ProviderConfig.t)
  : Garden :=
  setEffects
    (effects g1
       ++ [ProcessTasks "resolve-provider" (map ProviderConfig.name rawConfigs)])
    g1.

Lemma getRawProviderConfigs_state names g :
  (getRawProviderConfigs names g).2 = g.
Proof.
  unfold getRawProviderConfigs, bind, get, lift, ret. by destruct names.
Qed.

Lemma providerTaskNames g plugins forceInit rawConfigs :
  map providerTaskName (resolveProviderTasks g plugins forceInit rawConfigs)
  = map ProviderConfig.name rawConfigs.
Proof. unfold resolveProviderTasks. rewrite map_map. done. Qed.

Lemma length_pos_nonempty {A} (l : list A) : 0 < length l ↔ l ≠ [].
Proof. destruct l; simpl; split; (done || lia). Qed.

Lemma resolveProviders_cycle forceInit names g rawConfigs loaded g1 vg :
  ReachesCycleCheck names g rawConfigs loaded g1 vg →
  detectCircularDependencies vg ≠ [] →
  resolveProviders forceInit names g
  = (Throw (circularProvidersError
              (cyclesToString (detectCircularDependencies vg))), g1).
Proof.
  intros (Hraw & Hsec & Hres & Hpl & Hvg) Hcyc.
  unfold resolveProviders, bind, get, lift. rewrite Hraw.
  fold (requestedNames names rawConfigs). rewrite Hsec.
  rewrite decide_False by done. rewrite Hpl, Hvg.
  rewrite decide_True by by apply length_pos_nonempty. done.
Qed.

Lemma resolveProviders_failed forceInit names g rawConfigs loaded g1 vg
    taskResults :
  ReachesCycleCheck names g rawConfigs loaded g1 vg →
  detectCircularDependencies vg = [] →
  processProviderTasks
    (resolveProviderTasks g1 (keyBy GardenPlugin.name loaded) forceInit
       rawConfigs)
    (processing g1 rawConfigs) = Return taskResults →
  failedResults taskResults ≠ [] →
  resolveProviders forceInit names g
  = (Throw (failedProvidersError rawConfigs (failedResults taskResults)),
     processing g1 rawConfigs).
Proof.
  intros (Hraw & Hsec & Hres & Hpl & Hvg) Hcyc Hproc Hfail.
  unfold resolveProviders, bind, get, lift. rewrite Hraw.
  fold (requestedNames names rawConfigs). rewrite Hsec.
  rewrite decide_False by done. rewrite Hpl, Hvg, Hcyc. simpl.
  unfold processTasks, bind, perform, modify, get, lift.
  rewrite providerTaskNames. fold (processing g1 rawConfigs).
  rewrite Hproc.
  rewrite decide_True by by apply length_pos_nonempty. done.
Qed.

Lemma elem_of_failedResults {O} (results : TaskResults O) r :
  r ∈ failedResults results
  ↔ Some r ∈ objValues results ∧ is_Some (TaskResult.error r).
Proof.
  unfold failedResults. rewrite list_elem_of_omap. split.
  - intros ([r'|] & Hin & Heq); [|done].
    destruct (TaskResult.error r') eqn:E; [|done]. by simplify_eq.
  - intros [Hin [msg Hmsg]]. exists (Some r). split; [done|].
    by rewrite Hmsg.
Qed.


Lemma processTasks_state {T O} type (name : T → string)
    (process : list T → Garden → Result (TaskResults O)) tasks g :
  (processTasks type name process tasks g).2
  = setEffects (effects g ++ [ProcessTasks type (map name tasks)]) g.
Proof.
  unfold processTasks, bind, perform, modify, get, lift. done.
Qed.

(** Whatever follows the processing of the provider tasks performs no
    further effect. *)
Lemma resolveProviders_trace forceInit names g :
  effects (resolveProviders forceInit names g).2 = effects g
  ∨ ∃ rawConfigs loaded g1 vg,
      ReachesCycleCheck names g rawConfigs loaded g1 vg
      ∧ detectCircularDependencies vg = []
      ∧ effects (resolveProviders forceInit names g).2
        = effects g
            ++ [ProcessTasks "resolve-provider"
                  (map ProviderConfig.name rawConfigs)].
Proof.
  pose proof (getRawProviderConfigs_state names g) as Hst.
  remember (resolveProviders forceInit names g) as run eqn:Hrun.
  unfold resolveProviders, bind at 1, get, lift in Hrun.
  destruct (getRawProviderConfigs names g) as [[rawConfigs|e] g0] eqn:Hraw;
    simpl in Hst; subst g0; [|subst run; by left].
  unfold bind at 1 in Hrun. unfold bind at 1 in Hrun.
  fold (requestedNames names rawConfigs) in Hrun.
  destruct (throwOnMissingSecretKeys _ _ _ _) as [[]|e] eqn:Hsec;
    [|subst run; by left].
  destruct (decide (length _ = length _)) as [|Hres]; [subst run; by left|].
  unfold bind at 1 in Hrun.
  pose proof (getPlugins_preserves effects (fun _ _ => eq_refl) g) as Hpe.
  destruct (getPlugins g) as [[loaded|e] g1] eqn:Hpl; simpl in Hpe;
    [|subst run; by left].
  unfold bind at 1 in Hrun.
  destruct (buildValidationGraph _ _ _) as [vg|e] eqn:Hvg;
    [|subst run; by left].
  destruct (decide (0 < length (detectCircularDependencies vg))) as [|Hcyc];
    [subst run; by left|].
  right. exists rawConfigs, loaded, g1, vg.
  split; [done|]. split.
  { destruct (detectCircularDependencies vg); [done|simpl in Hcyc; lia]. }
  unfold bind at 1 in Hrun. unfold get in Hrun.
  match type of Hrun with
  | run = bind ?m ?k g1 =>
      assert (∀ a, Preserves effects (k a)) as Hk by (intros a; frame);
      pose proof (processTasks_state "resolve-provider" providerTaskName
                    processProviderTasks
                    (resolveProviderTasks g1 (keyBy GardenPlugin.name loaded)
                       forceInit rawConfigs) g1) as Hp;
      unfold bind in Hrun;
      destruct m as [[taskResults|e] g2]
  end; simpl in Hp; subst g2 run.
  - rewrite Hk. simpl. by rewrite providerTaskNames, Hpe.
  - simpl. by rewrite providerTaskNames, Hpe.
Qed.


End Providers.

(** ** What no method changes *)

Section FrameAll.
Context `{Collaborators} {X : Type} (π : Garden → X).
Hypothesis π_loadedPlugins : ∀ v g, π (setLoadedPlugins v g) = π g.
Hypothesis π_moduleConfigs : ∀ v g, π (setModuleConfigs v g) = π g.
Hypothesis π_workflowConfigs : ∀ v g, π (setWorkflowConfigs v g) = π g.
Hypothesis π_configsScanned : ∀ v g, π (setConfigsScanned v g) = π g.
Hypothesis π_resolvedProviders : ∀ v g, π (setResolvedProviders v g) = π g.
Hypothesis π_cache : ∀ v g, π (setCache v g) = π g.
Hypothesis π_effects : ∀ v g, π (setEffects v g) = π g.

Lemma processTasks_preserves {T O} type (name : T → string)
    (process : list T → Garden → Result (TaskResults O)) tasks :
  Preserves π (processTasks type name process tasks).
Proof. unfold processTasks, perform. frame. Qed.
Hint Resolve processTasks_preserves : frame.

Lemma resolveProviders_preserves forceInit names :
  Preserves π (resolveProviders forceInit names).
Proof. unfold resolveProviders. frame. Qed.
Hint Resolve resolveProviders_preserves : frame.

Lemma getWorkflowConfigs_preserves names :
  Preserves π (getWorkflowConfigs names).
Proof. unfold getWorkflowConfigs. frame. Qed.

Lemma resolveVersion_preserves m deps force :
  Preserves π (resolveVersion m deps force).
Proof. unfold resolveVersion, perform. frame. Qed.
Hint Resolve resolveVersion_preserves : frame.

Lemma updateModule_preserves byName module :
  Preserves π (updateModule byName module).
Proof. unfold updateModule. frame. Qed.
Hint Resolve updateModule_preserves : frame.

Lemma augment_preserves providers moduleTypes vars provider :
  Preserves π (augment providers moduleTypes vars provider).
Proof. unfold augment. frame. Qed.
Hint Resolve augment_preserves : frame.

Lemma augmentAll_preserves providers moduleTypes vars order :
  Preserves π (augmentAll providers moduleTypes vars order).
Proof.
  revert vars. induction order as [|p order IH]; intros vars; simpl; frame.
Qed.
Hint Resolve augmentAll_preserves : frame.

Lemma getConfigGraph_preserves : Preserves π getConfigGraph.
Proof. unfold getConfigGraph. frame. Qed.

End FrameAll.

(** ** Circular dependencies among modules *)

Section ModuleCycles.
Context `{Collaborators}.

(** The run of [getConfigGraph] from [g] gets as far as handing the module
    tasks to the task graph: the providers resolve to [providers] and the
    raw module configs are [configs]. *)
Definition ReachesModuleTasks (g : Garden) (providers : Obj Provider.t)
    (g1 : Garden) (configs : list ModuleConfig.t) (g2 : Garden) : Prop :=
  resolveProviders false None g = (Return providers, g1)
  ∧ getRawModuleConfigs None g1 = (Return configs, g2).

Definition moduleTasks (providers : Obj Provider.t)
    (configs : list ModuleConfig.t) : list ResolveModuleTask.t :=
  map (fun moduleConfig => ResolveModuleTask.mk moduleConfig providers)
    configs.

(** The state in which the module tasks are processed. *)
Definition processingModules (g2 : Garden) (configs : list ModuleConfig.t)
  : Garden :=
  setEffects
    (effects g2
       ++ [ProcessTasks "resolve-module" (map ModuleConfig.name configs)])
    g2.

Lemma moduleTaskNames providers configs :
  map moduleTaskName (moduleTasks providers configs)
  = map ModuleConfig.name configs.
Proof. unfold moduleTasks. by rewrite map_map. Qed.

Lemma getConfigGraph_circular g providers g1 configs g2 text cycles :
  ReachesModuleTasks g providers g1 configs g2 →
  processModuleTasks (moduleTasks providers configs)
    (processingModules g2 configs)
  = Throw (OtherError "circular-dependencies" text cycles) →
  getConfigGraph g
  = (Throw (circularModulesError cycles), processingModules g2 configs).
Proof.
  intros [Hprov Hraw] Hproc.
  unfold getConfigGraph, bind at 1. rewrite Hprov.
  unfold bind at 1. rewrite Hraw.
  unfold bind at 1, tryCatch, processTasks, bind, perform, modify, get, lift.
  fold (moduleTasks providers configs). rewrite moduleTaskNames.
  fold (processingModules g2 configs). rewrite Hproc.
  rewrite decide_True by done. done.
Qed.

(** A task key: the type of the task, a full stop, the name of what the
    task is about. *)
Definition taskKey (k : string * string) : string := k.1 +:+ "." +:+ k.2.

Definition wellFormedKey (k : string * string) : Prop :=
  hasDot k.1 = false ∧ hasDot k.2 = false.

Lemma moduleNameOfKey_taskKey k :
  wellFormedKey k → moduleNameOfKey (taskKey k) = Some k.2.
Proof.
  intros [Ht Hn]. unfold moduleNameOfKey, taskKey.
  by rewrite split_key.
Qed.

Lemma map3_ext {A B} (f g : A → B) (l : list (list (list A))) :
  Forall (Forall (Forall (fun x => f x = g x))) l →
  map (map (map f)) l = map (map (map g)) l.
Proof.
  intros Hl. apply map_ext_Forall.
  eapply Forall_impl; [exact Hl|]. intros c Hc. apply map_ext_Forall.
  eapply Forall_impl; [exact Hc|]. intros cycle Hcycle.
  by apply map_ext_Forall.
Qed.

Lemma moduleNames_of_keys (named : list (list (list (string * string)))) :
  Forall (Forall (Forall wellFormedKey)) named →
  map (map (map moduleNameOfKey)) (map (map (map taskKey)) named)
  = map (map (map (fun k => Some k.2))) named.
Proof.
  intros Hwf.
  rewrite map_map.
  rewrite (map_ext _ (map (map (fun k => moduleNameOfKey (taskKey k))))).
  2: { intros c. rewrite map_map. apply map_ext. intros cycle.
       by rewrite map_map. }
  apply map3_ext.
  eapply Forall_impl; [exact Hwf|]. intros c Hc.
  eapply Forall_impl; [exact Hc|]. intros cycle Hcycle.
  eapply Forall_impl; [exact Hcycle|]. intros k Hk.
  by apply moduleNameOfKey_taskKey.
Qed.

Lemma cycleToString_names (c : list (list (string * string))) :
  cycleToString (map (map (fun k => Some k.2)) c)
  = join "," (map (fun cycle => join "," (map snd cycle)) c).
Proof.
  unfold cycleToString. rewrite map_map. f_equal. apply map_ext.
  intros cycle. by rewrite map_map.
Qed.

(** C7. When the task graph rejects the module tasks with a
    circular-dependency error, [getConfigGraph] reports a
    [ConfigurationError] in which every key of every cycle has been replaced
    by the module name in it: the cycles of the detail hold the names, and
    the message prints the names only. *)
Theorem getConfigGraph_circular_module_names (g g1 g2 : Garden)
    (providers : Obj Provider.t) (configs : list ModuleConfig.t)
    (text : string) (named : list (list (list (string * string)))) :
  ReachesModuleTasks g providers g1 configs g2 →
  Forall (Forall (Forall wellFormedKey)) named →
  processModuleTasks (moduleTasks providers configs)
    (processingModules g2 configs)
  = Throw (OtherError "circular-dependencies" text
             (map (map (map taskKey)) named)) →
  getConfigGraph g
  = (Throw (ConfigurationError
              ("Detected one or more circular dependencies between module "
                 +:+ "configurations:" +:+ nl +:+ nl
                 +:+ join nl
                       (map (fun c =>
                               join ","
                                 (map (fun cycle => join "," (map snd cycle))
                                    c))
                          named))
              (DetailCycles (map (map (map (fun k => Some k.2))) named))),
     processingModules g2 configs).
Proof.
  intros Hreach Hwf Hproc.
  rewrite (getConfigGraph_circular _ _ _ _ _ _ _ Hreach Hproc).
  unfold circularModulesError. rewrite (moduleNames_of_keys _ Hwf).
  rewrite map_map.
  rewrite (map_ext _ _ cycleToString_names). done.
Qed.

End ModuleCycles.

(** ** The class of a circular-dependency failure *)

Section CycleErrors.
Context `{Collaborators}.


End CycleErrors.

(** ** Build dependencies added by plugins *)

Section Augmentation.
Context `{Collaborators}.

(** [findByName] only looks at the names. *)
Lemma findByName_names {A B} (nameA : A → string) (nameB : B → string)
    (l : list A) (l' : list B) n :
  map nameA l = map nameB l' → findByName nameA l n = findByName nameB l' n.
Proof.
  revert l'. induction l as [|x l IH]; intros [|y l'] Hmap;
    try discriminate Hmap; [done|].
  simpl in *. injection Hmap as Hxy Hmap. rewrite Hxy.
  destruct (decide (nameB y = n)); [done|]. f_equal. by apply IH.
Qed.

Lemma pushBuildDependency_names d i (modules : list Module.t) :
  map Module.name (alter (pushBuildDependency d) i modules)
  = map Module.name modules.
Proof.
  revert i. induction modules as [|m modules IH]; intros [|i]; simpl; try done.
  by rewrite <- (IH i).
Qed.

(** A dependency added by a module that exists is accepted, whatever it is
    a dependency on. *)
Lemma addBuildDependency_found provider modules dependency i :
  findByName Module.name modules (Dependency.by_ dependency) = Some i →
  addBuildDependency provider modules dependency
  = Return
      (alter
         (pushBuildDependency
            (BuildDependencyConfig.mk (Dependency.on dependency) None []))
         i modules).
Proof. intros Hf. unfold addBuildDependency. by rewrite Hf. Qed.

Lemma addBuildDependencies_missing_by provider modules before dependency
    after :
  Forall (fun d => is_Some (findByName Module.name modules (Dependency.by_ d)))
    before →
  findByName Module.name modules (Dependency.by_ dependency) = None →
  addBuildDependencies provider modules (before ++ dependency :: after)
  = Throw (missingByError provider dependency).
Proof.
  revert modules. induction before as [|d before IH]; intros modules Hb Hn.
  - simpl. unfold addBuildDependency. by rewrite Hn.
  - apply Forall_cons in Hb as [[i Hi] Hb]. simpl.
    rewrite (addBuildDependency_found _ _ _ _ Hi).
    apply IH.
    + eapply Forall_impl; [exact Hb|]. intros d' Hd'. simpl in Hd'.
      erewrite findByName_names; [exact Hd'|].
      apply pushBuildDependency_names.
    + erewrite findByName_names; [exact Hn|].
      apply pushBuildDependency_names.
Qed.

(** C1, as the code has it. When a plugin adds a build dependency whose
    [by] module is not among the resolved modules, the augmentation fails
    with a [PluginError] that names the plugin, the [by] module and the [on]
    module. The [on] module is not looked up by the augmentation: a
    dependency whose [by] module exists is appended to the build
    dependencies of that module, whatever [on] is. *)
Theorem augment_build_dependency_by (providers : Obj Provider.t)
    (moduleTypes : ModuleTypeMap) (modules modules1 : list Module.t)
    (graph : option ConfigGraph) (provider : Provider.t) (g : Garden)
    (added : AugmentGraphResult.t) (before after : list Dependency.t)
    (dependency : Dependency.t) :
  hasAugmentGraphHandler (Provider.name provider) g = Return true →
  (is_Some graph ∨ ∃ gr, newConfigGraph modules moduleTypes = Return gr) →
  augmentGraph (Provider.name provider) providers modules g = Return added →
  addModules g modules (AugmentGraphResult.addModules added)
  = Return modules1 →
  AugmentGraphResult.addBuildDependencies added
  = before ++ dependency :: after →
  Forall
    (fun d => is_Some (findByName Module.name modules1 (Dependency.by_ d)))
    before →
  findByName Module.name modules1 (Dependency.by_ dependency) = None →
  augment providers moduleTypes (modules, graph) provider g
  = (Throw (PluginError
              ("Provider '" +:+ Provider.name provider
                 +:+ "' added a build dependency by module '"
                 +:+ Dependency.by_ dependency +:+ "' on '"
                 +:+ Dependency.on dependency +:+ "' but module '"
                 +:+ Dependency.by_ dependency +:+ "' could not be found.")
              (DetailDependency (Provider.name provider)
                 (Dependency.by_ dependency) (Dependency.on dependency))),
     g)
  ∧ (∀ name modules0 on i,
       findByName Module.name modules0 (Dependency.by_ dependency) = Some i →
       addBuildDependencies name modules0
         [Dependency.mk (Dependency.by_ dependency) on]
       = Return
           (alter (pushBuildDependency (BuildDependencyConfig.mk on None []))
              i modules0)).
Proof.
  intros Hh Hgraph Hadded Hmods Hdeps Hbefore Hmissing. split.
  - unfold augment, bind, get, lift. rewrite Hh. simpl.
    assert (∃ gr, match graph with
                  | Some graph0 => ret (Some graph0)
                  | None =>
                      λ g0, match newConfigGraph modules moduleTypes with
                            | Return a => ret (Some a) g0
                            | Throw e => (Throw e, g0)
                            end
                  end g = (Return gr, g)) as [gr Hgr].
    { destruct graph as [gr|]; [by eexists|].
      destruct Hgraph as [[? [=]]|[gr ->]]. by eexists. }
    rewrite Hgr. rewrite Hadded, Hmods, Hdeps.
    by rewrite (addBuildDependencies_missing_by _ _ _ _ _ Hbefore Hmissing).
  - intros name modules0 on i Hi. simpl.
    unfold addBuildDependency. simpl. by rewrite Hi.
Qed.

End Augmentation.

(** ** The configuration dump *)

Section Dump.
Context `{Collaborators}.

(** The fields of the orchestrator that are set once, at construction. *)
Definition project (g : Garden) :=
  (environmentName g, namespace g, variables g, projectRoot g, projectId g).

(** What a dumped provider keeps of the provider it was made from: every
    field but the [tools], which the dumped record does not have. *)
Definition dumpedFrom (dumped : Provider.dump_t) (p : Provider.t) : Prop :=
  Provider.d_name dumped = Provider.name p
  ∧ Provider.d_dependencies dumped = Provider.dependencies p
  ∧ Provider.d_moduleConfigs dumped = Provider.moduleConfigs p
  ∧ Provider.d_config dumped = Provider.config p
  ∧ Provider.d_status dumped = Provider.status p.

(** C9. A dump that succeeds holds: the configs of the modules of the graph,
    sorted by name; the resolved workflow configs, sorted by name; the
    resolved providers, one by one in the order of [Object.values], each
    with its name, dependencies, module configs, config and status and
    without its [tools]; and the environment name, the namespace, the
    variables, the project root and the project id of the orchestrator. *)
Theorem dumpConfig_contents (includeDisabled : bool) (g g' : Garden)
    (d : ConfigDump) :
  dumpConfig includeDisabled g = (Return d, g') →
  ∃ graph modules g1 workflowConfigs g2 providers,
    getConfigGraph g = (Return (graph, modules), g1)
    ∧ getWorkflowConfigs None g1 = (Return workflowConfigs, g2)
    ∧ resolveProviders false None g2 = (Return providers, g')
    ∧ Sorted (leBy ModuleConfig.name) (dump_moduleConfigs d)
    ∧ dump_moduleConfigs d
      ≡ₚ map Module._config (getModules graph modules includeDisabled)
    ∧ Sorted (leBy WorkflowConfig.name) (dump_workflowConfigs d)
    ∧ dump_workflowConfigs d ≡ₚ workflowConfigs
    ∧ Forall2 dumpedFrom (dump_providers d) (objValues providers)
    ∧ dump_environmentName d = environmentName g
    ∧ dump_namespace d = namespace g
    ∧ dump_variables d = variables g
    ∧ dump_projectRoot d = projectRoot g
    ∧ dump_projectId d = projectId g.
Proof.
  unfold dumpConfig, bind, get, ret.
  assert (Preserves project getConfigGraph) as Hg1
    by (apply getConfigGraph_preserves; done).
  assert (Preserves project (getWorkflowConfigs None)) as Hg2
    by (apply getWorkflowConfigs_preserves; done).
  assert (Preserves project (resolveProviders false None)) as Hg3
    by (apply resolveProviders_preserves; done).
  specialize (Hg1 g).
  destruct (getConfigGraph g) as [[[graph modules]|e] g1] eqn:E1; [|done].
  specialize (Hg2 g1).
  destruct (getWorkflowConfigs None g1) as [[workflowConfigs|e] g2] eqn:E2;
    [|done].
  specialize (Hg3 g2).
  destruct (resolveProviders false None g2) as [[providers|e] g3] eqn:E3;
    [|done].
  intros [= <- <-]. simpl in *.
  assert (project g3 = project g) as [= ? ? ? ? ?] by congruence.
  exists graph, modules, g1, workflowConfigs, g2, providers. simpl.
  split_and!; try done.
  - apply sortBy_Sorted.
  - apply sortBy_Permutation.
  - apply sortBy_Sorted.
  - apply sortBy_Permutation.
  - induction (objValues providers) as [|p ps IH]; simpl; constructor;
      [by unfold dumpedFrom, omitTools|done].
Qed.

End Dump.

(** ** Examples *)

Section Examples.

Definition plain : Demo.Scenario := Demo.mkScenario [] [] [] [] false [].

(** *** A provider that fails to resolve *)

Definition k8sDown : Demo.Scenario :=
  Demo.mkScenario [] [("k8s", "cluster unreachable")] [] [] false [].

Definition k8sConfig : ProviderConfig.t := ProviderConfig.mk "k8s" [].
Definition localConfig : ProviderConfig.t := ProviderConfig.mk "local" [].

Definition twoProviders : Garden := Demo.garden [] [k8sConfig; localConfig].

Definition twoPlugins : list GardenPlugin.t :=
  [GardenPlugin.mk "k8s" []; GardenPlugin.mk "local" []].

Definition twoProvidersLoaded : Garden :=
  setLoadedPlugins (Some twoPlugins) twoProviders.

Definition twoProvidersGraph : DependencyValidationGraph.t :=
  DependencyValidationGraph.mk ["k8s"; "local"] [].

Definition k8sDownResults : TaskResults Provider.t :=
  [("resolve-provider.k8s",
    Some (TaskResult.mk "k8s" None (Some "cluster unreachable")));
   ("resolve-provider.local",
    Some (TaskResult.mk "local" (Some (Demo.providerOf localConfig)) None))].

Lemma twoProviders_reach scenario :
  ReachesCycleCheck (H := Demo.collaborators scenario) None twoProviders
    [k8sConfig; localConfig] twoPlugins twoProvidersLoaded twoProvidersGraph.
Proof. repeat split. vm_compute. discriminate. Qed.


(** *** Two providers that depend on each other *)

Definition pqPlugins : list GardenPlugin.t :=
  [GardenPlugin.mk "p" ["q"]; GardenPlugin.mk "q" ["p"]].

Definition pqConfigs : list ProviderConfig.t :=
  [ProviderConfig.mk "p" []; ProviderConfig.mk "q" []].

Definition pq : Garden := Demo.garden pqPlugins pqConfigs.

Definition pqLoaded : Garden := setLoadedPlugins (Some pqPlugins) pq.

Definition pqGraph : DependencyValidationGraph.t :=
  DependencyValidationGraph.mk ["p"; "q"] [("p", "q"); ("q", "p")].

Lemma pq_reach :
  ReachesCycleCheck (H := Demo.collaborators plain) None pq pqConfigs
    pqPlugins pqLoaded pqGraph.
Proof. repeat split. vm_compute. discriminate. Qed.



(** *** Two modules that depend on each other *)

Definition webApiCycle : Demo.Scenario :=
  Demo.mkScenario
    [ModuleResource (Demo.moduleConfig "web" "web" ["api"]);
     ModuleResource (Demo.moduleConfig "api" "api" ["web"])]
    [] [[["resolve-module.web"; "resolve-module.api"]]] [] false [].

Definition oneProvider : Garden := Demo.garden [] [k8sConfig].

Definition oneProviderResolved : Garden :=
  (resolveProviders (H := Demo.collaborators webApiCycle) false None
     oneProvider).2.

Definition oneProviderScanned : Garden :=
  (getRawModuleConfigs (H := Demo.collaborators webApiCycle) None
     oneProviderResolved).2.

Lemma webApiCycle_reach :
  ReachesModuleTasks (H := Demo.collaborators webApiCycle) oneProvider
    [("k8s", Demo.providerOf k8sConfig)] oneProviderResolved
    [Demo.moduleConfig "web" "web" ["api"];
     Demo.moduleConfig "api" "api" ["web"]]
    oneProviderScanned.
Proof. split; vm_compute; reflexivity. Qed.

Lemma getConfigGraph_circular_module_names_witness :
  (getConfigGraph (H := Demo.collaborators webApiCycle) oneProvider).1
  = Throw (ConfigurationError
             ("Detected one or more circular dependencies between module "
                +:+ "configurations:" +:+ nl +:+ nl +:+ "web,api")
             (DetailCycles [[[Some "web"; Some "api"]]])).
Proof.
  refine (f_equal fst
            (getConfigGraph_circular_module_names
               (H := Demo.collaborators webApiCycle) oneProvider
               oneProviderResolved oneProviderScanned
               [("k8s", Demo.providerOf k8sConfig)]
               [Demo.moduleConfig "web" "web" ["api"];
                Demo.moduleConfig "api" "api" ["web"]]
               "Circular task dependencies detected"
               [[[("resolve-module", "web"); ("resolve-module", "api")]]]
               _ _ _)).
  - apply webApiCycle_reach.
  - repeat constructor.
  - reflexivity.
Defined.


End Examples.

Section AugmentationExamples.

Definition webModuleConfig : ModuleConfig.t := Demo.moduleConfig "web" "web" [].

(** The "k8s" plugin adds a build dependency by "web" on a module that does
    not exist. *)
Definition missingOn (strict : bool) : Demo.Scenario :=
  Demo.mkScenario [ModuleResource webModuleConfig] [] []
    [("k8s",
      AugmentGraphResult.mk [Dependency.mk "web" "missing-module"] [] [])]
    strict [].

(** The "k8s" plugin adds a build dependency by a module that does not
    exist. *)
Definition missingBy : Demo.Scenario :=
  Demo.mkScenario [ModuleResource webModuleConfig] [] []
    [("k8s", AugmentGraphResult.mk [Dependency.mk "worker" "web"] [] [])]
    false [].

Definition k8sGarden : Garden :=
  Demo.garden [GardenPlugin.mk "k8s" []] [k8sConfig].

(** C1 fails on the code: with "web" resolved and "missing-module" not, the
    augmentation accepts the dependency. The run then fails with a
    [ConfigurationError] that names "web" and "missing-module" and not the
    plugin: the one of the last pass of [getConfigGraph] when the config
    graph lets the target through, the one of the config graph when it
    checks the targets itself. *)
Lemma missing_on_is_not_PluginError :
  (getConfigGraph (H := Demo.collaborators (missingOn false)) k8sGarden).1
  = Throw (ConfigurationError
             ("Module web specifies build dependency missing-module which "
                +:+ "cannot be found.")
             (DetailDependencyName "missing-module"))
  ∧ (getConfigGraph (H := Demo.collaborators (missingOn true)) k8sGarden).1
    = Throw (ConfigurationError
               "Unknown module(s) in build dependencies: missing-module"
               DetailNone)
  ∧ addBuildDependencies "k8s" [Demo.moduleOf (missingOn false) webModuleConfig]
      [Dependency.mk "web" "missing-module"]
    = Return
        [Module.mk (Demo.moduleConfig "web" "web" ["missing-module"])
           (ModuleVersion.mk "v-web" [] []) [] webModuleConfig].
Proof. split_and!; vm_compute; reflexivity. Qed.

End AugmentationExamples.

Section MoreExamples.

Definition webModule : Module.t := Demo.moduleOf missingBy webModuleConfig.

Lemma augment_build_dependency_by_witness :
  augment (H := Demo.collaborators missingBy)
    [("k8s", Demo.providerOf k8sConfig)] () ([webModule], None)
    (Demo.providerOf k8sConfig) k8sGarden
  = (Throw (PluginError
              ("Provider 'k8s' added a build dependency by module 'worker' "
                 +:+ "on 'web' but module 'worker' could not be found.")
              (DetailDependency "k8s" "worker" "web")),
     k8sGarden).
Proof.
  refine (proj1 (augment_build_dependency_by
                   (H := Demo.collaborators missingBy)
                   [("k8s", Demo.providerOf k8sConfig)] () [webModule]
                   [webModule] None (Demo.providerOf k8sConfig) k8sGarden
                   (AugmentGraphResult.mk [Dependency.mk "worker" "web"] [] [])
                   [] [] (Dependency.mk "worker" "web") _ _ _ _ _ _ _)).
  - reflexivity.
  - right. eexists. reflexivity.
  - reflexivity.
  - reflexivity.
  - reflexivity.
  - constructor.
  - reflexivity.
Defined.

(** The same plugin error at the level of [getConfigGraph]. *)
Example getConfigGraph_missing_by :
  (getConfigGraph (H := Demo.collaborators missingBy) k8sGarden).1
  = Throw (PluginError
             ("Provider 'k8s' added a build dependency by module 'worker' "
                +:+ "on 'web' but module 'worker' could not be found.")
             (DetailDependency "k8s" "worker" "web")).
Proof. vm_compute. reflexivity. Qed.

(** *** A project that dumps *)

Definition shop : Demo.Scenario :=
  Demo.mkScenario
    [ModuleResource (Demo.moduleConfig "web" "web" ["api"]);
     WorkflowResource (WorkflowConfig.mk "release" "workflows" ["deploy"]);
     ModuleResource (Demo.moduleConfig "api" "api" []);
     WorkflowResource (WorkflowConfig.mk "build" "workflows" ["build"])]
    [] [] [] false [].

Definition shopDump : ConfigDump :=
  match (dumpConfig (H := Demo.collaborators shop) false k8sGarden).1 with
  | Return d => d
  | Throw _ => mkConfigDump "" None [] [] [] [] "" None
  end.

Definition shopDumped : Garden :=
  (dumpConfig (H := Demo.collaborators shop) false k8sGarden).2.

Lemma dumpConfig_contents_witness :
  Sorted (leBy ModuleConfig.name) (dump_moduleConfigs shopDump)
  ∧ Sorted (leBy WorkflowConfig.name) (dump_workflowConfigs shopDump)
  ∧ map ModuleConfig.name (dump_moduleConfigs shopDump) = ["api"; "web"]
  ∧ map WorkflowConfig.name (dump_workflowConfigs shopDump)
    = ["build"; "release"]
  ∧ dump_providers shopDump
    = [Provider.mkDump "k8s" [] [] k8sConfig (Provider.mkStatus true false)]
  ∧ dump_projectRoot shopDump = projectRoot k8sGarden.
Proof.
  destruct (dumpConfig_contents (H := Demo.collaborators shop) false k8sGarden
              shopDumped shopDump)
    as (graph & modules & g1 & workflowConfigs & g2 & providers & _ & _ & _
        & Hm & _ & Hw & _ & _ & _ & _ & _ & Hroot & _).
  - vm_compute. reflexivity.
  - split_and!; [exact Hm|exact Hw|reflexivity..|exact Hroot].
Defined.

End MoreExamples.

(** * More of the orchestrator *)

(** ** Registering a batch of configs

    [addModule] and [addWorkflow] are the same registration on two
    registries; what holds of a batch is proved once, for any registration
    that throws on a taken key and appends on a free one. *)

Lemma objGet_objSet_ne {V} (o : Obj V) k k' v :
  k ≠ k' → objGet (objSet o k v) k' = objGet o k'.
Proof.
  intros Hne. induction o as [|[k0 v0] o IH]; simpl.
  - by rewrite decide_False.
  - destruct (decide (k0 = k)) as [->|Hk0]; simpl.
    + by rewrite !decide_False.
    + destruct (decide (k0 = k')); [done|apply IH].
Qed.

Lemma objSet_fresh {V} (o : Obj V) k v :
  objGet o k = None → objSet o k v = o ++ [(k, v)].
Proof.
  induction o as [|[k0 v0] o IH]; simpl; [done|].
  destruct (decide (k0 = k)); [done|]. intros Hn. by rewrite IH.
Qed.

(** A key that is not an array index is enumerated after the keys there
    were. *)
Lemma ownEntries_snoc {V} (o : Obj V) k v :
  arrayIndex k = None → ownEntries (o ++ [(k, v)]) = ownEntries o ++ [(k, v)].
Proof.
  intros Hk. unfold ownEntries, Obj in *.
  rewrite omap_app, filter_app. simpl. rewrite Hk. simpl.
  rewrite app_nil_r, filter_cons_True by done.
  by rewrite filter_nil, <- app_assoc.
Qed.

Lemma objValues_objSet_fresh {V} (o : Obj V) k v :
  objGet o k = None → arrayIndex k = None →
  objValues (objSet o k v) = objValues o ++ [v].
Proof.
  intros Hget Hk. unfold objValues.
  by rewrite (objSet_fresh _ _ _ Hget), (ownEntries_snoc _ _ _ Hk), map_app.
Qed.

Section Registration.
Context {A : Type} (key : A → string) (registry : Garden → Obj A)
  (setRegistry : Obj A → Garden → Garden) (add : A → M ()).
Hypothesis registry_set : ∀ v g, registry (setRegistry v g) = v.
Hypothesis add_taken :
  ∀ g c, is_Some (objGet (registry g) (key c)) →
         ∃ e, add c g = (Throw e, g) ∧ isConfigurationError e = true.
Hypothesis add_inherited :
  ∀ g c, objGet (registry g) (key c) = None →
         key c ∈ objectPrototypeKeys →
         ∃ e, add c g = (Throw e, g).
Hypothesis add_free :
  ∀ g c, objGet (registry g) (key c) = None →
         key c ∉ objectPrototypeKeys →
         add c g = (Return (), setRegistry (objSet (registry g) (key c) c) g).

(** The registry has no config under the key of [c] and inherits no
    property of that name. *)
Definition freeKey (g : Garden) (c : A) : Prop :=
  objGet (registry g) (key c) = None ∧ key c ∉ objectPrototypeKeys.

(** The state a batch leaves when every config of it goes in. *)
Definition registered (l : list A) (g : Garden) : Garden :=
  fold_left (fun g c => setRegistry (objSet (registry g) (key c) c) g) l g.

Lemma freeKey_after c l g :
  key c ∉ map key l → Forall (freeKey g) l →
  Forall (freeKey (setRegistry (objSet (registry g) (key c) c) g)) l.
Proof.
  intros Hc Hfree. eapply Forall_forall. intros c' Hin.
  rewrite Forall_forall in Hfree. destruct (Hfree c' Hin) as [Hget Hplain].
  split; [|done].
  rewrite registry_set, objGet_objSet_ne; [done|].
  intros Heq. apply Hc. rewrite Heq. apply list_elem_of_In, in_map.
  by apply list_elem_of_In.
Qed.

Lemma batch_accepted l g :
  NoDup (map key l) → Forall (freeKey g) l →
  bluebirdMap add l g = (Return (map (fun _ => ()) l), registered l g).
Proof.
  revert g. induction l as [|c l IH]; intros g Hnd Hfree; [done|].
  apply NoDup_cons in Hnd as [Hc Hnd].
  apply Forall_cons in Hfree as [[Hfc Hpc] Hfree].
  simpl. rewrite (add_free _ _ Hfc Hpc). rewrite IH; [done|done|].
  by apply freeKey_after.
Qed.

Lemma batch_rejected_taken l g c :
  Forall (fun c => key c ∉ objectPrototypeKeys) l →
  c ∈ l → is_Some (objGet (registry g) (key c)) →
  ∃ e, (bluebirdMap add l g).1 = Throw e ∧ isConfigurationError e = true.
Proof.
  revert g. induction l as [|x l IH]; intros g Hplain Hin Hsome.
  { by apply elem_of_nil in Hin. }
  apply Forall_cons in Hplain as [Hx Hplain]. simpl.
  destruct (objGet (registry g) (key x)) as [existing|] eqn:Hget.
  { destruct (add_taken g x) as (e & -> & He); [by rewrite Hget|]. eauto. }
  rewrite (add_free _ _ Hget Hx).
  apply elem_of_cons in Hin as [->|Hin].
  { rewrite Hget in Hsome. by destruct Hsome. }
  destruct (IH (setRegistry (objSet (registry g) (key x) x) g) Hplain Hin)
    as (e & He & Hk).
  { rewrite registry_set. by apply objGet_objSet_is_Some. }
  exists e. destruct (bluebirdMap add l _) as [[bs|e'] g2];
    simpl in *; [discriminate|]. by simplify_eq.
Qed.

Lemma batch_returns_inv l g rs g' :
  bluebirdMap add l g = (Return rs, g') →
  NoDup (map key l) ∧ Forall (freeKey g) l.
Proof.
  revert g rs g'. induction l as [|c l IH]; intros g rs g' Hrun.
  { split; constructor. }
  simpl in Hrun.
  destruct (objGet (registry g) (key c)) as [existing|] eqn:Hget.
  { destruct (add_taken g c) as (e & He & _); [by rewrite Hget|].
    by rewrite He in Hrun. }
  destruct (decide (key c ∈ objectPrototypeKeys)) as [Hproto|Hplain].
  { destruct (add_inherited g c Hget Hproto) as (e & He).
    by rewrite He in Hrun. }
  rewrite (add_free _ _ Hget Hplain) in Hrun.
  set (g1 := setRegistry _ g) in Hrun.
  destruct (bluebirdMap add l g1) as [[bs|e] g2] eqn:Hrest; [|done].
  destruct (IH _ _ _ Hrest) as [Hnd Hfree].
  assert (∀ c', c' ∈ l → key c' ≠ key c) as Hne.
  { intros c' Hin Heq.
    rewrite Forall_forall in Hfree. destruct (Hfree c' Hin) as [Hfree' _].
    unfold g1 in Hfree'.
    by rewrite registry_set, Heq, objGet_objSet in Hfree'. }
  split.
  - simpl. apply NoDup_cons. split; [|done].
    intros Hin. apply list_elem_of_In, in_map_iff in Hin as (c' & Heq & Hin).
    apply (Hne c'); [by apply list_elem_of_In|done].
  - apply Forall_cons. split; [done|].
    apply Forall_forall. intros c' Hin.
    rewrite Forall_forall in Hfree. destruct (Hfree c' Hin) as [Hfree' Hp].
    split; [|done]. unfold g1 in *.
    rewrite registry_set, objGet_objSet_ne in Hfree'; [done|].
    intros Heq. by apply (Hne c').
Qed.

Lemma registered_values l g :
  NoDup (map key l) → Forall (freeKey g) l →
  Forall (fun c => arrayIndex (key c) = None) l →
  objValues (registry (registered l g)) = objValues (registry g) ++ l.
Proof.
  revert g. induction l as [|c l IH]; intros g Hnd Hfree Hnamed; simpl.
  { by rewrite app_nil_r. }
  apply NoDup_cons in Hnd as [Hc Hnd].
  apply Forall_cons in Hnamed as [Hnc Hnamed].
  pose proof (freeKey_after c l g Hc) as Hafter.
  apply Forall_cons in Hfree as [[Hfc Hpc] Hfree].
  rewrite IH; [|done|by apply Hafter|done].
  rewrite registry_set, (objValues_objSet_fresh _ _ _ Hfc Hnc).
  by rewrite <- app_assoc.
Qed.

Lemma registered_lookup l g c :
  NoDup (map key l) → c ∈ l →
  objGet (registry (registered l g)) (key c) = Some c.
Proof.
  revert g. induction l as [|x l IH]; intros g Hnd Hin.
  { by apply elem_of_nil in Hin. }
  apply NoDup_cons in Hnd as [Hx Hnd]. simpl.
  apply elem_of_cons in Hin as [->|Hin]; [|by apply IH].
  clear IH. set (g1 := setRegistry _ g).
  assert (objGet (registry g1) (key x) = Some x) as Hg1.
  { unfold g1. by rewrite registry_set, objGet_objSet. }
  clearbody g1. revert g1 Hg1.
  induction l as [|y l IH]; intros g1 Hg1; [done|]. simpl.
  simpl in Hnd, Hx. apply NoDup_cons in Hnd as [_ Hnd].
  assert (key x ∉ map key l) as Hx'.
  { intros Hin. apply Hx, elem_of_cons. by right. }
  apply IH; try done.
  rewrite registry_set, objGet_objSet_ne; [done|].
  intros Heq. apply Hx, elem_of_cons. by left.
Qed.

End Registration.

(** ** The two registries *)

Section Registries.
Context `{Collaborators}.

(** [hasModule]: the registry is read under the name as it is given; what
    it finds, own or inherited, is truthy. *)
Definition hasModule (name : string) (g : Garden) : bool :=
  match objRead (moduleConfigs g) name with
  | Own _ | Inherited => true
  | Undefined => false
  end.

Lemma addWorkflow_existing g c existing :
  objGet (workflowConfigs g) (WorkflowConfig.name c) = Some existing →
  addWorkflow c g
  = (Throw (duplicateError g "Workflow" (WorkflowConfig.name c)
              (WorkflowConfig.path existing) (WorkflowConfig.path c)), g).
Proof.
  intros Hget. unfold addWorkflow, bind, get.
  by rewrite (objRead_own _ _ _ Hget).
Qed.

Lemma addWorkflow_inherited g c :
  objGet (workflowConfigs g) (WorkflowConfig.name c) = None →
  WorkflowConfig.name c ∈ objectPrototypeKeys →
  addWorkflow c g = (Throw undefinedPathError, g).
Proof.
  intros Hget Hk. unfold addWorkflow, bind, get.
  by rewrite (objRead_inherited _ _ Hget Hk).
Qed.

Lemma addWorkflow_fresh g c :
  objGet (workflowConfigs g) (WorkflowConfig.name c) = None →
  WorkflowConfig.name c ∉ objectPrototypeKeys →
  addWorkflow c g
  = (Return (),
     setWorkflowConfigs (objSet (workflowConfigs g) (WorkflowConfig.name c) c)
       g).
Proof.
  intros Hget Hk. unfold addWorkflow, bind, get, modify.
  by rewrite (objRead_undefined _ _ Hget Hk).
Qed.

Lemma addModule_taken g c :
  is_Some (objGet (moduleConfigs g) (configKey c)) →
  ∃ e, addModule c g = (Throw e, g) ∧ isConfigurationError e = true.
Proof.
  intros [existing Hget]. rewrite (addModule_existing _ _ _ Hget).
  eexists. split; [done|]. apply duplicateError_isConfigurationError.
Qed.

Lemma addWorkflow_taken g c :
  is_Some (objGet (workflowConfigs g) (WorkflowConfig.name c)) →
  ∃ e, addWorkflow c g = (Throw e, g) ∧ isConfigurationError e = true.
Proof.
  intros [existing Hget]. rewrite (addWorkflow_existing _ _ _ Hget).
  eexists. split; [done|]. apply duplicateError_isConfigurationError.
Qed.

Lemma addModule_inherited_throws g c :
  objGet (moduleConfigs g) (configKey c) = None →
  configKey c ∈ objectPrototypeKeys →
  ∃ e, addModule c g = (Throw e, g).
Proof. intros Hget Hk. eexists. by apply addModule_inherited. Qed.

Lemma addWorkflow_inherited_throws g c :
  objGet (workflowConfigs g) (WorkflowConfig.name c) = None →
  WorkflowConfig.name c ∈ objectPrototypeKeys →
  ∃ e, addWorkflow c g = (Throw e, g).
Proof. intros Hget Hk. eexists. by apply addWorkflow_inherited. Qed.

(** X1. A workflow config whose name is already taken is rejected with a
    [ConfigurationError] that names the config file paths of the two
    workflows, relative to the project root, in sorted order; the registry
    is left as it was. *)
Theorem addWorkflow_duplicate (g : Garden) (c1 c2 : WorkflowConfig.t) :
  objGet (workflowConfigs g) (WorkflowConfig.name c2) = Some c1 →
  ∃ pathA pathB,
    addWorkflow c2 g
    = (Throw (ConfigurationError
                ("Workflow " +:+ WorkflowConfig.name c2
                   +:+ " is declared multiple times (in '" +:+ pathA
                   +:+ "' and '" +:+ pathB +:+ "')")
                (DetailPaths pathA pathB)), g)
    ∧ String.le pathA pathB
    ∧ [pathA; pathB]
      ≡ₚ [relative (projectRoot g) (getConfigFilePath (WorkflowConfig.path c1));
           relative (projectRoot g)
             (getConfigFilePath (WorkflowConfig.path c2))].
Proof.
  intros Hget. rewrite (addWorkflow_existing _ _ _ Hget).
  destruct (duplicateError_spec g "Workflow" (WorkflowConfig.name c2)
              (WorkflowConfig.path c1) (WorkflowConfig.path c2))
    as (pA & pB & -> & Hle & Hp).
  by exists pA, pB.
Qed.

(** X2. A module config is registered under its key when the registry
    holds no config under that key and the key names no property that the
    registry inherits from [Object.prototype]: [hasModule], false for the
    key before, finds it afterwards, the config is what the registry holds
    for the key, and no other key is affected. Unless the key is an array
    index, the config comes last in the order of [Object.values]. *)
Theorem addModule_registers (g : Garden) (c : ModuleConfig.t) :
  objGet (moduleConfigs g) (configKey c) = None →
  configKey c ∉ objectPrototypeKeys →
  ∃ g',
    addModule c g = (Return (), g')
    ∧ objGet (moduleConfigs g') (configKey c) = Some c
    ∧ hasModule (configKey c) g = false
    ∧ hasModule (configKey c) g' = true
    ∧ (arrayIndex (configKey c) = None →
       objValues (moduleConfigs g') = objValues (moduleConfigs g) ++ [c])
    ∧ ∀ k, k ≠ configKey c →
           objGet (moduleConfigs g') k = objGet (moduleConfigs g) k.
Proof.
  intros Hfree Hplain. rewrite (addModule_fresh _ _ Hfree Hplain). eexists.
  split; [done|]. simpl. unfold hasModule. simpl.
  rewrite (objRead_undefined _ _ Hfree Hplain).
  rewrite (objRead_own _ _ c) by apply objGet_objSet.
  rewrite objGet_objSet. split_and!; [done|done|done|..].
  - by apply objValues_objSet_fresh.
  - intros k Hk. by apply objGet_objSet_ne.
Qed.

(** X3. A batch of module configs goes into the registry exactly when the
    keys of the batch are pairwise distinct, none of them is registered
    yet and none of them names a property that the registry inherits from
    [Object.prototype]. The registry then holds each config of the batch
    under its key and, when no key of the batch is an array index, lists
    the configs of the batch after the ones it held, in the order of the
    batch. *)
Theorem addModule_batch (l : list ModuleConfig.t) (g : Garden) :
  ((∃ rs g', bluebirdMap addModule l g = (Return rs, g'))
   ↔ NoDup (map configKey l)
     ∧ Forall (fun c => objGet (moduleConfigs g) (configKey c) = None
                        ∧ configKey c ∉ objectPrototypeKeys) l)
  ∧ (∀ rs g',
       bluebirdMap addModule l g = (Return rs, g') →
       (∀ c, c ∈ l → objGet (moduleConfigs g') (configKey c) = Some c)
       ∧ (Forall (fun c => arrayIndex (configKey c) = None) l →
          objValues (moduleConfigs g') = objValues (moduleConfigs g) ++ l)).
Proof.
  assert (∀ rs g', bluebirdMap addModule l g = (Return rs, g') →
            NoDup (map configKey l)
            ∧ Forall (freeKey configKey moduleConfigs g) l) as Hinv.
  { intros rs g'.
    apply (batch_returns_inv configKey moduleConfigs setModuleConfigs
             addModule (fun _ _ => eq_refl) addModule_taken
             addModule_inherited_throws addModule_fresh). }
  split; [split|].
  - intros (rs & g' & Hrun). by apply (Hinv rs g').
  - intros [Hnd Hfree]. eexists _, _.
    by apply (batch_accepted configKey moduleConfigs setModuleConfigs
                addModule (fun _ _ => eq_refl) addModule_fresh).
  - intros rs g' Hrun. destruct (Hinv _ _ Hrun) as [Hnd Hfree].
    rewrite (batch_accepted configKey moduleConfigs setModuleConfigs
               addModule (fun _ _ => eq_refl) addModule_fresh _ _ Hnd Hfree)
      in Hrun.
    injection Hrun as _ <-. split.
    + intros c Hin.
      by apply (registered_lookup configKey moduleConfigs setModuleConfigs
                  (fun _ _ => eq_refl)).
    + intros Hnamed.
      by apply (registered_values configKey moduleConfigs setModuleConfigs
                  (fun _ _ => eq_refl)).
Qed.

End Registries.

(** ** Scanning *)

Section Scanning.
Context `{Collaborators}.

Definition modulesRegistered (l : list ModuleConfig.t) (g : Garden) : Garden :=
  registered configKey moduleConfigs setModuleConfigs l g.

Definition workflowsRegistered (l : list WorkflowConfig.t) (g : Garden)
  : Garden :=
  registered WorkflowConfig.name workflowConfigs setWorkflowConfigs l g.

Lemma modulesRegistered_workflowConfigs l g :
  workflowConfigs (modulesRegistered l g) = workflowConfigs g.
Proof.
  revert g. induction l as [|c l IH]; intros g; [done|].
  unfold modulesRegistered in *. simpl. by rewrite IH.
Qed.

Lemma workflowsRegistered_moduleConfigs l g :
  moduleConfigs (workflowsRegistered l g) = moduleConfigs g.
Proof.
  revert g. induction l as [|c l IH]; intros g; [done|].
  unfold workflowsRegistered in *. simpl. by rewrite IH.
Qed.

Lemma modulesRegistered_configsScanned l g :
  configsScanned (modulesRegistered l g) = configsScanned g.
Proof.
  revert g. induction l as [|c l IH]; intros g; [done|].
  unfold modulesRegistered in *. simpl. by rewrite IH.
Qed.

(** X4. A scan that runs (the configs are not scanned yet, or the scan is
    forced) and finds module configs with pairwise distinct, unregistered
    keys and workflow configs with pairwise distinct, unregistered names,
    none of them the name of a property of [Object.prototype] or an array
    index, returns; it registers the plugin module configs and then the
    module configs found, in the order they were found, and the workflow
    configs likewise, and marks the configs as scanned. From then on
    [getRawModuleConfigs] returns the registered configs without scanning,
    and an unforced scan does nothing. *)
Theorem scanAndAddConfigs_registers (force : bool) (g : Garden)
    (resources : list Resource) :
  configsScanned g && negb force = false →
  loadScannedResources g = Return resources →
  let raw := pluginModuleConfigs g ++ moduleResources resources in
  let flows := workflowResources resources in
  throwOnMissingSecretKeys _
    (fromPairs (map (fun c => (ModuleConfig.name c, c)) raw))
    (secrets g) "Module" = Return () →
  throwOnMissingSecretKeys _
    (fromPairs (map (fun c => (WorkflowConfig.name c, c)) flows))
    (secrets g) "Workflow" = Return () →
  NoDup (map configKey raw) →
  Forall (fun c => objGet (moduleConfigs g) (configKey c) = None
                   ∧ configKey c ∉ objectPrototypeKeys) raw →
  Forall (fun c => arrayIndex (configKey c) = None) raw →
  NoDup (map WorkflowConfig.name flows) →
  Forall (fun c => objGet (workflowConfigs g) (WorkflowConfig.name c) = None
                   ∧ WorkflowConfig.name c ∉ objectPrototypeKeys) flows →
  Forall (fun c => arrayIndex (WorkflowConfig.name c) = None) flows →
  ∃ g',
    scanAndAddConfigs force g = (Return (), g')
    ∧ configsScanned g' = true
    ∧ objValues (moduleConfigs g') = objValues (moduleConfigs g) ++ raw
    ∧ objValues (workflowConfigs g') = objValues (workflowConfigs g) ++ flows
    ∧ getRawModuleConfigs None g'
      = (Return (objValues (moduleConfigs g) ++ raw), g')
    ∧ scanAndAddConfigs false g' = (Return (), g').
Proof.
  intros Hscan Hload raw flows Hs1 Hs2 Hnd Hfree Hnamed Hndw Hfreew Hnamedw.
  exists (setConfigsScanned true
            (workflowsRegistered flows (modulesRegistered raw g))).
  assert (Forall (freeKey WorkflowConfig.name workflowConfigs
                    (modulesRegistered raw g)) flows) as Hfreew'.
  { unfold freeKey. by rewrite modulesRegistered_workflowConfigs. }
  assert (scanAndAddConfigs force g
          = (Return (),
             setConfigsScanned true
               (workflowsRegistered flows (modulesRegistered raw g)))) as Hrun.
  { unfold scanAndAddConfigs, bind, get, lift, bluebirdAll2.
    rewrite Hscan, Hload. fold raw flows. rewrite Hs1, Hs2.
    rewrite (batch_accepted configKey moduleConfigs setModuleConfigs
               addModule (fun _ _ => eq_refl) addModule_fresh _ _ Hnd Hfree).
    fold (modulesRegistered raw g).
    by rewrite (batch_accepted WorkflowConfig.name workflowConfigs
                  setWorkflowConfigs addWorkflow (fun _ _ => eq_refl)
                  addWorkflow_fresh _ _ Hndw Hfreew'). }
  assert (objValues
            (moduleConfigs (workflowsRegistered flows (modulesRegistered raw g)))
          = objValues (moduleConfigs g) ++ raw) as Hvalues.
  { rewrite workflowsRegistered_moduleConfigs.
    by apply (registered_values configKey moduleConfigs setModuleConfigs
                (fun _ _ => eq_refl)). }
  split_and!; [done|done|done| |..].
  - change (workflowConfigs (setConfigsScanned true ?g))
      with (workflowConfigs g).
    unfold workflowsRegistered.
    rewrite (registered_values WorkflowConfig.name workflowConfigs
               setWorkflowConfigs (fun _ _ => eq_refl) _ _ Hndw Hfreew'
               Hnamedw).
    by rewrite modulesRegistered_workflowConfigs.
  - unfold getRawModuleConfigs, bind, get, ret. simpl. by rewrite Hvalues.
  - done.
Qed.

(** X5. A scan that runs and finds a module config whose key is already
    registered, among module configs and workflow configs none of which is
    keyed by the name of a property of [Object.prototype], throws a
    [ConfigurationError] and leaves the scanned mark as it was: the
    registry is not cleared before a scan, so a forced scan that finds a
    module of the scan before fails. *)
Theorem scanAndAddConfigs_registered_key (force : bool) (g : Garden)
    (resources : list Resource) (c : ModuleConfig.t) :
  configsScanned g && negb force = false →
  loadScannedResources g = Return resources →
  let raw := pluginModuleConfigs g ++ moduleResources resources in
  throwOnMissingSecretKeys _
    (fromPairs (map (fun c => (ModuleConfig.name c, c)) raw))
    (secrets g) "Module" = Return () →
  throwOnMissingSecretKeys _
    (fromPairs (map (fun c => (WorkflowConfig.name c, c))
                  (workflowResources resources)))
    (secrets g) "Workflow" = Return () →
  Forall (fun c => configKey c ∉ objectPrototypeKeys) raw →
  Forall (fun w => WorkflowConfig.name w ∉ objectPrototypeKeys)
    (workflowResources resources) →
  c ∈ raw →
  is_Some (objGet (moduleConfigs g) (configKey c)) →
  ∃ e g', scanAndAddConfigs force g = (Throw e, g')
          ∧ isConfigurationError e = true
          ∧ configsScanned g' = configsScanned g.
Proof.
  intros Hscan Hload raw Hs1 Hs2 Hplain _ Hin Hsome.
  destruct (bluebirdMap_addModule_registered raw g c Hplain Hin Hsome)
    as (e & He & Hce).
  unfold scanAndAddConfigs, bind, get, lift, bluebirdAll2.
  rewrite Hscan, Hload. fold raw. rewrite Hs1, Hs2.
  assert (Preserves configsScanned (bluebirdMap addModule raw)) as Hm.
  { apply preserves_bluebirdMap. intros c'. by apply addModule_preserves. }
  assert (∀ l, Preserves configsScanned (bluebirdMap addWorkflow l)) as Hw.
  { intros l. apply preserves_bluebirdMap. intros c'.
    by apply addWorkflow_preserves. }
  specialize (Hm g).
  destruct (bluebirdMap addModule raw g) as [[bs|e'] g1];
    simpl in *; [discriminate|]. simplify_eq.
  eexists _, _. split; [done|]. split; [done|].
  by rewrite Hw.
Qed.

End Scanning.

(** ** What every method keeps

    [Steps R m]: the state [m] leaves is related by [R] to the state it was
    run in, whether [m] returns or throws. *)

Definition Steps {A} (R : Garden → Garden → Prop) (m : M A) : Prop :=
  ∀ g, R g (m g).2.

Create HintDb steps discriminated.

Section StepsRules.
Context (R : Garden → Garden → Prop) `{!Reflexive R, !Transitive R}.

Lemma steps_ret {A} (a : A) : Steps R (ret a).
Proof. intros g. simpl. done. Qed.

Lemma steps_throw {A} e : Steps R (throw (A := A) e).
Proof. intros g. simpl. done. Qed.

Lemma steps_lift {A} (r : Result A) : Steps R (lift r).
Proof. intros g. simpl. done. Qed.

Lemma steps_get : Steps R get.
Proof. intros g. simpl. done. Qed.

Lemma steps_modify f : (∀ g, R g (f g)) → Steps R (modify f).
Proof. intros Hf g. apply Hf. Qed.

Lemma steps_bind {A B} (m : M A) (k : A → M B) :
  Steps R m → (∀ a, Steps R (k a)) → Steps R (bind m k).
Proof.
  intros Hm Hk g. unfold bind. specialize (Hm g).
  destruct (m g) as [[a|e] g']; simpl in *; [|done].
  by etrans; [|apply Hk].
Qed.

Lemma steps_tryCatch {A} (m : M A) h :
  Steps R m → (∀ e, Steps R (h e)) → Steps R (tryCatch m h).
Proof.
  intros Hm Hh g. unfold tryCatch. specialize (Hm g).
  destruct (m g) as [[a|e] g']; simpl in *; [done|].
  by etrans; [|apply Hh].
Qed.

Lemma steps_bluebirdMap {A B} (f : A → M B) l :
  (∀ x, Steps R (f x)) → Steps R (bluebirdMap f l).
Proof.
  intros Hf. induction l as [|x l IH]; intros g; simpl; [done|].
  specialize (Hf x g). destruct (f x g) as [[b|e] g1]; simpl in *.
  - specialize (IH g1).
    destruct (bluebirdMap f l g1) as [[bs|e] g2]; simpl in *; by etrans.
  - by etrans; [|apply IH].
Qed.

Lemma steps_bluebirdAll2 {A B} (p : M A) (q : M B) :
  Steps R p → Steps R q → Steps R (bluebirdAll2 p q).
Proof.
  intros Hp Hq g. unfold bluebirdAll2. specialize (Hp g).
  destruct (p g) as [[a|e] g1]; simpl in *.
  - specialize (Hq g1). destruct (q g1) as [[b|e] g2]; simpl in *; by etrans.
  - by etrans; [|apply Hq].
Qed.

(** Each mapper of a batch that returns has returned, from a state the
    batch had reached, to a state the batch went on from. *)
Lemma bluebirdMap_returns_each {A B} (f : A → M B) l g rs g' x :
  (∀ x, Steps R (f x)) →
  bluebirdMap f l g = (Return rs, g') → x ∈ l →
  ∃ gi r gi', R g gi ∧ f x gi = (Return r, gi') ∧ R gi' g'.
Proof.
  intros Hf. revert g rs. induction l as [|y l IH]; intros g rs Hrun Hin.
  { by apply elem_of_nil in Hin. }
  simpl in Hrun. pose proof (Hf y g) as Hy.
  destruct (f y g) as [[b|e] g1] eqn:Hfy; [|done]. simpl in Hy.
  pose proof (steps_bluebirdMap f l Hf g1) as Hrest.
  destruct (bluebirdMap f l g1) as [[bs|e] g2] eqn:Hl; [|done].
  simpl in Hrest. injection Hrun as <- <-.
  apply elem_of_cons in Hin as [->|Hin].
  - exists g, b, g1. done.
  - destruct (IH _ _ Hl Hin) as (gi & r & gi' & H1 & H2 & H3).
    exists gi, r, gi'. split; [by etrans|done].
Qed.

End StepsRules.

Ltac steps_step :=
  first
    [ solve [eauto with steps]
    | progress cbv zeta
    | solve [apply steps_ret; typeclasses eauto]
    | solve [apply steps_throw; typeclasses eauto]
    | solve [apply steps_lift; typeclasses eauto]
    | solve [apply steps_get; typeclasses eauto]
    | apply steps_bind; try typeclasses eauto; [|intros ?]
    | apply steps_tryCatch; try typeclasses eauto; [|intros ?]
    | apply steps_bluebirdAll2; try typeclasses eauto
    | apply steps_bluebirdMap; try typeclasses eauto; intros ?
    | apply steps_modify; intros ?; solve [eauto with steps]
    | match goal with
      | |- Steps _ (match ?x with _ => _ end) => destruct x
      | |- Steps _ (let (_, _) := ?x in _) => destruct x
      end ].

Ltac steps := repeat steps_step.

(** The registries only grow: a registered module or workflow config stays
    registered as it is, loaded plugins stay loaded, scanned configs stay
    scanned, a resolved provider stays resolved, a cached version stays
    cached, and the record of the calls made is only added to. *)
Definition Grows (g g' : Garden) : Prop :=
  (∀ k c, objGet (moduleConfigs g) k = Some c →
          objGet (moduleConfigs g') k = Some c)
  ∧ (∀ k c, objGet (workflowConfigs g) k = Some c →
            objGet (workflowConfigs g') k = Some c)
  ∧ (∀ plugins, loadedPlugins g = Some plugins →
                loadedPlugins g' = Some plugins)
  ∧ (configsScanned g = true → configsScanned g' = true)
  ∧ (∀ name, is_Some (resolvedProviders g !! name) →
             is_Some (resolvedProviders g' !! name))
  ∧ (∀ key, is_Some (cacheGet (cache g) key) →
            is_Some (cacheGet (cache g') key))
  ∧ effects g `prefix_of` effects g'.

#[export] Instance Grows_refl : Reflexive Grows.
Proof. intros g. unfold Grows. split_and!; done. Qed.

#[export] Instance Grows_trans : Transitive Grows.
Proof.
  intros g1 g2 g3 (A1 & A2 & A3 & A4 & A5 & A6 & A7)
    (B1 & B2 & B3 & B4 & B5 & B6 & B7).
  unfold Grows. split_and!; eauto. by etrans.
Qed.

Section GrowsMethods.
Context `{Collaborators}.

Lemma Grows_setConfigsScanned g : Grows g (setConfigsScanned true g).
Proof. unfold Grows. split_and!; done. Qed.

Lemma Grows_perform g e : Grows g (setEffects (effects g ++ [e]) g).
Proof. unfold Grows. split_and!; try done. simpl. by apply prefix_app_r. Qed.

Lemma Grows_cacheSet g key v contexts :
  Grows g (setCache (cacheSet (cache g) key v contexts) g).
Proof.
  unfold Grows. split_and!; try done. simpl. intros k Hk.
  unfold cacheGet, cacheSet in *. rewrite lookup_insert.
  destruct (decide (key = k)); [by eexists|done].
Qed.

Lemma registerAll_is_Some (providers : list Provider.t)
    (m : gmap string Provider.t) name :
  is_Some (m !! name) →
  is_Some (fold_left (fun m p => <[Provider.name p := p]> m) providers m
             !! name).
Proof.
  revert m. induction providers as [|p ps IH]; intros m Hm; [done|].
  simpl. apply IH. rewrite lookup_insert.
  destruct (decide (Provider.name p = name)); [by eexists|done].
Qed.

Lemma Grows_registerAll g providers :
  Grows g
    (setResolvedProviders
       (fold_left (fun m p => <[Provider.name p := p]> m) providers
          (resolvedProviders g))
       g).
Proof.
  unfold Grows. split_and!; try done. simpl. intros name.
  apply registerAll_is_Some.
Qed.

Hint Resolve Grows_setConfigsScanned Grows_perform Grows_cacheSet
  Grows_registerAll : steps.

Lemma getRawProviderConfigs_grows names :
  Steps Grows (getRawProviderConfigs names).
Proof. unfold getRawProviderConfigs. steps. Qed.
Hint Resolve getRawProviderConfigs_grows : steps.

Lemma getPlugins_grows : Steps Grows getPlugins.
Proof.
  intros g. unfold getPlugins, bind, get.
  destruct (loadedPlugins g) as [plugins|] eqn:Hl; [done|].
  pose proof (getRawProviderConfigs_state None g) as Hst.
  destruct (getRawProviderConfigs None g) as [[rawConfigs|e] g0];
    simpl in Hst; subst g0; [|done].
  unfold lift. destruct (loadPlugins _ _) as [plugins|e]; [|done].
  simpl. unfold Grows. split_and!; try done. simpl. congruence.
Qed.
Hint Resolve getPlugins_grows : steps.

Lemma addModule_grows c : Steps Grows (addModule c).
Proof.
  intros g.
  destruct (objGet (moduleConfigs g) (configKey c)) as [existing|] eqn:Hget.
  - by rewrite (addModule_existing _ _ _ Hget).
  - destruct (decide (configKey c ∈ objectPrototypeKeys)) as [Hk|Hk].
    { by rewrite (addModule_inherited _ _ Hget Hk). }
    rewrite (addModule_fresh _ _ Hget Hk). unfold Grows.
    split_and!; try done. simpl. intros k c' Hk'.
    rewrite objGet_objSet_ne; [done|]. congruence.
Qed.
Hint Resolve addModule_grows : steps.

Lemma addWorkflow_grows c : Steps Grows (addWorkflow c).
Proof.
  intros g.
  destruct (objGet (workflowConfigs g) (WorkflowConfig.name c))
    as [existing|] eqn:Hget.
  - by rewrite (addWorkflow_existing _ _ _ Hget).
  - destruct (decide (WorkflowConfig.name c ∈ objectPrototypeKeys))
      as [Hk|Hk].
    { by rewrite (addWorkflow_inherited _ _ Hget Hk). }
    rewrite (addWorkflow_fresh _ _ Hget Hk). unfold Grows.
    split_and!; try done. simpl. intros k c' Hk'.
    rewrite objGet_objSet_ne; [done|]. congruence.
Qed.
Hint Resolve addWorkflow_grows : steps.

Lemma getModuleTypesM_grows : Steps Grows getModuleTypesM.
Proof. unfold getModuleTypesM. steps. Qed.
Hint Resolve getModuleTypesM_grows : steps.

Lemma getActionRouter_grows : Steps Grows getActionRouter.
Proof. unfold getActionRouter. steps. Qed.
Hint Resolve getActionRouter_grows : steps.

Lemma scanAndAddConfigs_grows force : Steps Grows (scanAndAddConfigs force).
Proof. unfold scanAndAddConfigs. steps. Qed.
Hint Resolve scanAndAddConfigs_grows : steps.

Lemma getRawModuleConfigs_grows keys : Steps Grows (getRawModuleConfigs keys).
Proof. unfold getRawModuleConfigs. steps. Qed.
Hint Resolve getRawModuleConfigs_grows : steps.

Lemma getRawWorkflowConfigs_grows names :
  Steps Grows (getRawWorkflowConfigs names).
Proof. unfold getRawWorkflowConfigs. steps. Qed.
Hint Resolve getRawWorkflowConfigs_grows : steps.

Lemma processTasks_grows {T O} type (name : T → string)
    (process : list T → Garden → Result (TaskResults O)) tasks :
  Steps Grows (processTasks type name process tasks).
Proof. unfold processTasks, perform. steps. Qed.
Hint Resolve processTasks_grows : steps.

Lemma resolveProviders_grows forceInit names :
  Steps Grows (resolveProviders forceInit names).
Proof. unfold resolveProviders. steps. Qed.
Hint Resolve resolveProviders_grows : steps.

Lemma resolveProvider_grows name : Steps Grows (resolveProvider name).
Proof. unfold resolveProvider. steps. Qed.

Lemma getWorkflowConfigs_grows names : Steps Grows (getWorkflowConfigs names).
Proof. unfold getWorkflowConfigs. steps. Qed.
Hint Resolve getWorkflowConfigs_grows : steps.

Lemma resolveVersion_grows m deps force :
  Steps Grows (resolveVersion m deps force).
Proof. unfold resolveVersion, perform. steps. Qed.
Hint Resolve resolveVersion_grows : steps.

Lemma updateModule_grows byName module :
  Steps Grows (updateModule byName module).
Proof. unfold updateModule. steps. Qed.
Hint Resolve updateModule_grows : steps.

Lemma augment_grows providers moduleTypes vars provider :
  Steps Grows (augment providers moduleTypes vars provider).
Proof. unfold augment. steps. Qed.
Hint Resolve augment_grows : steps.

Lemma augmentAll_grows providers moduleTypes vars order :
  Steps Grows (augmentAll providers moduleTypes vars order).
Proof.
  revert vars. induction order as [|p order IH]; intros vars; simpl; steps.
Qed.
Hint Resolve augmentAll_grows : steps.

Lemma getConfigGraph_grows : Steps Grows getConfigGraph.
Proof. unfold getConfigGraph. steps. Qed.
Hint Resolve getConfigGraph_grows : steps.

Lemma dumpConfig_grows includeDisabled : Steps Grows (dumpConfig includeDisabled).
Proof. unfold dumpConfig. steps. Qed.

(** X6. No method of the orchestrator takes anything back: whatever
    [resolveProviders], [resolveProvider], a scan, [getRawModuleConfigs],
    [getWorkflowConfigs], [resolveVersion], [getConfigGraph] or
    [dumpConfig] do, and whether they return or throw, every module and
    workflow config registered before is still registered, unchanged, every
    provider resolved before is still resolved, every version cached before
    is still cached, loaded plugins are still loaded and scanned configs
    still scanned. *)
Theorem registries_only_grow (g : Garden) :
  (∀ forceInit names, Grows g (resolveProviders forceInit names g).2)
  ∧ (∀ name, Grows g (resolveProvider name g).2)
  ∧ (∀ force, Grows g (scanAndAddConfigs force g).2)
  ∧ (∀ keys, Grows g (getRawModuleConfigs keys g).2)
  ∧ (∀ names, Grows g (getWorkflowConfigs names g).2)
  ∧ (∀ m deps force, Grows g (resolveVersion m deps force g).2)
  ∧ Grows g (getConfigGraph g).2
  ∧ (∀ includeDisabled, Grows g (dumpConfig includeDisabled g).2).
Proof.
  split_and!; intros.
  - apply resolveProviders_grows.
  - apply resolveProvider_grows.
  - apply scanAndAddConfigs_grows.
  - apply getRawModuleConfigs_grows.
  - apply getWorkflowConfigs_grows.
  - apply resolveVersion_grows.
  - apply getConfigGraph_grows.
  - apply dumpConfig_grows.
Qed.

End GrowsMethods.

(** ** More on plugins and providers *)

Section ProvidersMore.
Context `{Collaborators}.

Lemma getPlugins_loaded g plugins :
  loadedPlugins g = Some plugins → getPlugins g = (Return plugins, g).
Proof. intros Hl. unfold getPlugins, bind, get. by rewrite Hl. Qed.

(** X7. The plugins are loaded once. When [getPlugins] returns, the
    plugins it returns are the loaded plugins of the state it leaves, and in
    every state the orchestrator can grow into from there [getPlugins]
    returns the same plugins and changes nothing. When it throws, the state
    is as it was, so that the next call loads again. *)
Theorem getPlugins_loads_once (g g1 : Garden) (plugins : list GardenPlugin.t) :
  getPlugins g = (Return plugins, g1) →
  loadedPlugins g1 = Some plugins
  ∧ (∀ g2, Grows g1 g2 → getPlugins g2 = (Return plugins, g2))
  ∧ (∀ g0 e g', getPlugins g0 = (Throw e, g') → g' = g0).
Proof.
  intros Hrun.
  assert (loadedPlugins g1 = Some plugins) as Hl.
  { unfold getPlugins, bind, get in Hrun.
    destruct (loadedPlugins g) as [ps|] eqn:Hg.
    - injection Hrun as <- <-. done.
    - pose proof (getRawProviderConfigs_state None g) as Hst.
      destruct (getRawProviderConfigs None g) as [[rawConfigs|e] g0];
        simpl in Hst; subst g0; [|done].
      unfold lift in Hrun. destruct (loadPlugins _ _) as [ps|e]; [|done].
      simpl in Hrun. injection Hrun as <- <-. done. }
  split_and!; [done|..].
  - intros g2 (_ & _ & Hp & _). apply getPlugins_loaded. by apply Hp.
  - intros g0 e g'. unfold getPlugins, bind, get.
    destruct (loadedPlugins g0) as [ps|]; [done|].
    pose proof (getRawProviderConfigs_state None g0) as Hst.
    destruct (getRawProviderConfigs None g0) as [[rawConfigs|e0] g00];
      simpl in Hst; subst g00; [|by intros [= _ <-]].
    unfold lift. destruct (loadPlugins _ _) as [ps|e0]; [done|].
    by intros [= _ <-].
Qed.

Lemma length_omap_all {A B} (f : A → option B) l :
  Forall (fun x => is_Some (f x)) l → length (omap f l) = length l.
Proof.
  induction 1 as [|x l [y Hy] _ IH]; [done|]. simpl. rewrite Hy. simpl.
  f_equal. exact IH.
Qed.

(** X8. When every requested provider is already resolved,
    [resolveProviders] returns the resolved providers, keyed by name,
    whatever [forceInit] is: no plugin is loaded, no task is processed and
    the state is left as it was. *)
Theorem resolveProviders_already_resolved (forceInit : bool)
    (names : option (list string)) (g : Garden)
    (rawConfigs : list ProviderConfig.t) :
  getRawProviderConfigs names g = (Return rawConfigs, g) →
  throwOnMissingSecretKeys _
    (fromPairs (map (fun c => (ProviderConfig.name c, c)) rawConfigs))
    (secrets g) "Provider" = Return () →
  Forall (fun name => is_Some (resolvedProviders g !! name))
    (requestedNames names rawConfigs) →
  resolveProviders forceInit names g
  = (Return (keyBy Provider.name
               (omap (fun name => resolvedProviders g !! name)
                  (requestedNames names rawConfigs))), g).
Proof.
  intros Hraw Hsec Hall.
  unfold resolveProviders, bind, get, lift. rewrite Hraw.
  fold (requestedNames names rawConfigs). rewrite Hsec.
  rewrite decide_True; [done|]. by apply length_omap_all.
Qed.

Lemma keyBy_fold_elem {V} (name : V → string) l (o : Obj V) n p :
  objGet (fold_left (fun o v => objSet o (name v) v) l o) n = Some p →
  p ∈ l ∨ objGet o n = Some p.
Proof.
  revert o. induction l as [|x l IH]; intros o Hget; [by right|].
  simpl in Hget. apply IH in Hget as [Hin|Hget].
  - left. by right.
  - destruct (decide (name x = n)) as [<-|Hne].
    + rewrite objGet_objSet in Hget. injection Hget as <-. left. by left.
    + rewrite objGet_objSet_ne in Hget by done. by right.
Qed.

Lemma keyBy_fold_registered l (o : Obj Provider.t)
    (m : gmap string Provider.t) :
  (∀ n p, objGet o n = Some p → Provider.name p = n ∧ m !! n = Some p) →
  ∀ n p,
    objGet (fold_left (fun o v => objSet o (Provider.name v) v) l o) n
    = Some p →
    Provider.name p = n
    ∧ fold_left (fun m p => <[Provider.name p := p]> m) l m !! n = Some p.
Proof.
  revert o m. induction l as [|x l IH]; intros o m Hinv n p Hget.
  { by apply Hinv. }
  simpl in *. apply (IH (objSet o (Provider.name x) x)); [|done].
  intros n' p' Hget'.
  destruct (decide (Provider.name x = n')) as [<-|Hne].
  - rewrite objGet_objSet in Hget'. injection Hget' as <-.
    by rewrite lookup_insert_eq.
  - rewrite objGet_objSet_ne in Hget' by done.
    rewrite lookup_insert_ne by done. by apply Hinv.
Qed.

(** The mapper that registers the module configs of one provider. *)
Definition registerProviderModules (provider : option Provider.t) : M (list ()) :=
  match provider with
  | Some provider =>
      bluebirdMap addModule (Provider.moduleConfigs (scopeToPlugin provider))
  | None =>
      throw (TypeError "Cannot read property 'moduleConfigs' of undefined")
  end.

Lemma registerProviderModules_grows provider :
  Steps Grows (registerProviderModules provider).
Proof.
  destruct provider; simpl.
  - apply steps_bluebirdMap; try typeclasses eauto. apply addModule_grows.
  - apply steps_throw. typeclasses eauto.
Qed.

(** What a run of [resolveProviders] that got to the cycle check and
    returned has gone through. *)
Lemma resolveProviders_returned forceInit names g rawConfigs loaded g1 vg
    providers g' :
  ReachesCycleCheck names g rawConfigs loaded g1 vg →
  resolveProviders forceInit names g = (Return providers, g') →
  ∃ taskResults outs rs g2,
    processProviderTasks
      (resolveProviderTasks g1 (keyBy GardenPlugin.name loaded) forceInit
         rawConfigs)
      (processing g1 rawConfigs) = Return taskResults
    ∧ failedResults taskResults = []
    ∧ outputs (objValues taskResults) = Return outs
    ∧ bluebirdMap registerProviderModules outs (processing g1 rawConfigs)
      = (Return rs, g2)
    ∧ providers = keyBy Provider.name (map scopeToPlugin (omap id outs))
    ∧ g' = setResolvedProviders
             (fold_left (fun m p => <[Provider.name p := p]> m)
                (map scopeToPlugin (omap id outs)) (resolvedProviders g2))
             g2.
Proof.
  intros (Hraw & Hsec & Hres & Hpl & Hvg) Hrun.
  unfold resolveProviders, bind, get, lift in Hrun. rewrite Hraw in Hrun.
  fold (requestedNames names rawConfigs) in Hrun. rewrite Hsec in Hrun.
  rewrite decide_False in Hrun by done. rewrite Hpl, Hvg in Hrun.
  destruct (decide (0 < length (detectCircularDependencies vg))); [done|].
  unfold processTasks, bind, perform, modify, get, lift in Hrun.
  rewrite providerTaskNames in Hrun. fold (processing g1 rawConfigs) in Hrun.
  destruct (processProviderTasks _ _) as [taskResults|e] eqn:Hproc; [|done].
  destruct (decide (0 < length (failedResults taskResults))) as [|Hf];
    [done|].
  destruct (outputs (objValues taskResults)) as [outs|e] eqn:Houts; [|done].
  destruct (gotCachedResult outs) as [cached|e]; [|done].
  fold registerProviderModules in Hrun.
  change (fun provider : option Provider.t =>
            match provider with
            | Some provider0 =>
                bluebirdMap addModule
                  (Provider.moduleConfigs (scopeToPlugin provider0))
            | None =>
                throw (TypeError
                         "Cannot read property 'moduleConfigs' of undefined")
            end) with registerProviderModules in Hrun.
  destruct (bluebirdMap registerProviderModules outs _) as [[rs|e] g2]
    eqn:Hreg; [|done].
  simpl in Hrun. injection Hrun as <- <-.
  exists taskResults, outs, rs, g2. split_and!; try done.
  destruct (failedResults taskResults); [done|simpl in Hf; lia].
Qed.


End ProvidersMore.

(** ** More on graph resolution *)

Section GraphMore.
Context `{Collaborators}.

(** X10. When the module tasks have been processed and at least one of
    their results carries an error, [getConfigGraph] throws one
    [ConfigurationError] that lists every failed module with the message of
    its error, in the message and in the detail; every result with an error
    is among the failed ones. *)
Theorem getConfigGraph_failed_modules (g g1 g2 : Garden)
    (providers : Obj Provider.t) (configs : list ModuleConfig.t)
    (results : TaskResults Module.t) :
  ReachesModuleTasks g providers g1 configs g2 →
  processModuleTasks (moduleTasks providers configs)
    (processingModules g2 configs) = Return results →
  failedResults results ≠ [] →
  let errors :=
    map (fun r => TaskResult.name r +:+ ": "
                    +:+ default "" (TaskResult.error r))
      (failedResults results) in
  getConfigGraph g
  = (Throw (ConfigurationError
              ("Failed resolving one or more modules:" +:+ nl +:+ nl
                 +:+ join nl errors)
              (DetailErrors errors)),
     processingModules g2 configs)
  ∧ ∀ r msg, Some r ∈ objValues results → TaskResult.error r = Some msg →
             r ∈ failedResults results.
Proof.
  intros [Hprov Hraw] Hproc Hfail errors. split.
  - unfold getConfigGraph, bind at 1. rewrite Hprov.
    unfold bind at 1. rewrite Hraw.
    unfold bind at 1, tryCatch, processTasks, bind at 1, perform, modify.
    unfold bind at 1, get, lift.
    fold (moduleTasks providers configs). rewrite moduleTaskNames.
    fold (processingModules g2 configs). rewrite Hproc.
    rewrite decide_True by by apply length_pos_nonempty. done.
  - intros r msg Hin Hmsg. apply elem_of_failedResults. eauto.
Qed.

(** X11. An error of the task graph that is not a circular-dependency
    error is thrown on by [getConfigGraph] as it is. *)
Theorem getConfigGraph_rethrows (g g1 g2 : Garden)
    (providers : Obj Provider.t) (configs : list ModuleConfig.t)
    (err : Exception) :
  ReachesModuleTasks g providers g1 configs g2 →
  processModuleTasks (moduleTasks providers configs)
    (processingModules g2 configs) = Throw err →
  (∀ text cycles, err ≠ OtherError "circular-dependencies" text cycles) →
  getConfigGraph g = (Throw err, processingModules g2 configs).
Proof.
  intros [Hprov Hraw] Hproc Hother.
  unfold getConfigGraph, bind at 1. rewrite Hprov.
  unfold bind at 1. rewrite Hraw.
  unfold bind at 1, tryCatch, processTasks, bind, perform, modify, get, lift.
  fold (moduleTasks providers configs). rewrite moduleTaskNames.
  fold (processingModules g2 configs). rewrite Hproc.
  destruct err as [m d|m d|type m cycles]; try done.
  destruct (decide (type = "circular-dependencies")) as [->|]; [|done].
  by destruct (Hother m cycles).
Qed.

(** *** Runtime dependencies *)

Lemma existsb_map_ext {A B} (f : A → B) (p : B → bool) (q : A → bool) l :
  (∀ x, p (f x) = q x) → existsb p (map f l) = existsb q l.
Proof.
  intros Hpq. induction l as [|x l IH]; [done|]. simpl. by rewrite Hpq, IH.
Qed.

Lemma pushRuntimeDependency_hasRuntimeEntity dependency by_ m :
  hasRuntimeEntity by_ (pushRuntimeDependency dependency m)
  = hasRuntimeEntity by_ m.
Proof.
  unfold hasRuntimeEntity, pushRuntimeDependency. simpl.
  f_equal; apply existsb_map_ext; intros x.
  - unfold pushServiceDependency. by destruct (decide _).
  - unfold pushTaskDependency. by destruct (decide _).
Qed.

Lemma pushRuntimeDependency_exists dependency by_ modules :
  existsb (hasRuntimeEntity by_) (map (pushRuntimeDependency dependency) modules)
  = existsb (hasRuntimeEntity by_) modules.
Proof.
  apply existsb_map_ext. intros m.
  apply pushRuntimeDependency_hasRuntimeEntity.
Qed.

(** X12. When a plugin adds a runtime dependency by a name that no service
    and no task of any resolved module has, the augmentation fails with a
    [PluginError] that names the plugin, the [by] name and the [on] name;
    the dependencies before it in the list must have found theirs. *)
Theorem addRuntimeDependencies_missing_by (provider : string)
    (modules : list Module.t) (before after : list Dependency.t)
    (dependency : Dependency.t) :
  Forall
    (fun d => existsb (hasRuntimeEntity (Dependency.by_ d)) modules = true)
    before →
  existsb (hasRuntimeEntity (Dependency.by_ dependency)) modules = false →
  addRuntimeDependencies provider modules (before ++ dependency :: after)
  = Throw (PluginError
             ("Provider '" +:+ provider
                +:+ "' added a runtime dependency by '"
                +:+ Dependency.by_ dependency +:+ "' on '"
                +:+ Dependency.on dependency +:+ "' but service or task '"
                +:+ Dependency.by_ dependency +:+ "' could not be found.")
             (DetailDependency provider (Dependency.by_ dependency)
                (Dependency.on dependency))).
Proof.
  revert modules. induction before as [|d before IH]; intros modules Hb Hn.
  - simpl. by rewrite Hn.
  - apply Forall_cons in Hb as [Hd Hb]. simpl. rewrite Hd.
    apply IH.
    + eapply Forall_impl; [exact Hb|]. intros d' Hd'. simpl in Hd'.
      by rewrite pushRuntimeDependency_exists.
    + by rewrite pushRuntimeDependency_exists.
Qed.

(** X13. A runtime dependency by a name that some service or task has is
    attached to every service and every task of that name, in every
    resolved module: each of them gets the [on] name as its last
    dependency, the services and tasks of other names are left as they
    were, and no module is added, removed or renamed. *)
Theorem addRuntimeDependencies_attaches (provider : string)
    (modules : list Module.t) (dependency : Dependency.t) :
  existsb (hasRuntimeEntity (Dependency.by_ dependency)) modules = true →
  ∃ modules',
    addRuntimeDependencies provider modules [dependency] = Return modules'
    ∧ length modules' = length modules
    ∧ ∀ i m,
        modules !! i = Some m →
        ∃ m',
          modules' !! i = Some m'
          ∧ Module.name m' = Module.name m
          ∧ ModuleConfig.buildDependencies (Module.config m')
            = ModuleConfig.buildDependencies (Module.config m)
          ∧ (∀ j s,
               ModuleConfig.serviceConfigs (Module.config m) !! j = Some s →
               ∃ s',
                 ModuleConfig.serviceConfigs (Module.config m') !! j = Some s'
                 ∧ ServiceConfig.name s' = ServiceConfig.name s
                 ∧ ServiceConfig.dependencies s'
                   = ServiceConfig.dependencies s
                       ++ (if decide (ServiceConfig.name s
                                      = Dependency.by_ dependency)
                           then [Dependency.on dependency] else []))
          ∧ (∀ j t,
               ModuleConfig.taskConfigs (Module.config m) !! j = Some t →
               ∃ t',
                 ModuleConfig.taskConfigs (Module.config m') !! j = Some t'
                 ∧ TaskConfig.name t' = TaskConfig.name t
                 ∧ TaskConfig.dependencies t'
                   = TaskConfig.dependencies t
                       ++ (if decide (TaskConfig.name t
                                      = Dependency.by_ dependency)
                           then [Dependency.on dependency] else [])).
Proof.
  intros Hfound. exists (map (pushRuntimeDependency dependency) modules).
  split_and!.
  - simpl. by rewrite Hfound.
  - apply length_map.
  - intros i m Hm. exists (pushRuntimeDependency dependency m).
    split_and!; try done.
    + change (map (pushRuntimeDependency dependency) modules)
        with (pushRuntimeDependency dependency <$> modules).
      by rewrite list_lookup_fmap, Hm.
    + intros j s Hs. exists (pushServiceDependency dependency s). split.
      * simpl.
        change (map (pushServiceDependency dependency)
                  (ModuleConfig.serviceConfigs (Module.config m)))
          with (pushServiceDependency dependency
                  <$> ModuleConfig.serviceConfigs (Module.config m)).
        by rewrite list_lookup_fmap, Hs.
      * unfold pushServiceDependency.
        destruct (decide _); [done|]. by rewrite app_nil_r.
    + intros j t Ht. exists (pushTaskDependency dependency t). split.
      * simpl.
        change (map (pushTaskDependency dependency)
                  (ModuleConfig.taskConfigs (Module.config m)))
          with (pushTaskDependency dependency
                  <$> ModuleConfig.taskConfigs (Module.config m)).
        by rewrite list_lookup_fmap, Ht.
      * unfold pushTaskDependency.
        destruct (decide _); [done|]. by rewrite app_nil_r.
Qed.

End GraphMore.

(** ** What the walk over the providers keeps *)

Section Walk.
Context `{Collaborators}.

Lemma addModules_prefix g modules specs modules' :
  addModules g modules specs = Return modules' →
  modules `prefix_of` modules'.
Proof.
  revert modules. induction specs as [|spec specs IH]; intros modules Hrun.
  - injection Hrun as <-. done.
  - simpl in Hrun. destruct (moduleFromSpec _ _ _ _) as [m|e]; [|done].
    apply IH in Hrun. etrans; [|exact Hrun]. by apply prefix_app_r.
Qed.

Lemma addBuildDependencies_names provider modules dependencies modules' :
  addBuildDependencies provider modules dependencies = Return modules' →
  map Module.name modules' = map Module.name modules.
Proof.
  revert modules. induction dependencies as [|d ds IH]; intros modules Hrun.
  - by injection Hrun as <-.
  - simpl in Hrun. unfold addBuildDependency in Hrun.
    destruct (findByName _ _ _) as [i|]; [|done].
    apply IH in Hrun. by rewrite Hrun, pushBuildDependency_names.
Qed.

Lemma addRuntimeDependencies_names provider modules dependencies modules' :
  addRuntimeDependencies provider modules dependencies = Return modules' →
  map Module.name modules' = map Module.name modules.
Proof.
  revert modules. induction dependencies as [|d ds IH]; intros modules Hrun.
  - by injection Hrun as <-.
  - simpl in Hrun. destruct (existsb _ _); [|done].
    apply IH in Hrun. by rewrite Hrun, map_map.
Qed.

Lemma augment_state providers moduleTypes vars provider :
  Preserves (fun g => g) (augment providers moduleTypes vars provider).
Proof. unfold augment. frame. Qed.

Lemma augment_keeps providers moduleTypes modules graph provider g modules'
    graph' g' :
  augment providers moduleTypes (modules, graph) provider g
  = (Return (modules', graph'), g') →
  map Module.name modules `prefix_of` map Module.name modules'.
Proof.
  unfold augment, bind, get, lift, ret. intros Hrun.
  destruct (hasAugmentGraphHandler _ _) as [[]|e]; simpl in Hrun;
    [|by injection Hrun as <- _ _|done].
  destruct graph as [gr0|];
    [|destruct (newConfigGraph modules moduleTypes) as [gr0|e]; [|done]];
    simpl in Hrun.
  all: destruct (augmentGraph _ _ _ _) as [added|e]; [|done].
  all: destruct (addModules _ _ _) as [m1|e] eqn:H1; [|done].
  all: destruct (addBuildDependencies _ _ _) as [m2|e] eqn:H2; [|done].
  all: destruct (addRuntimeDependencies _ _ _) as [m3|e] eqn:H3; [|done].
  all: injection Hrun as <- _ _.
  all: apply addModules_prefix in H1; apply addBuildDependencies_names in H2.
  all: apply addRuntimeDependencies_names in H3.
  all: rewrite H3, H2; destruct H1 as [k ->]; rewrite map_app.
  all: by apply prefix_app_r.
Qed.

Lemma augmentAll_cons providers moduleTypes vars p order :
  augmentAll providers moduleTypes vars (p :: order)
  = bind (augment providers moduleTypes vars p)
      (fun vars => augmentAll providers moduleTypes vars order).
Proof. reflexivity. Qed.

(** X14. The walk over the providers that lets plugins augment the graph
    never removes, renames or reorders a resolved module: when it returns,
    the names of the modules it started with are the first names of the
    modules it ends with, in the same order. *)
Theorem augmentAll_keeps_modules (providers : Obj Provider.t)
    (moduleTypes : ModuleTypeMap) (order : list Provider.t)
    (modules modules' : list Module.t) (graph graph' : option ConfigGraph)
    (g g' : Garden) :
  augmentAll providers moduleTypes (modules, graph) order g
  = (Return (modules', graph'), g') →
  map Module.name modules `prefix_of` map Module.name modules'.
Proof.
  revert modules graph g. induction order as [|p order IH];
    intros modules graph g Hrun.
  - by injection Hrun as <- _ _.
  - rewrite augmentAll_cons in Hrun. unfold bind in Hrun.
    destruct (augment _ _ _ _ g) as [[[m1 gr1]|e] g1] eqn:Ha; [|done].
    apply augment_keeps in Ha. apply IH in Hrun. by etrans.
Qed.

(** *** The last pass *)

Lemma fromPairs_fold_None {V} (l : list (string * V)) (o : Obj V) k :
  objGet (fold_left (fun o kv => objSet o kv.1 kv.2) l o) k = None
  ↔ (k ∉ map fst l) ∧ objGet o k = None.
Proof.
  revert o. induction l as [|[k0 v0] l IH]; intros o; simpl.
  - split; [|by intros [_ ?]]. intros Hn. split; [|done].
    apply not_elem_of_nil.
  - rewrite IH, not_elem_of_cons. simpl.
    destruct (decide (k0 = k)) as [->|Hne].
    + rewrite objGet_objSet. split; [by intros [_ ?]|by intros [[? _] _]].
    + rewrite objGet_objSet_ne by done.
      split; [by intros [? ?]|by intros [[_ ?] ?]].
Qed.

Lemma imap_names (modules : list Module.t) (f : nat → nat) :
  map fst (imap (fun i m => (Module.name m, (f i, m))) modules)
  = map Module.name modules.
Proof.
  revert f. induction modules as [|m modules IH]; intros f; [done|].
  simpl. f_equal. apply (IH (f ∘ S)).
Qed.

(** A key is found among the modules by name exactly when it is the name
    of a resolved module. *)
Lemma modulesByName_None modules key :
  objGet (modulesByName modules) key = None
  ↔ key ∉ map Module.name modules.
Proof.
  unfold modulesByName, fromPairs. rewrite fromPairs_fold_None.
  pose proof (imap_names modules (fun i => i)) as Hnames. simpl in Hnames.
  rewrite Hnames. split; [by intros [? _]|done].
Qed.

Lemma mapResult_throws {A B} (f : A → Result B) before x after e :
  Forall (fun y => ∃ b, f y = Return b) before → f x = Throw e →
  mapResult f (before ++ x :: after) = Throw e.
Proof.
  intros Hb Hx. induction Hb as [|y before [b Hy] _ IH]; simpl.
  - by rewrite Hx.
  - by rewrite Hy, IH.
Qed.

Definition dependencyKey (d : BuildDependencyConfig.t) : string :=
  getModuleKey (BuildDependencyConfig.name d) (BuildDependencyConfig.plugin d).

Lemma bluebirdMap_first_throw {A B} (f : A → M B) earlier x later g0 rs g e
    g' :
  bluebirdMap f earlier g0 = (Return rs, g) → f x g = (Throw e, g') →
  (bluebirdMap f (earlier ++ x :: later) g0).1 = Throw e.
Proof.
  revert g0 rs. induction earlier as [|y earlier IH]; intros g0 rs Hrun Hx.
  - injection Hrun as _ <-. simpl. by rewrite Hx.
  - simpl in *. destruct (f y g0) as [[b|e0] g1]; [|done].
    destruct (bluebirdMap f earlier g1) as [[bs|e0] g2] eqn:Hrest; [|done].
    injection Hrun as _ <-. specialize (IH _ _ Hrest Hx).
    destruct (bluebirdMap f (earlier ++ x :: later) g1) as [[bs'|e1] g3];
      simpl in *; [done|]. done.
Qed.

(** X15. In the last pass of [getConfigGraph], the step for a module with
    a build dependency whose key is not the name of any resolved module
    (nor the name of a property of [Object.prototype], which the lookup
    would find) throws a [ConfigurationError] that names the module and the
    key, and resolves no version for that module: the step leaves the state
    as it found it. The dependencies before it in the list must name
    resolved modules. The steps for the other modules run all the same; when
    those for the modules before it return, the pass throws that error. *)
Theorem updateModule_missing_dependency (modules : list Module.t)
    (module : Module.t) (before after : list BuildDependencyConfig.t)
    (d : BuildDependencyConfig.t) (g : Garden) :
  ModuleConfig.buildDependencies (Module.config module)
  = before ++ d :: after →
  Forall (fun d' => dependencyKey d' ∈ map Module.name modules) before →
  dependencyKey d ∉ map Module.name modules →
  dependencyKey d ∉ objectPrototypeKeys →
  let error :=
    ConfigurationError
      ("Module " +:+ Module.name module
         +:+ " specifies build dependency " +:+ dependencyKey d
         +:+ " which cannot be found.")
      (DetailDependencyName (dependencyKey d)) in
  updateModule (modulesByName modules) module g = (Throw error, g)
  ∧ ∀ earlier later g0 rs,
      bluebirdMap (updateModule (modulesByName modules)) earlier g0
      = (Return rs, g) →
      (bluebirdMap (updateModule (modulesByName modules))
         (earlier ++ module :: later) g0).1 = Throw error.
Proof.
  intros Hdeps Hbefore Hmissing _ error.
  assert (updateModule (modulesByName modules) module g = (Throw error, g))
    as Hstep.
  { unfold updateModule, bind, lift. rewrite Hdeps.
    rewrite (mapResult_throws _ _ _ _
               (missingBuildDependencyError (Module.name module)
                  (dependencyKey d))); [done| |].
    - eapply Forall_impl; [exact Hbefore|]. intros d' Hd'.
      unfold resolveBuildDependency. fold (dependencyKey d').
      destruct (objGet (modulesByName modules) (dependencyKey d')) eqn:Hget;
        [by eexists|].
      by apply modulesByName_None in Hget.
    - unfold resolveBuildDependency. fold (dependencyKey d).
      apply modulesByName_None in Hmissing. by rewrite Hmissing. }
  split; [done|]. intros earlier later g0 rs Hearlier.
  by eapply bluebirdMap_first_throw.
Qed.

End Walk.

(** ** More on versions *)

Section VersionsMore.
Context `{Collaborators}.

(** X16. A call of [resolveVersion] that throws leaves the version cache
    as it was. *)
Theorem resolveVersion_failure_keeps_cache (m : ModuleConfig.t)
    (deps : list ModuleDependency) (force : bool) (g g' : Garden)
    (e : Exception) :
  resolveVersion m deps force g = (Throw e, g') → cache g' = cache g.
Proof.
  unfold resolveVersion, bind, get, lift, perform, modify.
  destruct (if force then None else cacheGet (cache g) (versionCacheKey m deps));
    [done|].
  assert (Preserves cache (getRawModuleConfigs
                             (Some (map (fun dep => getModuleKey (depName dep)
                                                      (depPlugin dep)) deps))))
    as Hp by (by apply getRawModuleConfigs_preserves).
  specialize (Hp g).
  destruct (getRawModuleConfigs _ g) as [[dependencies|e0] g0]; simpl in *.
  - destruct (vcsResolveVersion m dependencies); [done|].
    by intros [= _ <-].
  - by intros [= _ <-].
Qed.

(** X17. Two calls of [resolveVersion] use the same cache entry exactly
    when the two module configs have the same name and the two dependency
    lists have the same names, in any order: the plugin of the module and
    the plugins of the dependencies play no part in the key. *)
Theorem versionCacheKey_same (m1 m2 : ModuleConfig.t)
    (deps1 deps2 : list ModuleDependency) :
  versionCacheKey m1 deps1 = versionCacheKey m2 deps2
  ↔ ModuleConfig.name m1 = ModuleConfig.name m2
    ∧ map depName deps1 ≡ₚ map depName deps2.
Proof.
  unfold versionCacheKey. split.
  - intros [= Hname Hsort]. split; [done|].
    by rewrite <- (sort_Permutation (map depName deps1)), Hsort,
      sort_Permutation.
  - intros [-> Hp]. do 2 f_equal. by apply sort_order_independent.
Qed.

End VersionsMore.

(** ** Provider resolution is all or nothing for the registry *)

Definition ThrowKeeps {X A} (π : Garden → X) (m : M A) : Prop :=
  ∀ g e g', m g = (Throw e, g') → π g' = π g.

Lemma throwKeeps_preserves {X A} (π : Garden → X) (m : M A) :
  Preserves π m → ThrowKeeps π m.
Proof. intros Hp g e g' Hrun. specialize (Hp g). by rewrite Hrun in Hp. Qed.

Lemma throwKeeps_bind {X A B} (π : Garden → X) (m : M A) (k : A → M B) :
  Preserves π m → (∀ a, ThrowKeeps π (k a)) → ThrowKeeps π (bind m k).
Proof.
  intros Hm Hk g e g'. unfold bind. specialize (Hm g).
  destruct (m g) as [[a|e0] g1]; simpl in Hm.
  - intros Hrun. apply Hk in Hrun. congruence.
  - intros [= _ <-]. done.
Qed.

Section AllOrNothing.
Context `{Collaborators}.

(** X19. When [resolveProviders] throws, for whatever reason (a missing
    secret, a cycle, a failed provider task, a module config of a provider
    that is declared twice), the registry of resolved providers is as it
    was: providers are registered only once everything else is through. *)
Theorem resolveProviders_throw_registers_nothing (forceInit : bool)
    (names : option (list string)) (g g' : Garden) (e : Exception) :
  resolveProviders forceInit names g = (Throw e, g') →
  resolvedProviders g' = resolvedProviders g.
Proof.
  revert g e g'. change (ThrowKeeps resolvedProviders
                           (resolveProviders forceInit names)).
  unfold resolveProviders.
  apply throwKeeps_bind; [by apply getRawProviderConfigs_preserves|].
  intros rawConfigs. cbv zeta.
  apply throwKeeps_bind; [apply preserves_get|]. intros g0.
  apply throwKeeps_bind; [apply preserves_lift|]. intros _.
  destruct (decide (length _ = length _));
    [apply throwKeeps_preserves, preserves_ret|].
  apply throwKeeps_bind; [by apply getPlugins_preserves|]. intros loaded.
  apply throwKeeps_bind; [apply preserves_lift|]. intros vg.
  destruct (decide (0 < length _));
    [apply throwKeeps_preserves, preserves_throw|].
  apply throwKeeps_bind; [apply preserves_get|]. intros g1.
  apply throwKeeps_bind; [by apply processTasks_preserves|].
  intros taskResults.
  destruct (decide (0 < length _));
    [apply throwKeeps_preserves, preserves_throw|].
  apply throwKeeps_bind; [apply preserves_lift|]. intros outs.
  apply throwKeeps_bind; [apply preserves_lift|]. intros _.
  apply throwKeeps_bind.
  { apply preserves_bluebirdMap. intros [p|]; [|apply preserves_throw].
    apply preserves_bluebirdMap. intros c. by apply addModule_preserves. }
  intros _ g2 e g2'. unfold bind, modify, ret. done.
Qed.

End AllOrNothing.

(** ** More projects to run the orchestrator on *)

Module Variant.

(** What differs from the collaborators of [Demo]. *)
Record t := mk {
  (* the module configs every resolved provider contributes *)
  providerModules : list ModuleConfig.t;
  (* the modules whose resolution task fails, with the message *)
  failingModules : Obj string;
  (* an error the task graph throws for the module tasks *)
  taskGraphError : option Exception;
}.

Definition providerResult (s : Demo.Scenario) (v : t)
    (task : ResolveProviderTask.t)
  : string * option (TaskResult.t Provider.t) :=
  let c := ResolveProviderTask.config task in
  let name := ProviderConfig.name c in
  ("resolve-provider." +:+ name,
   Some match objGet (Demo.failingProviders s) name with
        | Some msg => TaskResult.mk name None (Some msg)
        | None =>
            TaskResult.mk name
              (Some (Provider.mk name (ProviderConfig.dependencies c)
                       (providerModules v) c (Provider.mkStatus true false)
                       []))
              None
        end).

Definition moduleResult (s : Demo.Scenario) (v : t)
    (task : ResolveModuleTask.t) : string * option (TaskResult.t Module.t) :=
  let c := ResolveModuleTask.moduleConfig task in
  let name := ModuleConfig.name c in
  ("resolve-module." +:+ name,
   Some match objGet (failingModules v) name with
        | Some msg => TaskResult.mk name None (Some msg)
        | None => TaskResult.mk name (Some (Demo.moduleOf s c)) None
        end).

Definition collaborators (s : Demo.Scenario) (v : t) : Collaborators :=
  let C := Demo.collaborators s in {|
  getModuleKey := @getModuleKey C;
  getModuleCacheContext := @getModuleCacheContext C;
  relative := @relative C;
  resolve := @resolve C;
  getConfigFilePath := @getConfigFilePath C;
  detectModuleOverlap := @detectModuleOverlap C;
  loadScannedResources := @loadScannedResources C;
  findByNames := @findByNames C;
  pickKeys := @pickKeys C;
  naturalList := @naturalList C;
  throwOnMissingSecretKeys := @throwOnMissingSecretKeys C;
  ModuleTypeMap := @ModuleTypeMap C;
  loadPlugins := @loadPlugins C;
  getDependencyOrder := @getDependencyOrder C;
  getModuleTypes := @getModuleTypes C;
  getAllProviderDependencyNames := @getAllProviderDependencyNames C;
  defaultProvider := @defaultProvider C;
  detectCircularDependencies := @detectCircularDependencies C;
  cyclesToString := @cyclesToString C;
  processProviderTasks := fun tasks _ => Return (map (providerResult s v) tasks);
  processModuleTasks := fun tasks _ =>
    match taskGraphError v with
    | Some e => Throw e
    | None => Return (map (moduleResult s v) tasks)
    end;
  getResolvedModules := @getResolvedModules C;
  hasAugmentGraphHandler := @hasAugmentGraphHandler C;
  augmentGraph := @augmentGraph C;
  moduleFromSpec := @moduleFromSpec C;
  ConfigGraph := @ConfigGraph C;
  newConfigGraph := @newConfigGraph C;
  getModules := @getModules C;
  vcsResolveVersion := @vcsResolveVersion C;
  resolveWorkflowConfig := @resolveWorkflowConfig C;
|}.

End Variant.

(** ** More examples *)

Section RegistryExamples.

Definition releaseWorkflow : WorkflowConfig.t :=
  WorkflowConfig.mk "release" "workflows/release" ["deploy"].

Definition registeredRelease : Garden :=
  setWorkflowConfigs [("release", releaseWorkflow)] (Demo.garden [] []).

Lemma addWorkflow_duplicate_witness :
  ∃ pathA pathB,
    addWorkflow (H := Demo.collaborators plain)
      (WorkflowConfig.mk "release" "ci/release" ["test"]) registeredRelease
    = (Throw (ConfigurationError
                ("Workflow release is declared multiple times (in '" +:+ pathA
                   +:+ "' and '" +:+ pathB +:+ "')")
                (DetailPaths pathA pathB)), registeredRelease)
    ∧ String.le pathA pathB
    ∧ [pathA; pathB]
      ≡ₚ ["workflows/release/garden.yml"; "ci/release/garden.yml"].
Proof.
  apply (addWorkflow_duplicate (H := Demo.collaborators plain)
           registeredRelease releaseWorkflow
           (WorkflowConfig.mk "release" "ci/release" ["test"])).
  reflexivity.
Defined.

Lemma addModule_registers_witness :
  ∃ g',
    addModule (H := Demo.collaborators plain) apiConfig registeredWeb
    = (Return (), g')
    ∧ objGet (moduleConfigs g') "api" = Some apiConfig
    ∧ hasModule "api" registeredWeb = false
    ∧ hasModule "api" g' = true
    ∧ objValues (moduleConfigs g')
      = [Demo.moduleConfig "web" "services/web" []; apiConfig]
    ∧ ∀ k, k ≠ "api" →
           objGet (moduleConfigs g') k = objGet (moduleConfigs registeredWeb) k.
Proof.
  destruct (addModule_registers (H := Demo.collaborators plain) registeredWeb
              apiConfig) as (g' & Hrun & Hget & Hbefore & Hafter & Hlast & Hrest).
  - reflexivity.
  - apply (bool_decide_unpack _). vm_compute. exact I.
  - exists g'. split_and!; [done|done|done|done| |done].
    apply Hlast. reflexivity.
Defined.

(** The project of three modules, not scanned yet and scanned. *)
Definition threeModules : Garden := Demo.garden [] [].

Definition threeModulesScanned : Garden :=
  (scanAndAddConfigs (H := Demo.collaborators dirtyWeb) false threeModules).2.

Lemma scanAndAddConfigs_registers_witness :
  ∃ g',
    scanAndAddConfigs (H := Demo.collaborators dirtyWeb) false threeModules
    = (Return (), g')
    ∧ configsScanned g' = true
    ∧ objValues (moduleConfigs g') = [] ++ [] ++ [webConfig; apiConfig; appConfig]
    ∧ objValues (workflowConfigs g') = [] ++ []
    ∧ getRawModuleConfigs (H := Demo.collaborators dirtyWeb) None g'
      = (Return ([] ++ [] ++ [webConfig; apiConfig; appConfig]), g')
    ∧ scanAndAddConfigs (H := Demo.collaborators dirtyWeb) false g'
      = (Return (), g').
Proof.
  apply (scanAndAddConfigs_registers (H := Demo.collaborators dirtyWeb) false
           threeModules
           [ModuleResource webConfig; ModuleResource apiConfig;
            ModuleResource appConfig]).
  - reflexivity.
  - reflexivity.
  - reflexivity.
  - reflexivity.
  - apply (bool_decide_unpack _). vm_compute. exact I.
  - repeat (apply Forall_cons_2;
            [split; [reflexivity
                    |apply (bool_decide_unpack _); vm_compute; exact I]|]).
    apply Forall_nil_2.
  - repeat (apply Forall_cons_2; [reflexivity|]). apply Forall_nil_2.
  - constructor.
  - constructor.
  - constructor.
Defined.

Lemma scanAndAddConfigs_registered_key_witness :
  ∃ e g',
    scanAndAddConfigs (H := Demo.collaborators dirtyWeb) true
      threeModulesScanned = (Throw e, g')
    ∧ isConfigurationError e = true
    ∧ configsScanned g' = configsScanned threeModulesScanned.
Proof.
  apply (scanAndAddConfigs_registered_key (H := Demo.collaborators dirtyWeb)
           true threeModulesScanned
           [ModuleResource webConfig; ModuleResource apiConfig;
            ModuleResource appConfig] webConfig).
  - reflexivity.
  - reflexivity.
  - reflexivity.
  - reflexivity.
  - apply (bool_decide_unpack _). vm_compute. exact I.
  - constructor.
  - apply list_elem_of_here.
  - exists webConfig. vm_compute. reflexivity.
Defined.

End RegistryExamples.

Section ProviderExamples.

Lemma getPlugins_loads_once_witness :
  loadedPlugins twoProvidersLoaded = Some twoPlugins
  ∧ (∀ g2, Grows twoProvidersLoaded g2 →
           getPlugins (H := Demo.collaborators plain) g2
           = (Return twoPlugins, g2))
  ∧ (∀ g0 e g',
       getPlugins (H := Demo.collaborators plain) g0 = (Throw e, g') →
       g' = g0).
Proof.
  apply (getPlugins_loads_once (H := Demo.collaborators plain) twoProviders
           twoProvidersLoaded twoPlugins).
  reflexivity.
Defined.

Lemma resolveProviders_already_resolved_witness :
  resolveProviders (H := Demo.collaborators webApiCycle) true None
    oneProviderResolved
  = (Return [("k8s", Demo.providerOf k8sConfig)], oneProviderResolved).
Proof.
  refine (resolveProviders_already_resolved
            (H := Demo.collaborators webApiCycle) true None oneProviderResolved
            [k8sConfig] _ _ _).
  - reflexivity.
  - reflexivity.
  - repeat constructor. vm_compute. eexists. reflexivity.
Defined.

(** A provider that contributes a module config of its own. *)
Definition withIngress : Variant.t :=
  Variant.mk [Demo.moduleConfig "ingress" "ingress" []] [] None.

Definition k8sWithIngress : Provider.t :=
  Provider.mk "k8s" []
    [ModuleConfig.mk "ingress" (Some "k8s") "ingress" [] [] [] false]
    k8sConfig (Provider.mkStatus true false) [].

Definition ingressResolved : Garden :=
  (resolveProviders (H := Variant.collaborators plain withIngress) false None
     oneProvider).2.


Lemma resolveProviders_throw_registers_nothing_witness :
  resolvedProviders pqLoaded = resolvedProviders pq.
Proof.
  refine (resolveProviders_throw_registers_nothing
            (H := Demo.collaborators plain) false None pq pqLoaded
            (circularProvidersError "p <- q") _).
  vm_compute. reflexivity.
Defined.

End ProviderExamples.

Section GraphExamples.

Definition webAndApi : Demo.Scenario :=
  Demo.mkScenario
    [ModuleResource webConfig; ModuleResource apiConfig] [] [] [] false [].

Definition badApi : Variant.t :=
  Variant.mk [] [("api", "bad template")] None.

Definition timedOut : Variant.t :=
  Variant.mk [] [] (Some (OtherError "timeout" "task graph timed out" [])).

Definition k8sPlain : Provider.t :=
  Provider.mk "k8s" [] [] k8sConfig (Provider.mkStatus true false) [].

Definition webAndApiResolved (v : Variant.t) : Garden :=
  (resolveProviders (H := Variant.collaborators webAndApi v) false None
     oneProvider).2.

Definition webAndApiScanned (v : Variant.t) : Garden :=
  (getRawModuleConfigs (H := Variant.collaborators webAndApi v) None
     (webAndApiResolved v)).2.

Lemma webAndApi_reach v :
  Variant.providerModules v = [] →
  ReachesModuleTasks (H := Variant.collaborators webAndApi v) oneProvider
    [("k8s", k8sPlain)] (webAndApiResolved v) [webConfig; apiConfig]
    (webAndApiScanned v).
Proof.
  destruct v as [pm fm te]. simpl. intros ->. split; vm_compute; reflexivity.
Qed.

Lemma getConfigGraph_failed_modules_witness :
  (getConfigGraph (H := Variant.collaborators webAndApi badApi) oneProvider).1
  = Throw (ConfigurationError
             ("Failed resolving one or more modules:" +:+ nl +:+ nl
                +:+ "api: bad template")
             (DetailErrors ["api: bad template"])).
Proof.
  refine (f_equal fst
            (proj1 (getConfigGraph_failed_modules
                      (H := Variant.collaborators webAndApi badApi)
                      oneProvider (webAndApiResolved badApi)
                      (webAndApiScanned badApi) [("k8s", k8sPlain)]
                      [webConfig; apiConfig]
                      [("resolve-module.web",
                        Some (TaskResult.mk "web"
                                (Some (Demo.moduleOf webAndApi webConfig))
                                None));
                       ("resolve-module.api",
                        Some (TaskResult.mk "api" None
                                (Some "bad template")))]
                      _ _ _))).
  - by apply webAndApi_reach.
  - reflexivity.
  - discriminate.
Defined.

Lemma getConfigGraph_rethrows_witness :
  (getConfigGraph (H := Variant.collaborators webAndApi timedOut) oneProvider).1
  = Throw (OtherError "timeout" "task graph timed out" []).
Proof.
  refine (f_equal fst
            (getConfigGraph_rethrows
               (H := Variant.collaborators webAndApi timedOut) oneProvider
               (webAndApiResolved timedOut) (webAndApiScanned timedOut)
               [("k8s", k8sPlain)] [webConfig; apiConfig]
               (OtherError "timeout" "task graph timed out" []) _ _ _)).
  - by apply webAndApi_reach.
  - reflexivity.
  - discriminate.
Defined.

(** A module with a service and a task of the same name, and another
    module with a service of that name too. *)
Definition migrate : Module.t :=
  Module.mk
    (ModuleConfig.mk "db" None "db" []
       [ServiceConfig.mk "migrate" ["postgres"]; ServiceConfig.mk "postgres" []]
       [TaskConfig.mk "migrate" []] false)
    (ModuleVersion.mk "v-db" [] []) [] (Demo.moduleConfig "db" "db" []).

Definition legacy : Module.t :=
  Module.mk
    (ModuleConfig.mk "legacy" None "legacy" []
       [ServiceConfig.mk "migrate" []] [] false)
    (ModuleVersion.mk "v-legacy" [] []) []
    (Demo.moduleConfig "legacy" "legacy" []).

Lemma addRuntimeDependencies_missing_by_witness :
  addRuntimeDependencies "k8s" [migrate; legacy]
    ([Dependency.mk "postgres" "volume"]
       ++ Dependency.mk "redis" "volume" :: [Dependency.mk "migrate" "volume"])
  = Throw (PluginError
             ("Provider 'k8s' added a runtime dependency by 'redis' on "
                +:+ "'volume' but service or task 'redis' could not be found.")
             (DetailDependency "k8s" "redis" "volume")).
Proof.
  apply (addRuntimeDependencies_missing_by "k8s" [migrate; legacy]
           [Dependency.mk "postgres" "volume"]
           [Dependency.mk "migrate" "volume"]
           (Dependency.mk "redis" "volume")).
  - repeat constructor.
  - reflexivity.
Defined.

Lemma addRuntimeDependencies_attaches_witness :
  addRuntimeDependencies "k8s" [migrate; legacy]
    [Dependency.mk "migrate" "volume"]
  = Return
      [Module.mk
         (ModuleConfig.mk "db" None "db" []
            [ServiceConfig.mk "migrate" ["postgres"; "volume"];
             ServiceConfig.mk "postgres" []]
            [TaskConfig.mk "migrate" ["volume"]] false)
         (ModuleVersion.mk "v-db" [] []) [] (Demo.moduleConfig "db" "db" []);
       Module.mk
         (ModuleConfig.mk "legacy" None "legacy" []
            [ServiceConfig.mk "migrate" ["volume"]] [] false)
         (ModuleVersion.mk "v-legacy" [] []) []
         (Demo.moduleConfig "legacy" "legacy" [])].
Proof.
  destruct (addRuntimeDependencies_attaches "k8s" [migrate; legacy]
              (Dependency.mk "migrate" "volume") eq_refl)
    as (modules' & Hrun & _).
  reflexivity.
Defined.

(** The "k8s" plugin adds a module "sidecar" and a build dependency by "web"
    on it. *)
Definition withSidecar : Demo.Scenario :=
  Demo.mkScenario [ModuleResource webModuleConfig] [] []
    [("k8s",
      AugmentGraphResult.mk [Dependency.mk "web" "sidecar"] []
        [AddModuleSpec.mk "sidecar" (Some "k8s/sidecar")])]
    false [].

Definition sidecarAdded : list Module.t :=
  [Module.mk (Demo.moduleConfig "web" "web" ["sidecar"])
     (ModuleVersion.mk "v-web" [] []) [] webModuleConfig;
   Demo.moduleOf withSidecar (Demo.moduleConfig "sidecar" "k8s/sidecar" [])].

Lemma augmentAll_keeps_modules_witness :
  augmentAll (H := Demo.collaborators withSidecar)
    [("k8s", Demo.providerOf k8sConfig)] ()
    ([Demo.moduleOf withSidecar webModuleConfig], None)
    [Demo.providerOf k8sConfig] k8sGarden
  = (Return (sidecarAdded, None), k8sGarden)
  ∧ ["web"] `prefix_of` map Module.name sidecarAdded.
Proof.
  assert (augmentAll (H := Demo.collaborators withSidecar)
            [("k8s", Demo.providerOf k8sConfig)] ()
            ([Demo.moduleOf withSidecar webModuleConfig], None)
            [Demo.providerOf k8sConfig] k8sGarden
          = (Return (sidecarAdded, None), k8sGarden)) as Hrun
    by (vm_compute; reflexivity).
  split; [exact Hrun|].
  exact (augmentAll_keeps_modules (H := Demo.collaborators withSidecar)
           _ _ _ _ _ _ _ _ _ Hrun).
Defined.

(** The state the step of the last pass for "web" leaves: the configs are
    scanned and the version of "web" is in the cache. *)
Definition webVersioned : Garden :=
  (updateModule (H := Demo.collaborators plain)
     (modulesByName [Demo.moduleOf plain webConfig])
     (Demo.moduleOf plain webConfig) oneProvider).2.

(** "api" depends on "web", which is resolved, and on "ghost", which is
    not: its step throws, and so does the pass over "web" and "api", in
    which the version of "web" is resolved first. *)
Lemma updateModule_missing_dependency_witness :
  updateModule (H := Demo.collaborators plain)
    (modulesByName [Demo.moduleOf plain webConfig])
    (Demo.moduleOf plain (Demo.moduleConfig "api" "api" ["web"; "ghost"]))
    webVersioned
  = (Throw (ConfigurationError
              "Module api specifies build dependency ghost which cannot be found."
              (DetailDependencyName "ghost")), webVersioned)
  ∧ (bluebirdMap
       (updateModule (H := Demo.collaborators plain)
          (modulesByName [Demo.moduleOf plain webConfig]))
       ([Demo.moduleOf plain webConfig]
          ++ Demo.moduleOf plain (Demo.moduleConfig "api" "api" ["web"; "ghost"])
          :: [])
       oneProvider).1
    = Throw (ConfigurationError
               "Module api specifies build dependency ghost which cannot be found."
               (DetailDependencyName "ghost")).
Proof.
  destruct (updateModule_missing_dependency (H := Demo.collaborators plain)
              [Demo.moduleOf plain webConfig]
              (Demo.moduleOf plain
                 (Demo.moduleConfig "api" "api" ["web"; "ghost"]))
              [BuildDependencyConfig.mk "web" None []] []
              (BuildDependencyConfig.mk "ghost" None []) webVersioned)
    as [Hstep Hpass].
  - reflexivity.
  - repeat constructor.
  - vm_compute. intros Hin. by apply list_elem_of_In in Hin as [Hin|[]].
  - apply (bool_decide_unpack _). vm_compute. exact I.
  - split; [exact Hstep|].
    apply (Hpass [Demo.moduleOf plain webConfig] [] oneProvider
             [Module.mk webConfig (ModuleVersion.mk "v-web" [] []) []
                webConfig]).
    vm_compute. reflexivity.
Defined.

End GraphExamples.

Section MoreVersionExamples.

Definition ghostDependency : ModuleDependency :=
  DepConfig (BuildDependencyConfig.mk "ghost" None []).

Lemma resolveVersion_failure_keeps_cache_witness :
  cache (resolveVersion (H := Demo.collaborators dirtyWeb) appConfig
           [ghostDependency] false resolvedOnce).2
  = cache resolvedOnce.
Proof.
  refine (resolveVersion_failure_keeps_cache
            (H := Demo.collaborators dirtyWeb) appConfig [ghostDependency]
            false resolvedOnce _
            (OtherError "parameter" "Could not find module config: ghost" [])
            _).
  vm_compute. reflexivity.
Defined.

End MoreVersionExamples.
